(** * AI-CoDirector: the upload / preview / submit / result state machines

    A shallow embedding of the four React components of the repository

      - [ScriptTransformer]  (src/pages/ScriptTransformer.jsx)
      - [VideoAnalyzer]      (src/pages/VideoAnalyzer.jsx)
      - [ScriptWriter]       (single-file app, function ScriptWriter)
      - [EmotionDetector]    (single-file app, function EmotionDetector)

    Every component is a record of its [useState] cells; every handler is
    an action in a small state monad over the component instance and the
    browser (object URLs, network), written statement by statement after
    the source.  An [async] handler is cut at its [await fetch]: the part
    before it issues the request, the part after it is run when the
    request settles. *)

From Stdlib Require Import String Ascii List ZArith Bool Arith Lia Permutation.
Import ListNotations.
Open Scope string_scope.
Set Warnings "-register-all".

(** ** The fragment of JavaScript the handlers use *)

Module JS.

(** Strings are sequences of code units below 256.  [String.prototype.trim]
    strips white space and line terminators; below 256 these are TAB, LF,
    VT, FF, CR, SPACE and NBSP. *)
Definition is_white_space (c : ascii) : bool :=
  let n := nat_of_ascii c in
  ((n =? 9) || (n =? 10) || (n =? 11) || (n =? 12) || (n =? 13)
   || (n =? 32) || (n =? 160))%nat.

Fixpoint trimStart (s : string) : string :=
  match s with
  | String c r => if is_white_space c then trimStart r else s
  | EmptyString => EmptyString
  end.

Fixpoint trimEnd (s : string) : string :=
  match s with
  | String c r =>
      match trimEnd r with
      | EmptyString =>
          if is_white_space c then EmptyString else String c EmptyString
      | r' => String c r'
      end
  | EmptyString => EmptyString
  end.

Definition trim (s : string) : string := trimEnd (trimStart s).

(** A string of white space only (the empty string included). *)
Fixpoint blank (s : string) : bool :=
  match s with
  | String c r => is_white_space c && blank r
  | EmptyString => true
  end.

(** [s.startsWith(p)] *)
Definition startsWith (s p : string) : bool := String.prefix p s.

(** A number of a parsed body.  The handlers and the views do two things
    with a number: they test it for truthiness and they convert it to a
    string.  A number is represented by these two observations:
    whether it is zero ([0] or [-0]), and the string that
    [Number.prototype.toString] gives for it (["1"], ["0.5"],
    ["1e+21"], ...).  The model does not relate the two. *)
Record Number : Type := mkNumber {
  is_zero : bool;
  Number_toString : string
}.

(** Values as [response.json()] produces them, plus [undefined] for a
    missing property. *)
Inductive value : Type :=
| VUndefined
| VNull
| VBool (b : bool)
| VNum (n : Number)
| VStr (s : string)
| VArr (items : list value)
| VObj (fields : list (string * value)).

(** ToBoolean *)
Definition truthy (v : value) : bool :=
  match v with
  | VUndefined | VNull => false
  | VBool b => b
  | VNum n => negb (is_zero n)
  | VStr s => negb (s =? "")
  | VArr _ | VObj _ => true
  end.

(** [a || b]: the operands of the handlers have no side effect, so the
    operator is a function of their values. *)
Definition or (a b : value) : value := if truthy a then a else b.

(** [a || b] on strings (the empty string is the only falsy one). *)
Definition or_str (a b : string) : string := if a =? "" then b else a.

(** The property [k] of an object; the parser leaves an object with one
    entry per name. *)
Fixpoint lookup (k : string) (fields : list (string * value)) : value :=
  match fields with
  | [] => VUndefined
  | (k', v) :: rest => if k =? k' then v else lookup k rest
  end.

(** Error objects: [name] and [message]. *)
Record Error : Type := mkError { err_name : string; err_message : string }.

Definition TypeError (msg : string) : Error := mkError "TypeError" msg.

(** [v.k]: throws on [null] and [undefined]; on the other values none of
    the property names the handlers read exists unless [v] is an object
    that has it. *)
Definition member (v : value) (k : string) : Error + value :=
  match v with
  | VUndefined | VNull =>
      inl (TypeError ("Cannot read properties of null (reading '" ++ k ++ "')"))
  | VObj fields => inr (lookup k fields)
  | _ => inr VUndefined
  end.

(** [v?.k] *)
Definition opt_member (v : value) (k : string) : value :=
  match v with
  | VObj fields => lookup k fields
  | _ => VUndefined
  end.

Definition join (sep : string) (l : list string) : string :=
  match l with
  | [] => ""
  | x :: r => fold_left (fun acc y => acc ++ sep ++ y) r x
  end.

(** Whether an object has an own property [k]. *)
Fixpoint has_own (k : string) (fields : list (string * value)) : bool :=
  match fields with
  | [] => false
  | (k', _) :: rest => (k =? k') || has_own k rest
  end.

(** The texts of the TypeErrors of the engine are those of V8. *)
Definition cannot_convert : Error :=
  TypeError "Cannot convert object to primitive value".

(** ToString; it completes with a string or throws.  An object is
    converted by its [toString] method.  That is the method of
    [Object.prototype], which gives ["[object Object]"], unless the
    object has an own property of that name: in a parsed body such a
    property is never a function, [valueOf] (own or inherited) gives no
    primitive either, and the conversion throws.  An array is converted
    by [Array.prototype.join], element by element, [null] and
    [undefined] as the empty string. *)
Fixpoint ToString (v : value) : Error + string :=
  match v with
  | VUndefined => inr "undefined"
  | VNull => inr "null"
  | VBool true => inr "true"
  | VBool false => inr "false"
  | VNum n => inr (Number_toString n)
  | VStr s => inr s
  | VArr items =>
      match (fix each (l : list value) : Error + list string :=
               match l with
               | [] => inr []
               | x :: r =>
                   match match x with
                         | VUndefined | VNull => inr ""
                         | _ => ToString x
                         end with
                   | inl e => inl e
                   | inr s =>
                       match each r with
                       | inl e => inl e
                       | inr rest => inr (s :: rest)
                       end
                   end
               end) items with
      | inl e => inl e
      | inr parts => inr (join "," parts)
      end
  | VObj fields =>
      if has_own "toString" fields then inl cannot_convert
      else inr "[object Object]"
  end.

(** [new Error(v)] for a [v] that is not [undefined]: the message is
    [ToString v], and the construction throws when the conversion
    does. *)
Definition new_Error (v : value) : Error + Error :=
  match ToString v with
  | inl e => inl e
  | inr s => inr (mkError "Error" s)
  end.

(** [String(e)] for an error object: [Error.prototype.toString] *)
Definition String_of_Error (e : Error) : string :=
  if err_name e =? "" then err_message e
  else if err_message e =? "" then err_name e
  else err_name e ++ ": " ++ err_message e.

(** What a JSX expression of the form [{v && <element/>}] puts on the
    page: the element when [v] is truthy, and [v] itself otherwise.
    React renders nothing for [null], [undefined], [false] and the
    empty string, and the text of the number for a number that is
    zero. *)
Inductive child : Type :=
| Nothing
| Text (s : string)
| Element.

Definition and_element (v : value) : child :=
  match v with
  | VUndefined | VNull => Nothing
  | VBool b => if b then Element else Nothing
  | VNum n => if is_zero n then Text (Number_toString n) else Element
  | VStr s => if s =? "" then Nothing else Element
  | VArr _ | VObj _ => Element
  end.

End JS.

(** ** Sequencing

    Two kinds of code are sequenced in the handlers: the body of a [try]
    block, which completes with a value or throws, and a handler, which
    updates the component and the browser. *)

Class Monad (M : Type -> Type) : Type := {
  ret : forall {A : Type}, A -> M A;
  bind : forall {A B : Type}, M A -> (A -> M B) -> M B
}.

Notation "x <- c ;; k" := (bind c (fun x => k))
  (at level 61, c at next level, right associativity).
Notation "c ;; k" := (bind c (fun _ => k))
  (at level 61, right associativity).

(** The body of a [try] block. *)
Definition completion (A : Type) : Type := (JS.Error + A)%type.

Definition throw {A : Type} (e : JS.Error) : completion A := inl e.

#[export] Instance Monad_completion : Monad completion := {
  ret := fun A a => inr a;
  bind := fun A B c k => match c with inl e => inl e | inr a => k a end
}.

(** A handler over an instance of type [S]. *)
Definition Act (S A : Type) : Type := S -> A * S.

#[export] Instance Monad_Act (S : Type) : Monad (Act S) := {
  ret := fun A a s => (a, s);
  bind := fun A B c k s => let (a, s') := c s in k a s'
}.

Definition exec {S A : Type} (c : Act S A) (s : S) : S := snd (c s).

Definition get {S : Type} : Act S S := fun s => (s, s).

Definition modify {S : Type} (f : S -> S) : Act S unit := fun s => (tt, f s).

(** A handler behind a control that is rendered, or enabled, only when
    [b] holds. *)
Definition when {S : Type} (b : bool) (c : Act S unit) : Act S unit :=
  if b then c else ret tt.

(** ** The browser: files, object URLs and the network *)

Module Browser.
Import JS.

(** A [File] object.  [fid] stands for the identity of the object, which
    is what React compares when a [File] is an effect dependency. *)
Record File : Type := mkFile {
  fid : nat;
  fname : string;
  ftype : string;
  fsize : Z
}.

(** The string [URL.createObjectURL] returns, a fresh one per call (and
    never the empty string). *)
Definition url : Type := nat.

Inductive part : Type :=
| PartFile (f : File)
| PartText (s : string).

(** What a request carries: [JSON.stringify] of an object, or a
    [FormData] with its appended entries in order. *)
Inductive body : Type :=
| JsonBody (fields : list (string * value))
| FormBody (entries : list (string * part)).

Record Request : Type := mkRequest {
  req_url : string;
  req_method : string;
  req_headers : list (string * string);
  req_body : body
}.

(** A response: [ok], what [text()] resolves to, and what [json()]
    settles to (the parsed body, or the exception of the parser). *)
Record Response : Type := mkResponse {
  ok : bool;
  text : string;
  json : completion value
}.

(** The property [k] of the object a JSON request carries. *)
Definition json_field (r : Request) (k : string) : value :=
  match req_body r with
  | JsonBody fields => lookup k fields
  | FormBody _ => VUndefined
  end.

(** How the promise of [fetch] settles. *)
Inductive outcome : Type :=
| Rejected (e : Error)
| Resolved (r : Response).

Definition awaited (o : outcome) : completion Response :=
  match o with
  | Rejected e => throw e
  | Resolved r => ret r
  end.

(** [Download name content u]: a Blob of type [text/plain] that holds
    [content] was given the object URL [u], and a temporary link with
    this [href] and the [download] attribute [name] was clicked. *)
Inductive effect : Type :=
| Fetch (r : Request)
| CreateObjectURL (f : File) (u : url)
| RevokeObjectURL (u : url)
| Download (name content : string) (u : url).

Record World : Type := mkWorld {
  trace : list effect;      (* what the page has done so far, oldest first *)
  next_url : url;           (* the next object URL to hand out *)
  in_flight : nat           (* requests issued and not yet settled *)
}.

Definition fresh_world : World := mkWorld [] 0 0.

(** An instance that runs in a browser. *)
Class InBrowser (S : Type) : Type := {
  world : S -> World;
  with_world : World -> S -> S
}.

Section Calls.
Context {S : Type} `{InBrowser S}.

Definition createObjectURL (f : File) : Act S url :=
  fun s =>
    let w := world s in
    let u := next_url w in
    (u, with_world (mkWorld (trace w ++ [CreateObjectURL f u]) (Datatypes.S u)
                            (in_flight w)) s).

Definition revokeObjectURL (u : url) : Act S unit :=
  modify (fun s =>
    let w := world s in
    with_world (mkWorld (trace w ++ [RevokeObjectURL u]) (next_url w)
                        (in_flight w)) s).

(** [fetch(...)]: the request leaves; the handler resumes when it
    settles. *)
Definition fetch (r : Request) : Act S unit :=
  modify (fun s =>
    let w := world s in
    with_world (mkWorld (trace w ++ [Fetch r]) (next_url w)
                        (Datatypes.S (in_flight w))) s).

(** [URL.createObjectURL(new Blob([content], {type: 'text/plain'}))]
    and the click on a temporary link to it. *)
Definition downloadBlob (name content : string) : Act S unit :=
  modify (fun s =>
    let w := world s in
    with_world (mkWorld (trace w ++ [Download name content (next_url w)])
                        (Datatypes.S (next_url w)) (in_flight w)) s).

(** The request has settled. *)
Definition settle : Act S unit :=
  modify (fun s =>
    let w := world s in
    with_world (mkWorld (trace w) (next_url w) (pred (in_flight w))) s).

End Calls.

(** Reading the trace. *)
Definition fetches (t : list effect) : list Request :=
  flat_map (fun e => match e with Fetch r => [r] | _ => [] end) t.

Definition created (t : list effect) : list url :=
  flat_map (fun e => match e with CreateObjectURL _ u => [u] | _ => [] end) t.

Definition revoked (t : list effect) : list url :=
  flat_map (fun e => match e with RevokeObjectURL u => [u] | _ => [] end) t.

(** The object URLs of the downloads. *)
Definition saved (t : list effect) : list url :=
  flat_map (fun e => match e with Download _ _ u => [u] | _ => [] end) t.

(** The object URLs of files that are alive after a trace, and those
    already released; [None] when the trace releases a URL that is not
    alive (a release before the creation, or a second release) or
    creates a URL that was handed out before.  The URLs of downloads
    are not followed here. *)
Fixpoint replay (t : list effect) (live dead : list url)
  : option (list url * list url) :=
  match t with
  | [] => Some (live, dead)
  | Fetch _ :: t' => replay t' live dead
  | Download _ _ _ :: t' => replay t' live dead
  | CreateObjectURL _ u :: t' =>
      if existsb (Nat.eqb u) (live ++ dead) then None
      else replay t' (u :: live) dead
  | RevokeObjectURL u :: t' =>
      if existsb (Nat.eqb u) live
      then replay t' (filter (fun x => negb (Nat.eqb u x)) live) (u :: dead)
      else None
  end.

End Browser.

(** ** ScriptTransformer (src/pages/ScriptTransformer.jsx) *)

Module ScriptTransformer.
Import JS Browser.

Definition SCRIPT_API_URL_TEXT : string :=
  "https://Arjun9036-script-writer-api.hf.space/generate-script/".

Record State : Type := mkState {
  loading : bool;
  result : value;
  genre : string;
  text : string;
  error : string
}.

Definition initial : State := mkState false VNull "" "" "".

Record Instance : Type := mkInstance {
  state : State;
  browser : World
}.

#[export] Instance Instance_InBrowser : InBrowser Instance := {
  world := browser;
  with_world := fun w i => mkInstance (state i) w
}.

Definition update (f : State -> State) : Act Instance unit :=
  modify (fun i => mkInstance (f (state i)) (browser i)).

Definition setLoading (v : bool) : Act Instance unit :=
  update (fun s => mkState v (result s) (genre s) (text s) (error s)).
Definition setResult (v : value) : Act Instance unit :=
  update (fun s => mkState (loading s) v (genre s) (text s) (error s)).
Definition setGenre (v : string) : Act Instance unit :=
  update (fun s => mkState (loading s) (result s) v (text s) (error s)).
Definition setText (v : string) : Act Instance unit :=
  update (fun s => mkState (loading s) (result s) (genre s) v (error s)).
Definition setError (v : string) : Act Instance unit :=
  update (fun s => mkState (loading s) (result s) (genre s) (text s) v).

(** The request of [handleGenerate]; [selectedGenre] is
    [genre.trim() || "Screenplay"]. *)
Definition selectedGenre (s : State) : string :=
  or_str (trim (genre s)) "Screenplay".

Definition generate_request (s : State) : Request :=
  mkRequest SCRIPT_API_URL_TEXT "POST"
    [("Content-Type", "application/json")]
    (JsonBody [("original_script", VStr (text s));
               ("genre", VStr (selectedGenre s))]).

(** [handleGenerate] up to [await fetch(...)].  [s] is the state of the
    render whose closure the handler is. *)
Definition handleGenerate (s : State) : Act Instance unit :=
  if trim (text s) =? "" then ret tt
  else
    setLoading true ;;
    setError "" ;;
    setResult VNull ;;
    fetch (generate_request s).

(** The rest of the [try] block once the request has settled. *)
Definition generate_try (o : outcome) : completion value :=
  response <- awaited o ;;
  if negb (ok response)
  then e <- new_Error (VStr "Failed to generate script. Check API.") ;; throw e
  else
    data <- json response ;;
    a <- member data "structured_script" ;;
    if truthy a then ret a else member data "final_script".

Definition handleGenerate_settled (o : outcome) : Act Instance unit :=
  match generate_try o with
  | inr v => setResult v
  | inl _ =>
      setError
        "Failed to connect to the backend. Please check if the API is active."
  end ;;
  setLoading false.

(** [handleDownload]: nothing without a result; otherwise the result
    is put in a Blob (a result that is not a string is converted to one;
    the handler stops when the conversion throws), the Blob is given an
    object URL, and a temporary link saves it as
    [script_${genre || 'generated'}.txt].  The link is appended to the
    body and removed again; the URL is not revoked. *)
Definition download_name (s : State) : string :=
  "script_" ++ or_str (genre s) "generated" ++ ".txt".

Definition handleDownload (s : State) : Act Instance unit :=
  if negb (truthy (result s)) then ret tt
  else
    match ToString (result s) with
    | inl _ => ret tt
    | inr content => downloadBlob (download_name s) content
    end.

(** The view.  The Save Script button is [{result && <button .../>}]. *)
Definition generate_disabled (s : State) : bool :=
  loading s || (text s =? "").

Definition download_button (s : State) : child := and_element (result s).

Inductive panel : Type :=
| Spinner
| Script (v : value)
| Placeholder.

Definition output (s : State) : panel :=
  if loading s then Spinner
  else if truthy (result s) then Script (result s)
  else Placeholder.

Definition error_shown (s : State) : bool := negb (error s =? "").

Inductive Event : Type :=
| ChangeGenre (v : string)
| ChangeText (v : string)
| ClickGenerate
| Settled (o : outcome)
| ClickDownload.

Definition mount : Instance := mkInstance initial fresh_world.

Definition react (i : Instance) (e : Event) : Instance :=
  match e with
  | ChangeGenre v => exec (setGenre v) i
  | ChangeText v => exec (setText v) i
  | ClickGenerate =>
      if generate_disabled (state i) then i
      else exec (handleGenerate (state i)) i
  | Settled o =>
      if (in_flight (browser i) =? 0)%nat then i
      else exec (settle ;; handleGenerate_settled o) i
  | ClickDownload =>
      match download_button (state i) with
      | Element => exec (handleDownload (state i)) i
      | _ => i
      end
  end.

End ScriptTransformer.

(** ** VideoAnalyzer (src/pages/VideoAnalyzer.jsx) *)

Module VideoAnalyzer.
Import JS Browser.

Definition VIDEO_API_URL : string :=
  "https://arjun9036-multimodal-emotion-backend.hf.space/predict".

Record State : Type := mkState {
  file : option File;
  preview : option url;
  loading : bool;
  result : value;
  intendedEmotion : string;
  error : string
}.

Definition initial : State := mkState None None false VNull "" "".

(** [captured] is the value of [preview] in the closure of the cleanup
    that [useEffect(..., [preview])] has registered. *)
Record Instance : Type := mkInstance {
  state : State;
  captured : option url;
  mounted : bool;
  browser : World
}.

#[export] Instance Instance_InBrowser : InBrowser Instance := {
  world := browser;
  with_world := fun w i => mkInstance (state i) (captured i) (mounted i) w
}.

Definition update (f : State -> State) : Act Instance unit :=
  modify (fun i => mkInstance (f (state i)) (captured i) (mounted i) (browser i)).

Definition setFile (v : option File) : Act Instance unit :=
  update (fun s => mkState v (preview s) (loading s) (result s)
                           (intendedEmotion s) (error s)).
Definition setPreview (v : option url) : Act Instance unit :=
  update (fun s => mkState (file s) v (loading s) (result s)
                           (intendedEmotion s) (error s)).
Definition setLoading (v : bool) : Act Instance unit :=
  update (fun s => mkState (file s) (preview s) v (result s)
                           (intendedEmotion s) (error s)).
Definition setResult (v : value) : Act Instance unit :=
  update (fun s => mkState (file s) (preview s) (loading s) v
                           (intendedEmotion s) (error s)).
Definition setIntendedEmotion (v : string) : Act Instance unit :=
  update (fun s => mkState (file s) (preview s) (loading s) (result s)
                           v (error s)).
Definition setError (v : string) : Act Instance unit :=
  update (fun s => mkState (file s) (preview s) (loading s) (result s)
                           (intendedEmotion s) v).

Definition capture (v : option url) : Act Instance unit :=
  modify (fun i => mkInstance (state i) v (mounted i) (browser i)).

Definition setMounted (v : bool) : Act Instance unit :=
  modify (fun i => mkInstance (state i) (captured i) v (browser i)).

(** The cleanup of the effect: [if (preview) URL.revokeObjectURL(preview)]. *)
Definition cleanup (p : option url) : Act Instance unit :=
  match p with
  | Some u => revokeObjectURL u
  | None => ret tt
  end.

Definition same_url (a b : option url) : bool :=
  match a, b with
  | None, None => true
  | Some u, Some v => (u =? v)%nat
  | _, _ => false
  end.

(** After a render: when [preview] differs from the dependency of the
    last run, the old cleanup runs and the effect registers a new one. *)
Definition useEffect_preview : Act Instance unit :=
  i <- get ;;
  if same_url (preview (state i)) (captured i) then ret tt
  else cleanup (captured i) ;; capture (preview (state i)).

(** [handleFileChange]; [selected] is [e.target.files[0]]. *)
Definition handleFileChange (selected : option File) : Act Instance unit :=
  match selected with
  | Some f =>
      setFile (Some f) ;;
      u <- createObjectURL f ;;
      setPreview (Some u) ;;
      setResult VNull ;;
      setError ""
  | None => ret tt
  end.

Definition analyze_request (f : File) (s : State) : Request :=
  mkRequest VIDEO_API_URL "POST" []
    (FormBody [("video", PartFile f);
               ("user_emotion", PartText (intendedEmotion s))]).

(** [handleAnalyze] up to [await fetch(...)]. *)
Definition handleAnalyze (s : State) : Act Instance unit :=
  match file s with
  | None => setError "Please select a file first."
  | Some f =>
      setLoading true ;;
      setError "" ;;
      setResult VNull ;;
      fetch (analyze_request f s)
  end.

Definition analyze_try (o : outcome) : completion value :=
  response <- awaited o ;;
  if negb (ok response)
  then
    let errorText := Browser.text response in
    e <- new_Error (VStr (or_str errorText "Server Error")) ;; throw e
  else json response.

Definition handleAnalyze_settled (o : outcome) : Act Instance unit :=
  match analyze_try o with
  | inr data => setResult data
  | inl _ =>
      setError
        "Failed to analyze video. Ensure the file isn't too large and the backend is active."
  end ;;
  setLoading false.

(** The button on the player: [setFile(null); setPreview(null);
    setResult(null)]. *)
Definition remove : Act Instance unit :=
  setFile None ;; setPreview None ;; setResult VNull.

Definition unmount : Act Instance unit :=
  i <- get ;;
  cleanup (captured i) ;; capture None ;; setMounted false.

(** The view: the upload box is rendered when there is no preview, the
    player with its form otherwise. *)
Definition upload_shown (s : State) : bool :=
  match preview s with None => true | Some _ => false end.

Definition analyze_disabled (s : State) : bool := loading s.

(** [{result && !loading && (<div>...</div>)}] *)
Definition result_view (s : State) : child :=
  match and_element (result s) with
  | Element => if loading s then Nothing else Element
  | c => c
  end.

Definition error_shown (s : State) : bool := negb (error s =? "").

Inductive Event : Type :=
| ChooseFile (selected : option File)
| ClickRemove
| ChangeIntendedEmotion (v : string)
| ClickAnalyze
| Settled (o : outcome)
| Unmount.

Definition mount : Instance := mkInstance initial None true fresh_world.

Definition dispatch (s : State) (e : Event) : Act Instance unit :=
  match e with
  | ChooseFile selected => when (upload_shown s) (handleFileChange selected)
  | ClickRemove => when (negb (upload_shown s)) remove
  | ChangeIntendedEmotion v =>
      when (negb (upload_shown s)) (setIntendedEmotion v)
  | ClickAnalyze =>
      when (negb (upload_shown s) && negb (analyze_disabled s))
           (handleAnalyze s)
  | Settled o =>
      i <- get ;;
      when (negb (in_flight (browser i) =? 0)%nat)
           (settle ;; handleAnalyze_settled o)
  | Unmount => ret tt
  end.

(** After the component is gone the setters do nothing; a request that
    is still out settles all the same. *)
Definition react (i : Instance) (e : Event) : Instance :=
  if mounted i
  then match e with
       | Unmount => exec unmount i
       | _ => exec (dispatch (state i) e ;; useEffect_preview) i
       end
  else match e with
       | Settled _ => exec settle i
       | _ => i
       end.

End VideoAnalyzer.

(** ** ScriptWriter (single-file app) *)

Module ScriptWriter.
Import JS Browser.

Definition SCRIPT_API : string := "https://Arjun9036-script-writer-api.hf.space".

(** The options of the genre [<select>]. *)
Inductive GenreOption : Type := Drama | Thriller | Comedy | Action | Romance.

Definition option_value (g : GenreOption) : string :=
  match g with
  | Drama => "Drama"
  | Thriller => "Thriller"
  | Comedy => "Comedy"
  | Action => "Action"
  | Romance => "Romance"
  end.

Record State : Type := mkState {
  genre : string;
  text : string;
  pdf : option File;
  loading : bool;
  out : value;
  err : string
}.

Definition initial : State := mkState "Drama" "" None false VNull "".

Record Instance : Type := mkInstance {
  state : State;
  browser : World
}.

#[export] Instance Instance_InBrowser : InBrowser Instance := {
  world := browser;
  with_world := fun w i => mkInstance (state i) w
}.

Definition update (f : State -> State) : Act Instance unit :=
  modify (fun i => mkInstance (f (state i)) (browser i)).

Definition setGenre (v : string) : Act Instance unit :=
  update (fun s => mkState v (text s) (pdf s) (loading s) (out s) (err s)).
Definition setText (v : string) : Act Instance unit :=
  update (fun s => mkState (genre s) v (pdf s) (loading s) (out s) (err s)).
Definition setPdf (v : option File) : Act Instance unit :=
  update (fun s => mkState (genre s) (text s) v (loading s) (out s) (err s)).
Definition setLoading (v : bool) : Act Instance unit :=
  update (fun s => mkState (genre s) (text s) (pdf s) v (out s) (err s)).
Definition setOut (v : value) : Act Instance unit :=
  update (fun s => mkState (genre s) (text s) (pdf s) (loading s) v (err s)).
Definition setErr (v : string) : Act Instance unit :=
  update (fun s => mkState (genre s) (text s) (pdf s) (loading s) (out s) v).

(** The request of [submit]: the document endpoint when a PDF is
    selected, the text endpoint otherwise. *)
Definition submit_request (s : State) : Request :=
  match pdf s with
  | Some f =>
      mkRequest (SCRIPT_API ++ "/generate-script-from-pdf/") "POST" []
        (FormBody [("file", PartFile f); ("genre", PartText (genre s))])
  | None =>
      mkRequest (SCRIPT_API ++ "/generate-script/") "POST"
        [("Content-Type", "application/json")]
        (JsonBody [("original_script", VStr (text s));
                   ("genre", VStr (genre s))])
  end.

Definition no_input (s : State) : bool :=
  match pdf s with
  | Some _ => false
  | None => trim (text s) =? ""
  end.

(** [submit] up to [await fetch(...)]. *)
Definition submit (s : State) : Act Instance unit :=
  setErr "" ;;
  setOut VNull ;;
  if no_input s then setErr "Please paste script text or upload a PDF."
  else
    setLoading true ;;
    fetch (submit_request s).

(** The rest of the [try] block: [const data = await resp.json();
    if (!resp.ok) throw new Error(data?.detail || 'Server error')]. *)
Definition submit_try (o : outcome) : completion value :=
  resp <- awaited o ;;
  data <- json resp ;;
  if negb (ok resp)
  then e <- new_Error (or (opt_member data "detail") (VStr "Server error")) ;;
       throw e
  else ret data.

(** [e?.message || String(e)] *)
Definition message_of (e : Error) : string :=
  or_str (err_message e) (String_of_Error e).

Definition submit_settled (o : outcome) : Act Instance unit :=
  match submit_try o with
  | inr data => setOut data
  | inl e => setErr (message_of e)
  end ;;
  setLoading false.

(** The Reset button. *)
Definition reset : Act Instance unit :=
  setText "" ;; setPdf None ;; setOut VNull ;; setErr "".

(** The view. *)
Definition generate_disabled (s : State) : bool := loading s.

Definition error_shown (s : State) : bool := negb (err s =? "").

Inductive Event : Type :=
| ChangeGenre (g : GenreOption)
| ChangeText (v : string)
| FileSelected (f : option File)
| ClickGenerate
| ClickReset
| Settled (o : outcome).

Definition mount : Instance := mkInstance initial fresh_world.

Definition react (i : Instance) (e : Event) : Instance :=
  match e with
  | ChangeGenre g => exec (setGenre (option_value g)) i
  | ChangeText v => exec (setText v) i
  | FileSelected f => exec (setPdf f) i
  | ClickGenerate =>
      if generate_disabled (state i) then i else exec (submit (state i)) i
  | ClickReset => exec reset i
  | Settled o =>
      if (in_flight (browser i) =? 0)%nat then i
      else exec (settle ;; submit_settled o) i
  end.

(** The teleprompter: [out ? (out.structured_script || out.final_script
    || JSON.stringify(out, null, 2)) : '...'].  [out] is truthy where
    its properties are read, so the reads do not throw.
    [JSON.stringify] is the platform's and is taken as it is. *)
Inductive pane : Type :=
| Script (v : value)
| Placeholder.

Section Teleprompter.
Variable JSON_stringify : value -> string.

Definition teleprompter (s : State) : pane :=
  if truthy (out s)
  then Script (or (or (opt_member (out s) "structured_script")
                      (opt_member (out s) "final_script"))
                  (VStr (JSON_stringify (out s))))
  else Placeholder.

End Teleprompter.

End ScriptWriter.

(** ** EmotionDetector (single-file app) *)

Module EmotionDetector.
Import JS Browser.

Definition EMOTION_API : string :=
  "https://arjun9036-multimodal-emotion-backend.hf.space/predict".

(** [src] is [None] for the empty string.  The playback progress of
    the video element is not part of the model. *)
Record State : Type := mkState {
  file : option File;
  src : option url;
  emotion : string;
  result : value;
  error : string;
  loading : bool
}.

Definition initial : State := mkState None None "" VNull "" false.

(** The effect on [[file]]: [deps] is the [file] of its last run and
    [registered] the URL its cleanup will revoke, if it returned one. *)
Record Instance : Type := mkInstance {
  state : State;
  deps : option File;
  registered : option url;
  mounted : bool;
  browser : World
}.

#[export] Instance Instance_InBrowser : InBrowser Instance := {
  world := browser;
  with_world :=
    fun w i => mkInstance (state i) (deps i) (registered i) (mounted i) w
}.

Definition update (f : State -> State) : Act Instance unit :=
  modify (fun i => mkInstance (f (state i)) (deps i) (registered i)
                              (mounted i) (browser i)).

Definition setFile (v : option File) : Act Instance unit :=
  update (fun s => mkState v (src s) (emotion s) (result s) (error s) (loading s)).
Definition setSrc (v : option url) : Act Instance unit :=
  update (fun s => mkState (file s) v (emotion s) (result s) (error s) (loading s)).
Definition setEmotion (v : string) : Act Instance unit :=
  update (fun s => mkState (file s) (src s) v (result s) (error s) (loading s)).
Definition setResult (v : value) : Act Instance unit :=
  update (fun s => mkState (file s) (src s) (emotion s) v (error s) (loading s)).
Definition setError (v : string) : Act Instance unit :=
  update (fun s => mkState (file s) (src s) (emotion s) (result s) v (loading s)).
Definition setLoading (v : bool) : Act Instance unit :=
  update (fun s => mkState (file s) (src s) (emotion s) (result s) (error s) v).

Definition setDeps (v : option File) : Act Instance unit :=
  modify (fun i => mkInstance (state i) v (registered i) (mounted i) (browser i)).
Definition register (v : option url) : Act Instance unit :=
  modify (fun i => mkInstance (state i) (deps i) v (mounted i) (browser i)).
Definition setMounted (v : bool) : Act Instance unit :=
  modify (fun i => mkInstance (state i) (deps i) (registered i) v (browser i)).

(** [Object.is] on [File | null]. *)
Definition same_file (a b : option File) : bool :=
  match a, b with
  | None, None => true
  | Some f, Some g => (fid f =? fid g)%nat
  | _, _ => false
  end.

Definition cleanup (r : option url) : Act Instance unit :=
  match r with
  | Some u => revokeObjectURL u
  | None => ret tt
  end.

(** [useEffect(() => { if (!file) { setSrc(''); return; } const url =
    URL.createObjectURL(file); setSrc(url); return () =>
    URL.revokeObjectURL(url); }, [file])] after a render. *)
Definition useEffect_file : Act Instance unit :=
  i <- get ;;
  if same_file (file (state i)) (deps i) then ret tt
  else
    cleanup (registered i) ;;
    setDeps (file (state i)) ;;
    match file (state i) with
    | None => setSrc None ;; register None
    | Some f =>
        u <- createObjectURL f ;;
        setSrc (Some u) ;;
        register (Some u)
    end.

Definition MAX_SIZE : Z := 50 * 1024 * 1024.

Definition onFileSelected (f : option File) : Act Instance unit :=
  setError "" ;;
  setResult VNull ;;
  match f with
  | None => setFile None
  | Some f =>
      if negb (startsWith (ftype f) "video/")
      then setError "Please upload a valid video file"
      else if (fsize f >? MAX_SIZE)%Z
      then setError "File too large (50MB max)"
      else setFile (Some f)
  end.

Definition analyze_request (f : File) (s : State) : Request :=
  mkRequest EMOTION_API "POST" []
    (FormBody [("video", PartFile f); ("user_emotion", PartText (emotion s))]).

(** [analyze] up to [await fetch(...)]. *)
Definition analyze (s : State) : Act Instance unit :=
  match file s with
  | Some f =>
      if trim (emotion s) =? ""
      then setError "Upload video and enter intended emotion"
      else
        setLoading true ;;
        setError "" ;;
        setResult VNull ;;
        fetch (analyze_request f s)
  | None => setError "Upload video and enter intended emotion"
  end.

Definition analyze_try (o : outcome) : completion value :=
  r <- awaited o ;;
  data <- json r ;;
  if negb (ok r)
  then e <- new_Error (or (opt_member data "detail") (VStr "Server error")) ;;
       throw e
  else ret data.

Definition message_of (e : Error) : string :=
  or_str (err_message e) (String_of_Error e).

Definition analyze_settled (o : outcome) : Act Instance unit :=
  match analyze_try o with
  | inr data => setResult data
  | inl e => setError (message_of e)
  end ;;
  setLoading false.

(** The Clear button. *)
Definition clear : Act Instance unit :=
  setFile None ;; setSrc None ;; setEmotion "" ;; setResult VNull ;; setError "".

Definition unmount : Act Instance unit :=
  i <- get ;;
  cleanup (registered i) ;; register None ;; setMounted false.

(** The view. *)
Definition analyze_disabled (s : State) : bool := loading s.

(** [{result && (<div>...</div>)}] *)
Definition result_view (s : State) : child := and_element (result s).

Definition error_shown (s : State) : bool := negb (error s =? "").

Inductive Event : Type :=
| FileSelected (f : option File)
| ChangeEmotion (v : string)
| ClickAnalyze
| ClickClear
| Settled (o : outcome)
| Unmount.

Definition mount : Instance := mkInstance initial None None true fresh_world.

Definition dispatch (s : State) (e : Event) : Act Instance unit :=
  match e with
  | FileSelected f => onFileSelected f
  | ChangeEmotion v => setEmotion v
  | ClickAnalyze => when (negb (analyze_disabled s)) (analyze s)
  | ClickClear => clear
  | Settled o =>
      i <- get ;;
      when (negb (in_flight (browser i) =? 0)%nat)
           (settle ;; analyze_settled o)
  | Unmount => ret tt
  end.

Definition react (i : Instance) (e : Event) : Instance :=
  if mounted i
  then match e with
       | Unmount => exec unmount i
       | _ => exec (dispatch (state i) e ;; useEffect_file) i
       end
  else match e with
       | Settled _ => exec settle i
       | _ => i
       end.

End EmotionDetector.

(** ** The four flows as controllers *)

Record Controller : Type := mkController {
  instance : Type;
  event : Type;
  mount : instance;
  react : instance -> event -> instance;
  submit_click : event;                 (* the click on the submit button *)
  pending : instance -> bool;           (* [loading] *)
  browser : instance -> Browser.World
}.

Definition run (c : Controller) (events : list (event c)) : instance c :=
  fold_left (react c) events (mount c).

Inductive flow : Type :=
| ScriptTransformerFlow
| VideoAnalyzerFlow
| ScriptWriterFlow
| EmotionDetectorFlow.

Definition controller (f : flow) : Controller :=
  match f with
  | ScriptTransformerFlow =>
      mkController ScriptTransformer.Instance ScriptTransformer.Event
        ScriptTransformer.mount ScriptTransformer.react
        ScriptTransformer.ClickGenerate
        (fun i => ScriptTransformer.loading (ScriptTransformer.state i))
        ScriptTransformer.browser
  | VideoAnalyzerFlow =>
      mkController VideoAnalyzer.Instance VideoAnalyzer.Event
        VideoAnalyzer.mount VideoAnalyzer.react
        VideoAnalyzer.ClickAnalyze
        (fun i => VideoAnalyzer.loading (VideoAnalyzer.state i))
        VideoAnalyzer.browser
  | ScriptWriterFlow =>
      mkController ScriptWriter.Instance ScriptWriter.Event
        ScriptWriter.mount ScriptWriter.react
        ScriptWriter.ClickGenerate
        (fun i => ScriptWriter.loading (ScriptWriter.state i))
        ScriptWriter.browser
  | EmotionDetectorFlow =>
      mkController EmotionDetector.Instance EmotionDetector.Event
        EmotionDetector.mount EmotionDetector.react
        EmotionDetector.ClickAnalyze
        (fun i => EmotionDetector.loading (EmotionDetector.state i))
        EmotionDetector.browser
  end.

(** The two flows that own a preview. *)
Record PreviewOwner : Type := mkPreviewOwner {
  owner : Controller;
  held : instance owner -> option Browser.url;   (* the URL the instance has to release *)
  shown : instance owner -> option Browser.url;  (* the [src] of the video element *)
  alive : instance owner -> bool;                (* not yet unmounted *)
  teardown : event owner
}.

Inductive preview_flow : Type :=
| VideoAnalyzerPreview
| EmotionDetectorPreview.

Definition preview_owner (f : preview_flow) : PreviewOwner :=
  match f with
  | VideoAnalyzerPreview =>
      mkPreviewOwner (controller VideoAnalyzerFlow)
        VideoAnalyzer.captured
        (fun i => VideoAnalyzer.preview (VideoAnalyzer.state i))
        VideoAnalyzer.mounted VideoAnalyzer.Unmount
  | EmotionDetectorPreview =>
      mkPreviewOwner (controller EmotionDetectorFlow)
        EmotionDetector.registered
        (fun i => EmotionDetector.src (EmotionDetector.state i))
        EmotionDetector.mounted EmotionDetector.Unmount
  end.

Definition to_list {A : Type} (o : option A) : list A :=
  match o with
  | Some a => [a]
  | None => []
  end.

(** ** Sample inputs *)

Module Sample.
Import JS Browser.

Definition clip : File := mkFile 1 "take1.mp4" "video/mp4" 2097152.
Definition retake : File := mkFile 2 "take2.mov" "video/quicktime" 4194304.
Definition notes : File := mkFile 3 "notes.pdf" "application/pdf" 1024.
Definition feature : File := mkFile 4 "feature.mp4" "video/mp4" 52428801.

Definition success (data : value) : outcome :=
  Resolved (mkResponse true "" (inr data)).

Definition verdict : value :=
  VObj [("predicted_emotion", VStr "Joy");
        ("confidence", VNum (mkNumber false "1"));
        ("match", VBool true)].

End Sample.

(** ** How a response with a non-success status is reported

    [message r] is the error message the flow displays once the request
    has settled with the response [r]. *)

Section Reporting.
Import JS Browser.

(** The message is the [detail] the server put in the JSON body,
    converted to a string when it is not one (["Error"] when the
    conversion gives the empty string, the message of the exception
    when the conversion throws); it is ['Server error'] when the body
    has no truthy [detail], and the message of the parser's exception
    when the body is not JSON. *)
Definition reports_server_detail (message : Response -> string) : Prop :=
  forall r : Response,
    ok r = false ->
    (forall data m,
        json r = inr data -> opt_member data "detail" = VStr m -> m <> "" ->
        message r = m) /\
    (forall data d s,
        json r = inr data -> opt_member data "detail" = d -> truthy d = true ->
        ToString d = inr s ->
        message r = or_str s "Error") /\
    (forall data d e,
        json r = inr data -> opt_member data "detail" = d -> truthy d = true ->
        ToString d = inl e ->
        message r = or_str (err_message e) (String_of_Error e)) /\
    (forall data,
        json r = inr data -> truthy (opt_member data "detail") = false ->
        message r = "Server error") /\
    (forall e,
        json r = inl e -> err_message e <> "" -> message r = err_message e).

(** The message is the same whatever the body holds. *)
Definition reports_fixed_message (fixed : string)
  (message : Response -> string) : Prop :=
  forall r : Response, ok r = false -> message r = fixed.

End Reporting.

(** ** Invariants of the instances a run reaches *)

Section Invariants.
Import JS Browser.

(** One submission at a time: [loading] tells whether a request is out;
    while one is out nothing is displayed, and a result is never
    displayed with an error. *)
Definition submission_inv (loading : bool) (result : value) (error : string)
  (w : World) : Prop :=
  in_flight w = Nat.b2n loading /\
  (loading = true -> error = "" /\ result = VNull) /\
  (truthy result = true -> error = "").

(** The object URLs alive are the one the instance holds, if any; the
    trace has released all the others, once each. *)
Definition urls_inv (held : option url) (w : World) : Prop :=
  exists dead,
    replay (trace w) [] [] = Some (to_list held, dead) /\
    forall u, In u (to_list held ++ dead) -> u < next_url w.

Definition ScriptTransformer_inv (i : ScriptTransformer.Instance) : Prop :=
  let s := ScriptTransformer.state i in
  submission_inv (ScriptTransformer.loading s) (ScriptTransformer.result s)
                 (ScriptTransformer.error s) (ScriptTransformer.browser i).

Definition ScriptWriter_inv (i : ScriptWriter.Instance) : Prop :=
  let s := ScriptWriter.state i in
  submission_inv (ScriptWriter.loading s) (ScriptWriter.out s)
                 (ScriptWriter.err s) (ScriptWriter.browser i) /\
  exists g, ScriptWriter.genre s = ScriptWriter.option_value g.

Definition VideoAnalyzer_inv (i : VideoAnalyzer.Instance) : Prop :=
  let s := VideoAnalyzer.state i in
  urls_inv (VideoAnalyzer.captured i) (VideoAnalyzer.browser i) /\
  if VideoAnalyzer.mounted i
  then submission_inv (VideoAnalyzer.loading s) (VideoAnalyzer.result s)
                      (VideoAnalyzer.error s) (VideoAnalyzer.browser i) /\
       VideoAnalyzer.captured i = VideoAnalyzer.preview s /\
       (VideoAnalyzer.file s = None -> VideoAnalyzer.preview s = None)
  else in_flight (VideoAnalyzer.browser i) <= 1 /\
       VideoAnalyzer.captured i = None.

(** EmotionDetector keeps the first part of [submission_inv] only: it
    can hold a result beside an error. *)
Definition EmotionDetector_inv (i : EmotionDetector.Instance) : Prop :=
  let s := EmotionDetector.state i in
  urls_inv (EmotionDetector.registered i) (EmotionDetector.browser i) /\
  if EmotionDetector.mounted i
  then in_flight (EmotionDetector.browser i)
         = Nat.b2n (EmotionDetector.loading s) /\
       EmotionDetector.same_file (EmotionDetector.file s)
                                 (EmotionDetector.deps i) = true /\
       EmotionDetector.src s = EmotionDetector.registered i /\
       (EmotionDetector.deps i = None <-> EmotionDetector.registered i = None)
  else in_flight (EmotionDetector.browser i) <= 1 /\
       EmotionDetector.registered i = None.

Definition reachable_inv (f : flow) : instance (controller f) -> Prop :=
  match f with
  | ScriptTransformerFlow => ScriptTransformer_inv
  | VideoAnalyzerFlow => VideoAnalyzer_inv
  | ScriptWriterFlow => ScriptWriter_inv
  | EmotionDetectorFlow => EmotionDetector_inv
  end.

End Invariants.

(** ** FileDrop (single-file app) *)

Module FileDrop.
Import Browser.

(** [onFiles]: [files] is the [FileList] of the drop or of the input,
    [None] when it is [null].  Only its first file is passed on. *)
Definition onFiles {S : Type} (onFileSelected : option File -> Act S unit)
  (files : option (list File)) : Act S unit :=
  match files with
  | Some (f :: _) => onFileSelected (Some f)
  | _ => onFileSelected None
  end.

End FileDrop.

(** A drop on the FileDrop of a mounted EmotionDetector: the handler,
    then the effect of the render that follows. *)
Definition EmotionDetector_drop (files : option (list Browser.File))
  (i : EmotionDetector.Instance) : EmotionDetector.Instance :=
  if EmotionDetector.mounted i
  then exec (FileDrop.onFiles EmotionDetector.onFileSelected files ;;
             EmotionDetector.useEffect_file) i
  else i.

(** A drop on the FileDrop of ScriptWriter: [onFileSelected] is
    [(f) => setPdf(f)]. *)
Definition ScriptWriter_drop (files : option (list Browser.File))
  (i : ScriptWriter.Instance) : ScriptWriter.Instance :=
  exec (FileDrop.onFiles ScriptWriter.setPdf files) i.

(** ** More of the four flows *)

(** The event of a flow that tells its request has settled. *)
Definition settled (f : flow) : Browser.outcome -> event (controller f) :=
  match f return Browser.outcome -> event (controller f) with
  | ScriptTransformerFlow => ScriptTransformer.Settled
  | VideoAnalyzerFlow => VideoAnalyzer.Settled
  | ScriptWriterFlow => ScriptWriter.Settled
  | EmotionDetectorFlow => EmotionDetector.Settled
  end.

(** Whether the model still has the component.  VideoAnalyzer and
    EmotionDetector are unmounted by their [Unmount] event; the models
    of the two script flows have no such event.  A render that throws
    (React refuses an object as a child) takes the whole tree down:
    that is outside the model, which keeps the component. *)
Definition is_mounted (f : flow) : instance (controller f) -> bool :=
  match f return instance (controller f) -> bool with
  | ScriptTransformerFlow => fun _ => true
  | VideoAnalyzerFlow => VideoAnalyzer.mounted
  | ScriptWriterFlow => fun _ => true
  | EmotionDetectorFlow => EmotionDetector.mounted
  end.

(** The result cell and the error cell of a flow. *)
Definition result_of (f : flow) : instance (controller f) -> JS.value :=
  match f return instance (controller f) -> JS.value with
  | ScriptTransformerFlow =>
      fun i => ScriptTransformer.result (ScriptTransformer.state i)
  | VideoAnalyzerFlow => fun i => VideoAnalyzer.result (VideoAnalyzer.state i)
  | ScriptWriterFlow => fun i => ScriptWriter.out (ScriptWriter.state i)
  | EmotionDetectorFlow =>
      fun i => EmotionDetector.result (EmotionDetector.state i)
  end.

Definition error_of (f : flow) : instance (controller f) -> string :=
  match f return instance (controller f) -> string with
  | ScriptTransformerFlow =>
      fun i => ScriptTransformer.error (ScriptTransformer.state i)
  | VideoAnalyzerFlow => fun i => VideoAnalyzer.error (VideoAnalyzer.state i)
  | ScriptWriterFlow => fun i => ScriptWriter.err (ScriptWriter.state i)
  | EmotionDetectorFlow =>
      fun i => EmotionDetector.error (EmotionDetector.state i)
  end.

(** What the user has entered: the cells a submission reads. *)
Inductive Draft : Type :=
| TransformerDraft (text genre : string)
| AnalyzerDraft (file : option Browser.File) (preview : option Browser.url)
                (intendedEmotion : string)
| WriterDraft (genre text : string) (pdf : option Browser.File)
| DetectorDraft (file : option Browser.File) (src : option Browser.url)
                (emotion : string).

Definition draft_of (f : flow) : instance (controller f) -> Draft :=
  match f return instance (controller f) -> Draft with
  | ScriptTransformerFlow =>
      fun i => let s := ScriptTransformer.state i in
               TransformerDraft (ScriptTransformer.text s)
                                (ScriptTransformer.genre s)
  | VideoAnalyzerFlow =>
      fun i => let s := VideoAnalyzer.state i in
               AnalyzerDraft (VideoAnalyzer.file s) (VideoAnalyzer.preview s)
                             (VideoAnalyzer.intendedEmotion s)
  | ScriptWriterFlow =>
      fun i => let s := ScriptWriter.state i in
               WriterDraft (ScriptWriter.genre s) (ScriptWriter.text s)
                           (ScriptWriter.pdf s)
  | EmotionDetectorFlow =>
      fun i => let s := EmotionDetector.state i in
               DetectorDraft (EmotionDetector.file s) (EmotionDetector.src s)
                             (EmotionDetector.emotion s)
  end.

(** What the result expression of the view evaluates to: the element
    that displays the result, a text, or nothing (the two script flows
    have a ternary, and show their placeholder or spinner then).  The
    children of the element are not part of this. *)
Definition result_panel (f : flow) : instance (controller f) -> JS.child :=
  match f return instance (controller f) -> JS.child with
  | ScriptTransformerFlow =>
      fun i => match ScriptTransformer.output (ScriptTransformer.state i) with
               | ScriptTransformer.Script _ => JS.Element
               | _ => JS.Nothing
               end
  | VideoAnalyzerFlow =>
      fun i => VideoAnalyzer.result_view (VideoAnalyzer.state i)
  | ScriptWriterFlow =>
      fun i => if JS.truthy (ScriptWriter.out (ScriptWriter.state i))
               then JS.Element else JS.Nothing
  | EmotionDetectorFlow =>
      fun i => EmotionDetector.result_view (EmotionDetector.state i)
  end.

(** The file a flow with a preview has selected. *)
Definition selected_file (p : preview_flow)
  : instance (owner (preview_owner p)) -> option Browser.File :=
  match p return instance (owner (preview_owner p)) -> option Browser.File with
  | VideoAnalyzerPreview => fun i => VideoAnalyzer.file (VideoAnalyzer.state i)
  | EmotionDetectorPreview =>
      fun i => EmotionDetector.file (EmotionDetector.state i)
  end.

(** ** What a well-formed request of each flow looks like *)

Section Requests.
Import JS Browser.

Definition video_within_limit (f : File) : Prop :=
  startsWith (ftype f) "video/" = true /\ (fsize f <= 50 * 1024 * 1024)%Z.

Definition EmotionDetector_request_ok (r : Request) : Prop :=
  exists f e,
    r = mkRequest EmotionDetector.EMOTION_API "POST" []
          (FormBody [("video", PartFile f); ("user_emotion", PartText e)]) /\
    video_within_limit f /\ blank e = false.

Definition ScriptTransformer_request_ok (r : Request) : Prop :=
  exists t g,
    r = mkRequest ScriptTransformer.SCRIPT_API_URL_TEXT "POST"
          [("Content-Type", "application/json")]
          (JsonBody [("original_script", VStr t); ("genre", VStr g)]) /\
    blank t = false /\ g <> "" /\ trim g = g.

Definition ScriptWriter_request_ok (r : Request) : Prop :=
  (exists f g,
     r = mkRequest
           "https://Arjun9036-script-writer-api.hf.space/generate-script-from-pdf/"
           "POST" []
           (FormBody [("file", PartFile f);
                      ("genre", PartText (ScriptWriter.option_value g))])) \/
  (exists t g,
     r = mkRequest
           "https://Arjun9036-script-writer-api.hf.space/generate-script/"
           "POST" [("Content-Type", "application/json")]
           (JsonBody [("original_script", VStr t);
                      ("genre", VStr (ScriptWriter.option_value g))]) /\
     blank t = false).

(** The selection of EmotionDetector has passed its gate, and so has
    the file of every request sent. *)
Definition EmotionDetector_gate (i : EmotionDetector.Instance) : Prop :=
  (forall f, EmotionDetector.file (EmotionDetector.state i) = Some f ->
             video_within_limit f) /\
  Forall EmotionDetector_request_ok
         (fetches (trace (EmotionDetector.browser i))).

End Requests.

(** ** A request that fails without a status *)

Section Failures.
Import JS Browser.

(** The request threw [e]: [fetch] rejected with it, or the response
    was a success whose body is not JSON and [json()] rejected with
    it. *)
Definition breaks_with (o : outcome) (e : Error) : Prop :=
  o = Rejected e \/
  exists r, o = Resolved r /\ ok r = true /\ json r = inl e.

(** The [try] block of a flow once its request has settled. *)
Definition attempt (f : flow) : outcome -> completion value :=
  match f with
  | ScriptTransformerFlow => ScriptTransformer.generate_try
  | VideoAnalyzerFlow => VideoAnalyzer.analyze_try
  | ScriptWriterFlow => ScriptWriter.submit_try
  | EmotionDetectorFlow => EmotionDetector.analyze_try
  end.

(** The message of an exception, its name when it has no message. *)
Definition exception_text (e : Error) : string :=
  if err_message e =? "" then err_name e else err_message e.

(** What each flow displays when its request threw [e]: the two pages
    have a fixed text in their [catch] block, the two flows of the
    single-file app display [e?.message || String(e)]. *)
Definition failure_message (f : flow) (e : Error) : string :=
  match f with
  | ScriptTransformerFlow =>
      "Failed to connect to the backend. Please check if the API is active."
  | VideoAnalyzerFlow =>
      "Failed to analyze video. Ensure the file isn't too large and the backend is active."
  | ScriptWriterFlow | EmotionDetectorFlow => exception_text e
  end.

End Failures.

(** ** AICoDirectorApp (single-file app): theme, tabs and the flow shown *)

Module CoDirector.
Import JS Browser.

(** [String.prototype.toLowerCase] on code units below 256: the letters
    A to Z and the capital letters of Latin-1 (all of 192 to 222 but the
    multiplication sign). *)
Definition lower_unit (c : ascii) : ascii :=
  let n := nat_of_ascii c in
  if ((65 <=? n) && (n <=? 90)
      || (192 <=? n) && (n <=? 222) && negb (n =? 215))%nat
  then ascii_of_nat (n + 32)
  else c.

Fixpoint toLowerCase (s : string) : string :=
  match s with
  | String c r => String (lower_unit c) (toLowerCase r)
  | EmptyString => EmptyString
  end.

Inductive Theme : Type := dark | light.

Definition theme_value (t : Theme) : string :=
  match t with
  | dark => "dark"
  | light => "light"
  end.

(** [s === 'dark' ? 'light' : 'dark'] *)
Definition other (t : Theme) : Theme :=
  match t with
  | dark => light
  | light => dark
  end.

(** [window.localStorage]: its items, or [Blocked] when every access
    throws. *)
Inductive Storage : Type :=
| Blocked
| Items (items : list (string * string)).

Definition SecurityError : Error :=
  mkError "SecurityError" "The operation is insecure.".

Fixpoint item (k : string) (items : list (string * string)) : option string :=
  match items with
  | [] => None
  | (k', v) :: rest => if k =? k' then Some v else item k rest
  end.

Fixpoint store (k v : string) (items : list (string * string))
  : list (string * string) :=
  match items with
  | [] => [(k, v)]
  | (k', v') :: rest =>
      if k =? k' then (k, v) :: rest else (k', v') :: store k v rest
  end.

Definition getItem (k : string) (st : Storage) : completion (option string) :=
  match st with
  | Blocked => throw SecurityError
  | Items items => ret (item k items)
  end.

Definition setItem (k v : string) (st : Storage) : completion Storage :=
  match st with
  | Blocked => throw SecurityError
  | Items items => ret (Items (store k v items))
  end.

Definition THEME_KEY : string := "ai_codirector_theme".

(** [window.matchMedia && window.matchMedia('(prefers-color-scheme:
    dark)').matches]; [matchMedia] is [None] when the browser has none. *)
Definition prefersDark (matchMedia : option bool) : bool :=
  match matchMedia with
  | Some matches => matches
  | None => false
  end.

(** The initializer of the theme cell. *)
Definition initial_theme (st : Storage) (matchMedia : option bool) : Theme :=
  match (stored <- getItem THEME_KEY st ;;
         match stored with
         | Some v =>
             if v =? "dark" then ret dark
             else if v =? "light" then ret light
             else ret (if prefersDark matchMedia then dark else light)
         | None => ret (if prefersDark matchMedia then dark else light)
         end) with
  | inr t => t
  | inl _ => dark
  end.

Inductive Tab : Type := script | emotion.

Definition same_tab (a b : Tab) : bool :=
  match a, b with
  | script, script | emotion, emotion => true
  | _, _ => false
  end.

(** The flow that is rendered. *)
Inductive Child : Type :=
| Writer (i : ScriptWriter.Instance)
| Detector (i : EmotionDetector.Instance).

(** [orphans] counts the requests of flows that were unmounted before
    their request settled; [data_ai_theme] is the attribute of the
    document element. *)
Record App : Type := mkApp {
  theme : Theme;
  tab : Tab;
  child : Child;
  orphans : nat;
  storage : Storage;
  data_ai_theme : option string
}.

Definition page (a : App) : World :=
  match child a with
  | Writer i => ScriptWriter.browser i
  | Detector i => EmotionDetector.browser i
  end.

(** The effect on [[theme]]: [try { localStorage.setItem(...) } catch {}]
    and [setAttribute('data-ai-theme', theme)]. *)
Definition persist (a : App) : App :=
  mkApp (theme a) (tab a) (child a) (orphans a)
        (match setItem THEME_KEY (theme_value (theme a)) (storage a) with
         | inr st => st
         | inl _ => storage a
         end)
        (Some (theme_value (theme a))).

(** [setTheme]: the effect runs when the theme has changed. *)
Definition setTheme (t : Theme) (a : App) : App :=
  match theme a, t with
  | dark, dark | light, light => a
  | _, _ =>
      persist (mkApp t (tab a) (child a) (orphans a) (storage a)
                     (data_ai_theme a))
  end.

Definition mount (st : Storage) (matchMedia : option bool) : App :=
  persist (mkApp (initial_theme st matchMedia) script
                 (Writer ScriptWriter.mount) 0 st None).

(** The button of the header: [setTheme(isDark ? 'light' : 'dark')]. *)
Definition toggle (a : App) : App := setTheme (other (theme a)) a.

(** A [keydown] event; [key] is [None] when the event has none. *)
Record KeyEvent : Type := mkKeyEvent {
  ctrlKey : bool;
  metaKey : bool;
  key : option string
}.

(** The [keydown] handler; the boolean tells whether it called
    [preventDefault]. *)
Definition keydown (e : KeyEvent) (a : App) : App * bool :=
  let isCtrl := ctrlKey e || metaKey e in
  let k := toLowerCase (match key e with Some k => k | None => "" end) in
  if isCtrl && (k =? "t")
  then (setTheme (other (theme a)) a, true)
  else (a, false).

(** A flow mounted in a page that has a history. *)
Definition carry (w : World) : World := mkWorld (trace w) (next_url w) 0.

Definition show (t : Tab) (w : World) : Child :=
  match t with
  | script => Writer (ScriptWriter.mkInstance ScriptWriter.initial (carry w))
  | emotion =>
      Detector (EmotionDetector.mkInstance EmotionDetector.initial
                                           None None true (carry w))
  end.

(** The flow is unmounted: the cleanups of its effects run. *)
Definition leave (c : Child) : World :=
  match c with
  | Writer i => ScriptWriter.browser i
  | Detector i =>
      EmotionDetector.browser (EmotionDetector.react i EmotionDetector.Unmount)
  end.

(** [setActive(t)]: [tab === 'script' ? <ScriptWriter/> :
    <EmotionDetector/>]; the flow in place stays when the tab is the
    one already active. *)
Definition setTab (t : Tab) (a : App) : App :=
  if same_tab t (tab a) then a
  else
    let w := leave (child a) in
    mkApp (theme a) t (show t w) (orphans a + in_flight w) (storage a)
          (data_ai_theme a).

Inductive Event : Type :=
| ClickTheme
| KeyDown (e : KeyEvent)
| ClickTab (t : Tab)
| InWriter (e : ScriptWriter.Event)
| InDetector (e : EmotionDetector.Event)
| OrphanSettled.

Definition with_child (c : Child) (a : App) : App :=
  mkApp (theme a) (tab a) c (orphans a) (storage a) (data_ai_theme a).

(** The events of a flow reach the flow that is rendered; the unmounting
    of the detector is the app's doing, not an event of the user. *)
Definition react (a : App) (e : Event) : App :=
  match e with
  | ClickTheme => toggle a
  | KeyDown k => fst (keydown k a)
  | ClickTab t => setTab t a
  | InWriter ev =>
      match child a with
      | Writer i => with_child (Writer (ScriptWriter.react i ev)) a
      | Detector _ => a
      end
  | InDetector ev =>
      match child a, ev with
      | Detector _, EmotionDetector.Unmount => a
      | Detector i, _ => with_child (Detector (EmotionDetector.react i ev)) a
      | Writer _, _ => a
      end
  | OrphanSettled =>
      mkApp (theme a) (tab a) (child a) (pred (orphans a)) (storage a)
            (data_ai_theme a)
  end.

Definition run (st : Storage) (matchMedia : option bool)
  (events : list Event) : App :=
  fold_left react events (mount st matchMedia).

(** The preview URL the rendered flow holds. *)
Definition held_url (a : App) : option url :=
  match child a with
  | Writer _ => None
  | Detector i => EmotionDetector.registered i
  end.

(** Whether the rendered flow is waiting for its request. *)
Definition waiting (a : App) : bool :=
  match child a with
  | Writer i => ScriptWriter.loading (ScriptWriter.state i)
  | Detector i => EmotionDetector.loading (EmotionDetector.state i)
  end.

(** The events that flip the theme: the button, and the shortcut
    Ctrl or Cmd with T. *)
Definition is_shortcut (e : KeyEvent) : bool :=
  (ctrlKey e || metaKey e)
  && match key e with
     | Some k => (k =? "t") || (k =? "T")
     | None => false
     end.

Definition flips (e : Event) : bool :=
  match e with
  | ClickTheme => true
  | KeyDown k => is_shortcut k
  | _ => false
  end.

(** What a run reaches: the rendered flow is mounted and keeps its own
    invariant, the tab names it. *)
Definition inv (a : App) : Prop :=
  match child a with
  | Writer i => tab a = script /\ ScriptWriter_inv i /\
                urls_inv None (ScriptWriter.browser i)
  | Detector i => tab a = emotion /\ EmotionDetector_inv i /\
                  EmotionDetector.mounted i = true
  end.

(** What [persist] leaves behind in an app started on the storage [st]:
    the attribute and the theme item are the current theme, and the
    other items are those of [st]. *)
Definition persisted (st : Storage) (a : App) : Prop :=
  data_ai_theme a = Some (theme_value (theme a)) /\
  match st, storage a with
  | Blocked, Blocked => True
  | Items items0, Items items =>
      item THEME_KEY items = Some (theme_value (theme a)) /\
      forall k, k <> THEME_KEY -> item k items = item k items0
  | _, _ => False
  end.


End CoDirector.

(** ** useInjectThemeTransition (single-file app) *)

Module ThemeTransition.

Definition STYLE_ID : string := "ai-codirector-theme-transition-style".

(** The elements of the document that carry an id, each with the
    identity of its node. *)
Record Document : Type := mkDocument {
  elements : list (nat * string);
  next_node : nat
}.

Definition getElementById (id : string) (d : Document) : option nat :=
  match filter (fun e => snd e =? id) (elements d) with
  | e :: _ => Some (fst e)
  | [] => None
  end.

(** The effect of the hook: nothing when an element with the id exists;
    otherwise a new style element is appended to the head, and the
    cleanup the effect returns removes that element. *)
Definition inject (d : Document) : Document * option nat :=
  match getElementById STYLE_ID d with
  | Some _ => (d, None)
  | None =>
      (mkDocument (elements d ++ [(next_node d, STYLE_ID)])
                  (S (next_node d)),
       Some (next_node d))
  end.

(** [style.remove()] *)
Definition remove (node : nat) (d : Document) : Document :=
  mkDocument (filter (fun e => negb (fst e =? node)%nat) (elements d))
             (next_node d).

(** Components that use the hook: each is mounted once, with the
    cleanup its effect returned, and unmounted at most once. *)
Inductive User : Type :=
| Mounted (cleanup : option nat)
| Unmounted.

Record Page : Type := mkPage {
  document : Document;
  users : list User
}.

Inductive Event : Type :=
| Mount
| Unmount (k : nat).

Fixpoint set_nth (k : nat) (u : User) (l : list User) : list User :=
  match l, k with
  | [], _ => []
  | _ :: r, O => u :: r
  | x :: r, S k' => x :: set_nth k' u r
  end.

Definition react (p : Page) (e : Event) : Page :=
  match e with
  | Mount =>
      let (d, cleanup) := inject (document p) in
      mkPage d (users p ++ [Mounted cleanup])
  | Unmount k =>
      match nth_error (users p) k with
      | Some (Mounted (Some node)) =>
          mkPage (remove node (document p)) (set_nth k Unmounted (users p))
      | Some (Mounted None) =>
          mkPage (document p) (set_nth k Unmounted (users p))
      | _ => p
      end
  end.

Definition run (d : Document) (events : list Event) : Page :=
  fold_left react events (mkPage d []).

(** The number of elements that carry the id of the style. *)
Definition styles (d : Document) : nat :=
  length (filter (fun e => snd e =? STYLE_ID) (elements d)).

(** The identities of the nodes in the document are older than the next
    one that is created. *)
Definition fresh (d : Document) : Prop :=
  forall e, In e (elements d) -> fst e < next_node d.

End ThemeTransition.

(** ** The router app (src/App.js, src/pages/Home.js)

    Three routes; the page of the route is mounted when the route is
    entered and unmounted when it is left. *)

Module StoryFlow.
Import Browser.

(** The routes of [App]: ["/"], ["/script-transformer"] and
    ["/video-analyzer"]. *)
Inductive Route : Type := home | script_transformer | video_analyzer.

(** The page that is rendered; Home has no state of its own. *)
Inductive View : Type :=
| AtHome (w : World)
| AtTransformer (i : ScriptTransformer.Instance)
| AtAnalyzer (i : VideoAnalyzer.Instance).

(** [orphans] counts the requests of pages that were left before their
    request settled. *)
Record App : Type := mkApp {
  view : View;
  orphans : nat
}.

Definition route (v : View) : Route :=
  match v with
  | AtHome _ => home
  | AtTransformer _ => script_transformer
  | AtAnalyzer _ => video_analyzer
  end.

Definition same_route (a b : Route) : bool :=
  match a, b with
  | home, home | script_transformer, script_transformer
  | video_analyzer, video_analyzer => true
  | _, _ => false
  end.

Definition page (a : App) : World :=
  match view a with
  | AtHome w => w
  | AtTransformer i => ScriptTransformer.browser i
  | AtAnalyzer i => VideoAnalyzer.browser i
  end.

Definition mount : App := mkApp (AtHome fresh_world) 0.

(** The page is unmounted: the cleanups of its effects run. *)
Definition leave (v : View) : World :=
  match v with
  | AtHome w => w
  | AtTransformer i => ScriptTransformer.browser i
  | AtAnalyzer i =>
      VideoAnalyzer.browser (VideoAnalyzer.react i VideoAnalyzer.Unmount)
  end.

Definition show (r : Route) (w : World) : View :=
  match r with
  | home => AtHome (CoDirector.carry w)
  | script_transformer =>
      AtTransformer
        (ScriptTransformer.mkInstance ScriptTransformer.initial
                                      (CoDirector.carry w))
  | video_analyzer =>
      AtAnalyzer
        (VideoAnalyzer.mkInstance VideoAnalyzer.initial None true
                                  (CoDirector.carry w))
  end.

(** [navigate] to the path of [r]; the page stays when its route is
    the one entered. *)
Definition navigate (r : Route) (a : App) : App :=
  if same_route r (route (view a)) then a
  else
    let w := leave (view a) in
    mkApp (show r w) (orphans a + in_flight w).

(** The two cards of Home ([navigate('/script-transformer')] and
    [navigate('/video-analyzer')]), the Back to Home button of the two
    pages ([navigate('/')]), a move in the history of the browser, and
    the events of the page shown. *)
Inductive Event : Type :=
| ClickScriptCard
| ClickVideoCard
| ClickBack
| Visit (r : Route)
| InTransformer (e : ScriptTransformer.Event)
| InAnalyzer (e : VideoAnalyzer.Event)
| OrphanSettled.

Definition react (a : App) (e : Event) : App :=
  match e with
  | ClickScriptCard =>
      match view a with
      | AtHome _ => navigate script_transformer a
      | _ => a
      end
  | ClickVideoCard =>
      match view a with
      | AtHome _ => navigate video_analyzer a
      | _ => a
      end
  | ClickBack =>
      match view a with
      | AtHome _ => a
      | _ => navigate home a
      end
  | Visit r => navigate r a
  | InTransformer ev =>
      match view a with
      | AtTransformer i =>
          mkApp (AtTransformer (ScriptTransformer.react i ev)) (orphans a)
      | _ => a
      end
  | InAnalyzer ev =>
      match view a, ev with
      | AtAnalyzer _, VideoAnalyzer.Unmount => a
      | AtAnalyzer i, _ =>
          mkApp (AtAnalyzer (VideoAnalyzer.react i ev)) (orphans a)
      | _, _ => a
      end
  | OrphanSettled => mkApp (view a) (pred (orphans a))
  end.

Definition run (events : list Event) : App := fold_left react events mount.

(** The preview URL the page shown holds. *)
Definition held_url (a : App) : option url :=
  match view a with
  | AtAnalyzer i => VideoAnalyzer.captured i
  | _ => None
  end.

(** What a run reaches: the page shown is mounted and keeps its own
    invariant. *)
Definition inv (a : App) : Prop :=
  match view a with
  | AtHome w => urls_inv None w /\ in_flight w = 0
  | AtTransformer i =>
      ScriptTransformer_inv i /\ urls_inv None (ScriptTransformer.browser i)
  | AtAnalyzer i => VideoAnalyzer_inv i /\ VideoAnalyzer.mounted i = true
  end.

(** The URLs of the downloads are older than the next URL and are not
    the URL of any file. *)
Definition downloads_kept (w : World) : Prop :=
  forall u, In u (saved (trace w)) ->
            u < next_url w /\ ~ In u (created (trace w)).

End StoryFlow.

Arguments JS.trim : simpl never.
Arguments ScriptTransformer.generate_try : simpl never.
Arguments VideoAnalyzer.analyze_try : simpl never.
Arguments ScriptWriter.submit_try : simpl never.
Arguments EmotionDetector.analyze_try : simpl never.
Arguments EmotionDetector.MAX_SIZE : simpl never.

(** * Properties *)

(** ** Runs *)

Lemma run_snoc (c : Controller) (events : list (event c)) (e : event c) :
  run c (events ++ [e]) = react c (run c events) e.
Proof. unfold run. rewrite fold_left_app. reflexivity. Qed.

Lemma run_invariant (c : Controller) (P : instance c -> Prop) :
  P (mount c) ->
  (forall i e, P i -> P (react c i e)) ->
  forall events, P (run c events).
Proof.
  intros Hmount Hreact events.
  induction events as [|e events IH] using rev_ind.
  - exact Hmount.
  - rewrite run_snoc. apply Hreact, IH.
Qed.

(** ** [trim] *)

Section Trim.
Import JS.

Lemma trimStart_empty (s : string) : trimStart s = "" <-> blank s = true.
Proof.
  induction s as [|c r IH]; cbn.
  - tauto.
  - destruct (is_white_space c); cbn.
    + exact IH.
    + split; discriminate.
Qed.

Lemma trimEnd_empty (s : string) : trimEnd s = "" <-> blank s = true.
Proof.
  induction s as [|c r IH]; cbn.
  - tauto.
  - destruct (trimEnd r) as [|c' r'] eqn:E.
    + destruct (is_white_space c); cbn.
      * tauto.
      * split; discriminate.
    + split; [discriminate|].
      rewrite andb_true_iff. intros [_ Hr].
      apply IH in Hr. discriminate.
Qed.

Lemma trimStart_head (s : string) (c : ascii) (r : string) :
  trimStart s = String c r -> is_white_space c = false.
Proof.
  induction s as [|c0 r0 IH]; cbn.
  - discriminate.
  - destruct (is_white_space c0) eqn:E.
    + exact IH.
    + intros [= <- _]. exact E.
Qed.

Lemma trim_empty (s : string) : trim s = "" <-> blank s = true.
Proof.
  unfold trim. rewrite trimEnd_empty. split.
  - intros H. apply trimStart_empty.
    destruct (trimStart s) as [|c r] eqn:E; [reflexivity|].
    apply trimStart_head in E. cbn in H. rewrite E in H. discriminate.
  - intros H. apply trimStart_empty in H. rewrite H. reflexivity.
Qed.

Lemma trimStart_split (s : string) :
  exists l, s = l ++ trimStart s /\ blank l = true.
Proof.
  induction s as [|c r (l & Hl & Hb)]; cbn.
  - exists "". auto.
  - destruct (is_white_space c) eqn:E.
    + exists (String c l). cbn. rewrite E, Hb. split; [congruence|reflexivity].
    + exists "". auto.
Qed.

Lemma trimEnd_split (s : string) :
  exists r, s = trimEnd s ++ r /\ blank r = true.
Proof.
  induction s as [|c s (r & Hr & Hb)]; cbn.
  - exists "". auto.
  - destruct (trimEnd s) as [|c' s'] eqn:E.
    + destruct (is_white_space c) eqn:Ec.
      * exists (String c r). cbn in *. rewrite Ec, Hb. split; [congruence|reflexivity].
      * exists r. cbn in *. split; [congruence|assumption].
    + exists r. cbn in *. split; [congruence|assumption].
Qed.

Lemma append_assoc (a b c : string) : (a ++ b) ++ c = a ++ b ++ c.
Proof. induction a as [|x a IH]; cbn; congruence. Qed.

(** [trim] removes a blank prefix and a blank suffix. *)
Lemma trim_split (s : string) :
  exists l r, s = l ++ trim s ++ r /\ blank l = true /\ blank r = true.
Proof.
  destruct (trimStart_split s) as (l & Hl & Hbl).
  destruct (trimEnd_split (trimStart s)) as (r & Hr & Hbr).
  exists l, r. unfold trim. rewrite <- Hr. auto.
Qed.

Lemma trimEnd_idempotent (s : string) : trimEnd (trimEnd s) = trimEnd s.
Proof.
  induction s as [|c r IH]; cbn; [reflexivity|].
  destruct (trimEnd r) as [|c' r'] eqn:E.
  - destruct (is_white_space c) eqn:Ec; cbn; [reflexivity|].
    rewrite Ec. reflexivity.
  - cbn. cbn in IH. rewrite IH. reflexivity.
Qed.

Lemma trimEnd_head (s : string) (c : ascii) (r : string) :
  trimEnd s = String c r -> exists r', s = String c r'.
Proof.
  destruct s as [|c0 r0]; cbn; [discriminate|].
  destruct (trimEnd r0); [destruct (is_white_space c0)|];
    intros [= <- _]; eauto.
Qed.

(** What is left has no white space at either end. *)
Lemma trim_idempotent (s : string) : trim (trim s) = trim s.
Proof.
  unfold trim.
  destruct (trimEnd (trimStart s)) as [|c r] eqn:E; [reflexivity|].
  destruct (trimEnd_head _ _ _ E) as (r' & Hs).
  apply trimStart_head in Hs.
  cbn [trimStart]. rewrite Hs, <- E. apply trimEnd_idempotent.
Qed.

End Trim.

Open Scope list_scope.

(** ** Object URLs along a trace *)

Section Replay.
Import Browser.

Lemma replay_app (t1 t2 : list effect) :
  forall live dead,
    replay (t1 ++ t2) live dead =
    match replay t1 live dead with
    | Some (live', dead') => replay t2 live' dead'
    | None => None
    end.
Proof.
  induction t1 as [|e t1 IH]; intros live dead; cbn.
  - reflexivity.
  - destruct e as [r|f u|u|n c u].
    + apply IH.
    + destruct (existsb (Nat.eqb u) (live ++ dead)); [reflexivity|apply IH].
    + destruct (existsb (Nat.eqb u) live); [apply IH|reflexivity].
    + apply IH.
Qed.

Lemma existsb_eqb_In (u : url) (l : list url) :
  existsb (Nat.eqb u) l = true <-> In u l.
Proof.
  rewrite existsb_exists. split.
  - intros (x & Hx & E). apply Nat.eqb_eq in E. subst x. exact Hx.
  - intros H. exists u. split; [assumption|apply Nat.eqb_refl].
Qed.

Lemma existsb_eqb_fresh (u : url) (l : list url) :
  (forall x, In x l -> x < u) -> existsb (Nat.eqb u) l = false.
Proof.
  intros H. destruct (existsb (Nat.eqb u) l) eqn:E; [|reflexivity].
  apply existsb_eqb_In, H in E. lia.
Qed.

Lemma remove_one (u : url) (l : list url) :
  NoDup l -> In u l ->
  Permutation l (u :: filter (fun x => negb (Nat.eqb u x)) l).
Proof.
  induction 1 as [|x l Hx Hnd IH]; cbn; [tauto|].
  intros [->|Hin].
  - rewrite Nat.eqb_refl. cbn. constructor.
    rewrite forallb_filter_id; [reflexivity|].
    apply forallb_forall. intros y Hy.
    destruct (Nat.eqb_spec u y); [subst; contradiction|reflexivity].
  - destruct (Nat.eqb_spec u x) as [->|Hne]; [contradiction|]. cbn.
    rewrite perm_swap. constructor. apply IH, Hin.
Qed.

(** A trace that replays creates no URL twice, and releases exactly
    the URLs that are not alive at its end, each of them once. *)
Lemma replay_sound (t : list effect) :
  forall live0 dead0 live dead,
    replay t live0 dead0 = Some (live, dead) ->
    NoDup (live0 ++ dead0) ->
    NoDup (live ++ dead) /\
    Permutation (created t ++ live0 ++ dead0) (live ++ dead) /\
    Permutation (revoked t ++ dead0) dead.
Proof.
  induction t as [|e t IH]; intros live0 dead0 live dead; cbn.
  - intros [= <- <-] Hnd. auto.
  - destruct e as [r|f u|u|n c u]; cbn; [| | |apply IH].
    + apply IH.
    + destruct (existsb (Nat.eqb u) (live0 ++ dead0)) eqn:E; [discriminate|].
      intros Hr Hnd.
      assert (Hu : ~ In u (live0 ++ dead0)).
      { intros Hin. apply existsb_eqb_In in Hin. congruence. }
      destruct (IH _ _ _ _ Hr) as (H1 & H2 & H3).
      { cbn. constructor; assumption. }
      repeat split; try assumption.
      rewrite <- H2. cbn. apply Permutation_middle.
    + destruct (existsb (Nat.eqb u) live0) eqn:E; [|discriminate].
      apply existsb_eqb_In in E.
      intros Hr Hnd.
      assert (Hp : Permutation (live0 ++ dead0)
                     (filter (fun x => negb (Nat.eqb u x)) live0 ++ u :: dead0)).
      { rewrite <- Permutation_middle.
        rewrite (remove_one u live0) at 1; [reflexivity| |assumption].
        apply NoDup_app_remove_r in Hnd. assumption. }
      destruct (IH _ _ _ _ Hr) as (H1 & H2 & H3).
      { eapply Permutation_NoDup; eassumption. }
      repeat split; try assumption.
      * rewrite <- H2, Hp. reflexivity.
      * rewrite <- H3. apply Permutation_middle.
Qed.

(** Once nothing is alive, the created URLs are the revoked ones. *)
Lemma replay_balanced (t : list effect) (dead : list url) :
  replay t [] [] = Some ([], dead) ->
  NoDup (created t) /\ Permutation (created t) (revoked t).
Proof.
  intros H. destruct (replay_sound _ _ _ _ _ H) as (H1 & H2 & H3).
  { constructor. }
  cbn in *. rewrite !app_nil_r in *.
  split.
  - eapply Permutation_NoDup; [symmetry; eassumption|assumption].
  - rewrite H2, H3. reflexivity.
Qed.

End Replay.

(** ** The invariants hold along every run *)

Ltac finish :=
  cbn in *; intuition (try discriminate; try congruence; try lia).

(** The click on Save Script, case by case. *)
Ltac download :=
  unfold ScriptTransformer.download_button, ScriptTransformer.handleDownload,
    exec; cbn;
  repeat match goal with
         | |- context [match JS.and_element ?r with _ => _ end] =>
             destruct (JS.and_element r); cbn
         | |- context [if negb (JS.truthy ?r) then _ else _] =>
             destruct (JS.truthy r) eqn:?; cbn
         | |- context [match JS.ToString ?r with _ => _ end] =>
             destruct (JS.ToString r); cbn
         end.

Ltac cases :=
  repeat (unfold exec; cbn;
          match goal with
          | |- context [if ?c then _ else _] => destruct c
          | |- context [match ?c with Some _ => _ | None => _ end] => destruct c
          end);
  unfold exec; cbn.

Ltac branches :=
  repeat (unfold exec, when; cbn;
          match goal with
          | |- context [(?x =? ?x)%nat] => rewrite Nat.eqb_refl
          | H : (?a =? ?b)%nat = true |- context [(?a =? ?b)%nat] => rewrite H
          | |- context [if ?c then _ else _] => destruct c
          | |- context [match ?c with Some _ => _ | None => _ end] => destruct c
          | |- context [match ?c with inl _ => _ | inr _ => _ end] => destruct c
          | |- context [match JS.and_element ?r with _ => _ end] =>
              destruct (JS.and_element r)
          end);
  unfold exec, when; cbn.

Section UrlFacts.
Import Browser.

Lemma urls_inv_fetch (h : option url) (t : list effect) (n k k' : nat)
  (r : Request) :
  urls_inv h (mkWorld t n k) -> urls_inv h (mkWorld (t ++ [Fetch r]) n k').
Proof.
  intros (dead & Hr & Hb). exists dead. cbn in *.
  rewrite replay_app, Hr. auto.
Qed.

Lemma urls_inv_create (t : list effect) (n k k' : nat) (f : File) :
  urls_inv None (mkWorld t n k) ->
  urls_inv (Some n) (mkWorld (t ++ [CreateObjectURL f n]) (S n) k').
Proof.
  intros (dead & Hr & Hb). exists dead. cbn in *.
  rewrite replay_app, Hr. cbn.
  rewrite existsb_eqb_fresh by exact Hb.
  split; [reflexivity|].
  intros u [<-|Hu]; [lia|]. apply Hb in Hu. lia.
Qed.

Lemma urls_inv_revoke (t : list effect) (n k k' : nat) (u : url) :
  urls_inv (Some u) (mkWorld t n k) ->
  urls_inv None (mkWorld (t ++ [RevokeObjectURL u]) n k').
Proof.
  intros (dead & Hr & Hb). exists (u :: dead). cbn in *.
  rewrite replay_app, Hr. cbn.
  rewrite Nat.eqb_refl. cbn.
  split; [reflexivity|]. exact Hb.
Qed.

End UrlFacts.

Section ScriptTransformerFacts.
Import JS Browser ScriptTransformer.

Lemma ScriptTransformer_inv_mount : ScriptTransformer_inv mount.
Proof. repeat split; cbn; auto; discriminate. Qed.

Lemma ScriptTransformer_inv_react (i : Instance) (e : Event) :
  ScriptTransformer_inv i -> ScriptTransformer_inv (react i e).
Proof.
  destruct i as [[l r g t er] [tr nu inf]].
  unfold ScriptTransformer_inv, submission_inv. cbn.
  intros (H1 & H2 & H3).
  destruct e as [v|v| |o|]; cbn; auto.
  - unfold generate_disabled, handleGenerate; cbn.
    destruct l; cbn; auto.
    destruct (t =? ""); cbn; auto.
    destruct (trim t =? ""); cbn; auto.
  - destruct inf as [|inf]; cbn; auto.
    destruct l; [|discriminate].
    destruct (H2 eq_refl) as [-> ->].
    unfold handleGenerate_settled.
    destruct (generate_try o) as [err|v]; cbn;
      repeat split; auto; try discriminate; lia.
  - download; intuition congruence.
Qed.

End ScriptTransformerFacts.

Section ScriptWriterFacts.
Import JS Browser ScriptWriter.

Lemma ScriptWriter_inv_mount : ScriptWriter_inv mount.
Proof.
  split; [repeat split; cbn; auto; discriminate|].
  exists Drama. reflexivity.
Qed.

Lemma ScriptWriter_inv_react (i : Instance) (e : Event) :
  ScriptWriter_inv i -> ScriptWriter_inv (react i e).
Proof.
  destruct i as [[g t p l o er] [tr nu inf]].
  unfold ScriptWriter_inv, submission_inv. cbn.
  intros ((H1 & H2 & H3) & Hg).
  destruct e as [g'|v|f| | |o']; cbn.
  - split; [auto|exists g'; reflexivity].
  - auto.
  - auto.
  - unfold generate_disabled, submit, no_input; cbn.
    destruct l; cbn; [auto|].
    split; [|destruct p; [|destruct (trim t =? "")]; exact Hg].
    destruct p; [|destruct (trim t =? "")]; cbn;
      repeat split; auto; discriminate.
  - split; [|exact Hg].
    repeat split; auto.
  - destruct inf as [|inf]; cbn; [auto|].
    destruct l; [|discriminate].
    destruct (H2 eq_refl) as [-> ->].
    unfold submit_settled.
    destruct (submit_try o') as [e|v]; cbn;
      (split; [|exact Hg]); repeat split; auto; try discriminate; lia.
Qed.

End ScriptWriterFacts.

Section VideoAnalyzerFacts.
Import JS Browser VideoAnalyzer.

Lemma same_url_refl (p : option url) : same_url p p = true.
Proof. destruct p; cbn; [apply Nat.eqb_refl|reflexivity]. Qed.

Lemma VideoAnalyzer_inv_mount : VideoAnalyzer_inv mount.
Proof.
  split.
  - exists []. cbn. split; [reflexivity|tauto].
  - cbn. repeat split; auto; discriminate.
Qed.

Lemma VideoAnalyzer_inv_react (i : Instance) (e : Event) :
  VideoAnalyzer_inv i -> VideoAnalyzer_inv (react i e).
Proof.
  destruct i as [[fi pv l r em er] cap [|] [tr nu inf]];
    unfold VideoAnalyzer_inv, submission_inv, react, exec; cbn.
  - intros (Hu & (H1 & H2 & H3) & -> & Hf).
    destruct e as [sel| |v| |o|]; cbn.
    + destruct pv as [u|]; cbn.
      * rewrite Nat.eqb_refl. cbn. finish.
      * destruct sel as [f|]; cbn.
        -- split; [apply urls_inv_create with (k := inf); exact Hu|]. finish.
        -- finish.
    + destruct pv as [u|]; cbn.
      * split; [apply urls_inv_revoke with (k := inf); exact Hu|]. finish.
      * finish.
    + destruct pv as [u|]; cbn.
      * rewrite Nat.eqb_refl. cbn. finish.
      * finish.
    + destruct pv as [u|]; cbn.
      * destruct l; cbn.
        -- rewrite Nat.eqb_refl. cbn. finish.
        -- unfold handleAnalyze; cbn.
           destruct fi as [f|]; [|specialize (Hf eq_refl); discriminate].
           cbn. rewrite Nat.eqb_refl. cbn.
           split; [apply urls_inv_fetch with (k := inf); exact Hu|]. finish.
      * finish.
    + destruct inf as [|inf]; cbn.
      * rewrite same_url_refl. cbn. finish.
      * destruct l; [|discriminate].
        destruct (H2 eq_refl) as [-> ->].
        unfold handleAnalyze_settled.
        destruct (analyze_try o) as [err|v]; cbn;
          rewrite same_url_refl; cbn;
          (split; [exact Hu|]); finish.
    + destruct pv as [u|]; cbn.
      * split; [apply urls_inv_revoke with (k := inf); exact Hu|].
        destruct l; finish.
      * split; [exact Hu|]. destruct l; finish.
  - intros (Hu & H1 & ->).
    destruct e as [sel| |v| |o|]; cbn; finish.
Qed.

End VideoAnalyzerFacts.

Section EmotionDetectorFacts.
Import JS Browser EmotionDetector.

Lemma EmotionDetector_inv_mount : EmotionDetector_inv mount.
Proof.
  split.
  - exists []. cbn. split; [reflexivity|tauto].
  - cbn. tauto.
Qed.

Lemma EmotionDetector_inv_react (i : Instance) (e : Event) :
  EmotionDetector_inv i -> EmotionDetector_inv (react i e).
Proof.
  destruct i as [[fi sr em r er l] dp rg [|] [tr nu inf]];
    unfold EmotionDetector_inv, react, exec; cbn.
  - intros (Hu & H1 & Hs & -> & Hd).
    assert (Hcases : (fi = None /\ dp = None /\ rg = None) \/
                     (exists f d u, fi = Some f /\ dp = Some d /\ rg = Some u
                                    /\ (fid f =? fid d)%nat = true)).
    { destruct fi as [f|], dp as [d|], rg as [u|]; cbn in Hs;
        try discriminate; try (exfalso; intuition discriminate); eauto 10. }
    clear Hs Hd.
    destruct Hcases as [(-> & -> & ->)|(f & d & u & -> & -> & -> & Hfd)].
    + (* nothing selected *)
      destruct e as [sel|v| | |o|]; cbn.
      * unfold onFileSelected.
        destruct sel as [g|]; cbn; [|finish].
        destruct (startsWith (ftype g) "video/"); cbn; [|finish].
        destruct (fsize g >? MAX_SIZE)%Z; cbn; [finish|].
        split; [apply urls_inv_create with (k := inf); exact Hu|].
        rewrite Nat.eqb_refl. finish.
      * finish.
      * destruct l; cbn; [finish|]. finish.
      * finish.
      * destruct inf as [|inf]; cbn; [finish|].
        unfold analyze_settled.
        destruct (analyze_try o) as [err|v]; cbn; destruct l; finish.
      * destruct l; finish.
    + (* a file selected, its URL registered *)
      destruct e as [sel|v| | |o|]; cbn.
      * unfold onFileSelected.
        destruct sel as [g|]; cbn.
        -- destruct (startsWith (ftype g) "video/"); cbn;
             [|rewrite Hfd; cbn; finish].
           destruct (fsize g >? MAX_SIZE)%Z; cbn; [rewrite Hfd; cbn; finish|].
           destruct (fid g =? fid d)%nat eqn:Eg; cbn; [finish|].
           split; [|rewrite Nat.eqb_refl; finish].
           apply urls_inv_create with (k := inf). apply urls_inv_revoke with (k := inf). exact Hu.
        -- split; [apply urls_inv_revoke with (k := inf); exact Hu|]. finish.
      * rewrite Hfd. cbn. finish.
      * destruct l; cbn; [rewrite Hfd; cbn; finish|].
        unfold analyze; cbn.
        destruct (trim em =? ""); cbn; rewrite Hfd; cbn; [finish|].
        split; [apply urls_inv_fetch with (k := inf); exact Hu|]. finish.
      * split; [apply urls_inv_revoke with (k := inf); exact Hu|]. finish.
      * destruct inf as [|inf]; cbn; [rewrite Hfd; cbn; finish|].
        unfold analyze_settled.
        destruct (analyze_try o) as [err|v]; cbn; rewrite Hfd; cbn;
          destruct l; finish.
      * split; [apply urls_inv_revoke with (k := inf); exact Hu|]. destruct l; finish.
  - intros (Hu & H1 & ->).
    destruct e as [sel|v| | |o|]; cbn; finish.
Qed.

End EmotionDetectorFacts.

Lemma reachable (f : flow) (events : list (event (controller f))) :
  reachable_inv f (run (controller f) events).
Proof.
  apply run_invariant; destruct f; cbn.
  - apply ScriptTransformer_inv_mount.
  - apply VideoAnalyzer_inv_mount.
  - apply ScriptWriter_inv_mount.
  - apply EmotionDetector_inv_mount.
  - apply ScriptTransformer_inv_react.
  - apply VideoAnalyzer_inv_react.
  - apply ScriptWriter_inv_react.
  - apply EmotionDetector_inv_react.
Qed.

(** ** One request at a time *)

Lemma in_flight_bound (f : flow) (i : instance (controller f)) :
  reachable_inv f i -> Browser.in_flight (browser (controller f) i) <= 1.
Proof.
  destruct f; cbn.
  - intros (H & _). rewrite H. destruct (ScriptTransformer.loading _); cbn; lia.
  - intros (_ & H). destruct (VideoAnalyzer.mounted i).
    + destruct H as ((H & _) & _). rewrite H.
      destruct (VideoAnalyzer.loading _); cbn; lia.
    + tauto.
  - intros ((H & _) & _). rewrite H. destruct (ScriptWriter.loading _); cbn; lia.
  - intros (_ & H). destruct (EmotionDetector.mounted i).
    + destruct H as (H & _). rewrite H.
      destruct (EmotionDetector.loading _); cbn; lia.
    + tauto.
Qed.

Lemma submit_click_while_pending (f : flow) (i : instance (controller f)) :
  reachable_inv f i ->
  pending (controller f) i = true ->
  react (controller f) i (submit_click (controller f)) = i.
Proof.
  destruct f; cbn.
  - destruct i as [[l r g t er] w]; cbn. intros _ ->. reflexivity.
  - destruct i as [[fi pv l r em er] cap [|] w];
      unfold VideoAnalyzer_inv, VideoAnalyzer.react, exec; cbn; [|reflexivity].
    intros (_ & _ & -> & _) ->.
    rewrite andb_false_r. cbn.
    rewrite same_url_refl. reflexivity.
  - destruct i as [[g t p l o er] w]; cbn. intros _ ->. reflexivity.
  - destruct i as [[fi sr em r er l] dp rg [|] w];
      unfold EmotionDetector_inv, EmotionDetector.react, exec; cbn; [|reflexivity].
    intros (_ & _ & Hs & _) ->. cbn. rewrite Hs. reflexivity.
Qed.

(** C1.  At most one request is in flight per instance at any time,
    and while the submission is pending ([loading] is [true]) a click
    on the submit button changes nothing: no request leaves and no
    state cell is written.  The guard is the [disabled] attribute of
    the button; this holds in all four flows. *)
Theorem at_most_one_request_in_flight (f : flow)
  (events : list (event (controller f))) :
  let c := controller f in
  let i := run c events in
  Browser.in_flight (browser c i) <= 1 /\
  (pending c i = true ->
   react c i (submit_click c) = i /\
   Browser.fetches (Browser.trace (browser c (react c i (submit_click c))))
   = Browser.fetches (Browser.trace (browser c i))).
Proof.
  cbv zeta. pose proof (reachable f events) as Hinv. split.
  - apply in_flight_bound, Hinv.
  - intros Hp.
    rewrite (submit_click_while_pending f _ Hinv Hp). auto.
Qed.

Lemma at_most_one_request_in_flight_witness :
  let c := controller ScriptWriterFlow in
  let i := run c [ScriptWriter.ChangeText "INT. CAFE"; ScriptWriter.ClickGenerate] in
  pending c i = true /\
  Browser.in_flight (browser c i) = 1 /\
  react c i (submit_click c) = i.
Proof.
  cbv zeta.
  split; [reflexivity|]. split; [reflexivity|].
  apply (at_most_one_request_in_flight ScriptWriterFlow
           [ScriptWriter.ChangeText "INT. CAFE"; ScriptWriter.ClickGenerate]).
  reflexivity.
Defined.

(** ** Releasing the preview *)

Section ReleaseFacts.
Import Browser.

Lemma VideoAnalyzer_release (i : VideoAnalyzer.Instance)
  (e : VideoAnalyzer.Event) (A : url) :
  VideoAnalyzer_inv i ->
  VideoAnalyzer.captured i = Some A ->
  VideoAnalyzer.captured (VideoAnalyzer.react i e) <> Some A ->
  exists rest,
    trace (VideoAnalyzer.browser (VideoAnalyzer.react i e))
    = trace (VideoAnalyzer.browser i) ++ RevokeObjectURL A :: rest.
Proof.
  destruct i as [[fi pv l r em er] cap [|] [tr nu inf]];
    unfold VideoAnalyzer_inv, VideoAnalyzer.react, exec; cbn.
  - intros (_ & _ & -> & Hf) ->.
    destruct e as [sel| |v| |o|]; cbn.
    + rewrite Nat.eqb_refl. cbn. congruence.
    + intros _. exists []. reflexivity.
    + rewrite Nat.eqb_refl. cbn. congruence.
    + destruct l; cbn; [rewrite Nat.eqb_refl; cbn; congruence|].
      unfold VideoAnalyzer.handleAnalyze. cbn.
      destruct fi as [f|]; cbn; rewrite Nat.eqb_refl; cbn; congruence.
    + destruct inf as [|inf]; cbn; [rewrite Nat.eqb_refl; cbn; congruence|].
      unfold VideoAnalyzer.handleAnalyze_settled.
      destruct (VideoAnalyzer.analyze_try o); cbn; rewrite Nat.eqb_refl; cbn;
        congruence.
    + intros _. exists []. reflexivity.
  - intros (_ & _ & ->). discriminate.
Qed.

Lemma VideoAnalyzer_unmount (i : VideoAnalyzer.Instance) (A : url) :
  VideoAnalyzer_inv i ->
  VideoAnalyzer.captured i = Some A ->
  trace (VideoAnalyzer.browser (VideoAnalyzer.react i VideoAnalyzer.Unmount))
  = trace (VideoAnalyzer.browser i) ++ [RevokeObjectURL A].
Proof.
  destruct i as [[fi pv l r em er] cap [|] [tr nu inf]];
    unfold VideoAnalyzer_inv, VideoAnalyzer.react, exec; cbn.
  - intros _ ->. reflexivity.
  - intros (_ & _ & ->). discriminate.
Qed.

(** The upload box of VideoAnalyzer is not rendered while a preview is
    held.  Were [handleFileChange] to run all the same, the URL of the
    new file would be created in the handler and the held one revoked
    by the cleanup of the effect right after it. *)
Lemma VideoAnalyzer_replacement (i : VideoAnalyzer.Instance) (f : File)
  (A : url) :
  VideoAnalyzer.captured i = Some A ->
  A < next_url (VideoAnalyzer.browser i) ->
  let j := exec (VideoAnalyzer.handleFileChange (Some f) ;;
                 VideoAnalyzer.useEffect_preview) i in
  trace (VideoAnalyzer.browser j)
  = trace (VideoAnalyzer.browser i)
    ++ [CreateObjectURL f (next_url (VideoAnalyzer.browser i));
        RevokeObjectURL A] /\
  VideoAnalyzer.captured j = Some (next_url (VideoAnalyzer.browser i)).
Proof.
  destruct i as [[fi pv l r em er] cap m [tr nu inf]]. cbn.
  intros -> Hlt. unfold exec. cbn.
  destruct (Nat.eqb_spec nu A) as [E|E]; [lia|]. cbn.
  rewrite <- app_assoc. auto.
Qed.

Lemma EmotionDetector_release (i : EmotionDetector.Instance)
  (e : EmotionDetector.Event) (A : url) :
  EmotionDetector_inv i ->
  EmotionDetector.registered i = Some A ->
  EmotionDetector.registered (EmotionDetector.react i e) <> Some A ->
  exists rest,
    trace (EmotionDetector.browser (EmotionDetector.react i e))
    = trace (EmotionDetector.browser i) ++ RevokeObjectURL A :: rest.
Proof.
  destruct i as [[fi sr em r er l] dp rg [|] [tr nu inf]];
    unfold EmotionDetector_inv, EmotionDetector.react, exec; cbn.
  - intros (_ & _ & Hs & _ & Hd) ->.
    destruct dp as [d|]; [|exfalso; intuition discriminate].
    destruct fi as [f|]; [|discriminate]. cbn in Hs.
    destruct e as [sel|v| | |o|]; cbn.
    + unfold EmotionDetector.onFileSelected.
      destruct sel as [g|]; cbn.
      * destruct (JS.startsWith (ftype g) "video/"); cbn;
          [|rewrite Hs; cbn; congruence].
        destruct (fsize g >? EmotionDetector.MAX_SIZE)%Z; cbn;
          [rewrite Hs; cbn; congruence|].
        destruct (fid g =? fid d)%nat; cbn; [congruence|].
        intros _. rewrite <- app_assoc. eexists. reflexivity.
      * intros _. exists []. reflexivity.
    + rewrite Hs. cbn. congruence.
    + destruct l; cbn; [rewrite Hs; cbn; congruence|].
      unfold EmotionDetector.analyze. cbn.
      destruct (JS.trim em =? ""); cbn; rewrite Hs; cbn; congruence.
    + intros _. exists []. reflexivity.
    + destruct inf as [|inf]; cbn; [rewrite Hs; cbn; congruence|].
      unfold EmotionDetector.analyze_settled.
      destruct (EmotionDetector.analyze_try o); cbn; rewrite Hs; cbn;
        congruence.
    + intros _. exists []. reflexivity.
  - intros (_ & _ & ->). discriminate.
Qed.

Lemma EmotionDetector_unmount (i : EmotionDetector.Instance) (A : url) :
  EmotionDetector_inv i ->
  EmotionDetector.registered i = Some A ->
  trace (EmotionDetector.browser
           (EmotionDetector.react i EmotionDetector.Unmount))
  = trace (EmotionDetector.browser i) ++ [RevokeObjectURL A].
Proof.
  destruct i as [[fi sr em r er l] dp rg [|] [tr nu inf]];
    unfold EmotionDetector_inv, EmotionDetector.react, exec; cbn.
  - intros _ ->. reflexivity.
  - intros (_ & _ & ->). discriminate.
Qed.

End ReleaseFacts.

(** ** Error messages *)

Section ReportingFacts.
Import JS Browser.

Lemma or_str_nonempty (a b : string) : a <> "" -> or_str a b = a.
Proof.
  intros H. unfold or_str. destruct (String.eqb_spec a ""); [contradiction|reflexivity].
Qed.

(** The message displayed for what [throw new Error(v)] throws: the
    error made of [v], or the exception of the conversion of [v]. *)
Lemma message_of_new_Error (v : value) :
  match new_Error v with
  | inl e | inr e => or_str (err_message e) (String_of_Error e)
  end
  = match ToString v with
    | inl e => or_str (err_message e) (String_of_Error e)
    | inr s => or_str s "Error"
    end.
Proof.
  unfold new_Error. destruct (ToString v) as [e|s]; [reflexivity|].
  unfold String_of_Error, or_str. cbn.
  destruct (s =? ""); reflexivity.
Qed.

Lemma detail_reported (message : Response -> string) :
  (forall r, ok r = false ->
     message r = match json r with
                 | inr data =>
                     match new_Error (or (opt_member data "detail")
                                         (VStr "Server error")) with
                     | inl e | inr e =>
                         or_str (err_message e) (String_of_Error e)
                     end
                 | inl e => or_str (err_message e) (String_of_Error e)
                 end) ->
  reports_server_detail message.
Proof.
  intros Hm r Hr. rewrite (Hm r Hr). repeat split.
  - intros data m -> Hd Hne. rewrite message_of_new_Error.
    unfold or. rewrite Hd. cbn.
    destruct (String.eqb_spec m ""); [contradiction|]. cbn.
    apply or_str_nonempty, Hne.
  - intros data d s -> <- Ht Hs. rewrite message_of_new_Error.
    unfold or. rewrite Ht, Hs. reflexivity.
  - intros data d e -> <- Ht He. rewrite message_of_new_Error.
    unfold or. rewrite Ht, He. reflexivity.
  - intros data -> Ht. rewrite message_of_new_Error.
    unfold or. rewrite Ht. reflexivity.
  - intros e -> Hne. apply or_str_nonempty, Hne.
Qed.

End ReportingFacts.

(** ** File gate of the emotion flows *)

(** Counterexample to C2: VideoAnalyzer is handed a PDF after a clip
    was selected and removed; the PDF becomes the selection and no
    error is produced. *)
Lemma video_analyzer_keeps_a_pdf :
  JS.startsWith (Browser.ftype Sample.notes) "video/" = false /\
  VideoAnalyzer.file (VideoAnalyzer.state
    (run (controller VideoAnalyzerFlow)
         [VideoAnalyzer.ChooseFile (Some Sample.clip);
          VideoAnalyzer.ClickRemove])) = None /\
  VideoAnalyzer.file (VideoAnalyzer.state
    (run (controller VideoAnalyzerFlow)
         [VideoAnalyzer.ChooseFile (Some Sample.clip);
          VideoAnalyzer.ClickRemove;
          VideoAnalyzer.ChooseFile (Some Sample.notes)]))
  = Some Sample.notes /\
  VideoAnalyzer.error_shown (VideoAnalyzer.state
    (run (controller VideoAnalyzerFlow)
         [VideoAnalyzer.ChooseFile (Some Sample.clip);
          VideoAnalyzer.ClickRemove;
          VideoAnalyzer.ChooseFile (Some Sample.notes)]))
  = false.
Proof. repeat split. Qed.

(** C2, amended.  In EmotionDetector, selecting a file whose type does
    not start with "video/", or whose size exceeds 50 MiB, leaves the
    selected file (or the empty selection) as it was, sets a validation
    message and leaves the browser untouched (no request, no object
    URL).  VideoAnalyzer has no such gate: [handleFileChange] makes
    every file it is handed the selection and clears the error. *)
Theorem emotion_detector_file_gate :
  (forall (events : list EmotionDetector.Event) (f : Browser.File),
     let i := run (controller EmotionDetectorFlow) events in
     let j := EmotionDetector.react i (EmotionDetector.FileSelected (Some f)) in
     EmotionDetector.mounted i = true ->
     JS.startsWith (Browser.ftype f) "video/" = false
       \/ (Browser.fsize f > 50 * 1024 * 1024)%Z ->
     EmotionDetector.file (EmotionDetector.state j)
       = EmotionDetector.file (EmotionDetector.state i) /\
     EmotionDetector.error (EmotionDetector.state j)
       = (if JS.startsWith (Browser.ftype f) "video/"
          then "File too large (50MB max)"
          else "Please upload a valid video file") /\
     EmotionDetector.browser j = EmotionDetector.browser i) /\
  (forall (i : VideoAnalyzer.Instance) (f : Browser.File),
     let j := exec (VideoAnalyzer.handleFileChange (Some f)) i in
     VideoAnalyzer.file (VideoAnalyzer.state j) = Some f /\
     VideoAnalyzer.error (VideoAnalyzer.state j) = "").
Proof.
  split.
  - intros events f. cbv zeta.
    pose proof (reachable EmotionDetectorFlow events) as Hinv.
    set (i := run (controller EmotionDetectorFlow) events) in *. clearbody i.
    change (EmotionDetector_inv i) in Hinv.
    destruct i as [[fi sr em r er l] dp rg m w].
    unfold EmotionDetector.react, exec, EmotionDetector.onFileSelected.
    cbn. intros -> Hbad.
    destruct Hinv as (_ & _ & Hs & _). cbn in Hs.
    destruct (JS.startsWith (Browser.ftype f) "video/"); cbn.
    + destruct Hbad as [Hbad|Hbad]; [discriminate|].
      change 52428800%Z with EmotionDetector.MAX_SIZE in Hbad.
      apply Z.gtb_gt in Hbad. rewrite Hbad. cbn. rewrite Hs. auto.
    + rewrite Hs. auto.
  - intros i f. cbn. auto.
Qed.

Lemma emotion_detector_file_gate_witness :
  EmotionDetector.mounted
    (run (controller EmotionDetectorFlow)
         [EmotionDetector.FileSelected (Some Sample.clip)]) = true /\
  (Browser.fsize Sample.feature > 50 * 1024 * 1024)%Z /\
  EmotionDetector.file (EmotionDetector.state
    (EmotionDetector.react
       (run (controller EmotionDetectorFlow)
            [EmotionDetector.FileSelected (Some Sample.clip)])
       (EmotionDetector.FileSelected (Some Sample.feature))))
  = Some Sample.clip.
Proof.
  split; [reflexivity|]. split; [reflexivity|].
  apply (proj1 emotion_detector_file_gate
           [EmotionDetector.FileSelected (Some Sample.clip)] Sample.feature).
  - reflexivity.
  - right. reflexivity.
Defined.

(** ** Preview URLs *)

(** C3.  Along every run of VideoAnalyzer and of EmotionDetector the
    object URLs are created and revoked in pairs: the trace never
    revokes a URL that is not alive (so none twice), and the URLs alive
    are exactly the one the instance holds, which is the one it shows.
    When the held URL [A] is given up in a step (a new file, the
    removal of the file, the unmounting), that step revokes [A] before
    it does anything else; unmounting with [A] held revokes it once and
    does nothing else.  Once the component is unmounted it holds
    nothing, and every URL ever created has been revoked exactly
    once. *)
Theorem preview_urls_are_paired (p : preview_flow)
  (events : list (event (owner (preview_owner p)))) :
  let o := preview_owner p in
  let c := owner o in
  let i := run c events in
  let t := Browser.trace (browser c i) in
  (exists dead, Browser.replay t [] [] = Some (to_list (held o i), dead)) /\
  (alive o i = true -> shown o i = held o i) /\
  (forall (e : event c) (A : Browser.url),
      held o i = Some A ->
      held o (react c i e) <> Some A ->
      exists rest,
        Browser.trace (browser c (react c i e))
        = t ++ Browser.RevokeObjectURL A :: rest) /\
  (forall A : Browser.url,
      held o i = Some A ->
      Browser.trace (browser c (react c i (teardown o)))
      = t ++ [Browser.RevokeObjectURL A]) /\
  (alive o i = false ->
     held o i = None /\
     NoDup (Browser.created t) /\
     Permutation (Browser.created t) (Browser.revoked t)).
Proof.
  destruct p; cbv zeta; cbn [preview_owner owner held shown alive teardown].
  - pose proof (reachable VideoAnalyzerFlow events) as Hinv.
    set (i := run (controller VideoAnalyzerFlow) events) in *. clearbody i.
    change (VideoAnalyzer_inv i) in Hinv.
    assert (Hu := proj1 Hinv). destruct Hu as (dead & Hr & _).
    split; [exists dead; exact Hr|].
    split; [|split; [|split]].
    + intros Ha. destruct Hinv as (_ & Hinv). cbn in Ha. rewrite Ha in Hinv.
      symmetry. tauto.
    + intros e A. apply VideoAnalyzer_release, Hinv.
    + intros A. apply VideoAnalyzer_unmount, Hinv.
    + intros Ha. destruct Hinv as (_ & Hinv). cbn in Ha. rewrite Ha in Hinv.
      destruct Hinv as (_ & Hc). split; [exact Hc|].
      cbn in Hc. rewrite Hc in Hr. apply replay_balanced in Hr. exact Hr.
  - pose proof (reachable EmotionDetectorFlow events) as Hinv.
    set (i := run (controller EmotionDetectorFlow) events) in *. clearbody i.
    change (EmotionDetector_inv i) in Hinv.
    assert (Hu := proj1 Hinv). destruct Hu as (dead & Hr & _).
    split; [exists dead; exact Hr|].
    split; [|split; [|split]].
    + intros Ha. destruct Hinv as (_ & Hinv). cbn in Ha. rewrite Ha in Hinv.
      tauto.
    + intros e A. apply EmotionDetector_release, Hinv.
    + intros A. apply EmotionDetector_unmount, Hinv.
    + intros Ha. destruct Hinv as (_ & Hinv). cbn in Ha. rewrite Ha in Hinv.
      destruct Hinv as (_ & Hc). split; [exact Hc|].
      cbn in Hc. rewrite Hc in Hr. apply replay_balanced in Hr. exact Hr.
Qed.

Lemma preview_urls_are_paired_witness :
  held (preview_owner EmotionDetectorPreview)
    (run (owner (preview_owner EmotionDetectorPreview))
         [EmotionDetector.FileSelected (Some Sample.clip)]) = Some 0 /\
  held (preview_owner EmotionDetectorPreview)
    (react (owner (preview_owner EmotionDetectorPreview))
       (run (owner (preview_owner EmotionDetectorPreview))
            [EmotionDetector.FileSelected (Some Sample.clip)])
       (EmotionDetector.FileSelected (Some Sample.retake))) <> Some 0 /\
  exists rest,
    Browser.trace
      (browser (owner (preview_owner EmotionDetectorPreview))
         (react (owner (preview_owner EmotionDetectorPreview))
            (run (owner (preview_owner EmotionDetectorPreview))
                 [EmotionDetector.FileSelected (Some Sample.clip)])
            (EmotionDetector.FileSelected (Some Sample.retake))))
    = Browser.trace
        (browser (owner (preview_owner EmotionDetectorPreview))
           (run (owner (preview_owner EmotionDetectorPreview))
                [EmotionDetector.FileSelected (Some Sample.clip)]))
      ++ Browser.RevokeObjectURL 0 :: rest.
Proof.
  split; [vm_compute; reflexivity|].
  split; [vm_compute; discriminate|].
  apply (proj1 (proj2 (proj2
           (preview_urls_are_paired EmotionDetectorPreview
              [EmotionDetector.FileSelected (Some Sample.clip)])))
           (EmotionDetector.FileSelected (Some Sample.retake)) 0).
  - vm_compute; reflexivity.
  - vm_compute; discriminate.
Defined.

(** ** Preconditions of the emotion submit *)

(** Counterexample to C4: VideoAnalyzer, a clip selected, the intended
    emotion left empty, a click on the button: the request leaves with
    an empty [user_emotion] and no error is set. *)
Lemma video_analyzer_sends_an_empty_emotion :
  VideoAnalyzer.intendedEmotion (VideoAnalyzer.state
    (run (controller VideoAnalyzerFlow)
         [VideoAnalyzer.ChooseFile (Some Sample.clip)])) = "" /\
  Browser.fetches (Browser.trace (VideoAnalyzer.browser
    (run (controller VideoAnalyzerFlow)
         [VideoAnalyzer.ChooseFile (Some Sample.clip);
          VideoAnalyzer.ClickAnalyze])))
  = [Browser.mkRequest VideoAnalyzer.VIDEO_API_URL "POST" []
       (Browser.FormBody [("video", Browser.PartFile Sample.clip);
                          ("user_emotion", Browser.PartText "")])] /\
  VideoAnalyzer.error (VideoAnalyzer.state
    (run (controller VideoAnalyzerFlow)
         [VideoAnalyzer.ChooseFile (Some Sample.clip);
          VideoAnalyzer.ClickAnalyze])) = "".
Proof. repeat split. Qed.

(** C4, amended.  A submit of the emotion flow with no file selected
    sets a validation message and leaves the browser untouched, in
    EmotionDetector and in VideoAnalyzer.  EmotionDetector does the same
    when the intended emotion is empty or blank.  VideoAnalyzer does not
    look at the intended emotion: with a file selected the request
    leaves, carrying the intended emotion as it is, the empty string
    included. *)
Theorem emotion_submit_preconditions :
  (forall (i : EmotionDetector.Instance) (s : EmotionDetector.State),
     EmotionDetector.file s = None
       \/ JS.blank (EmotionDetector.emotion s) = true ->
     let j := exec (EmotionDetector.analyze s) i in
     EmotionDetector.error (EmotionDetector.state j)
       = "Upload video and enter intended emotion" /\
     EmotionDetector.browser j = EmotionDetector.browser i) /\
  (forall (i : VideoAnalyzer.Instance) (s : VideoAnalyzer.State),
     VideoAnalyzer.file s = None ->
     let j := exec (VideoAnalyzer.handleAnalyze s) i in
     VideoAnalyzer.error (VideoAnalyzer.state j)
       = "Please select a file first." /\
     VideoAnalyzer.browser j = VideoAnalyzer.browser i) /\
  (forall (i : VideoAnalyzer.Instance) (s : VideoAnalyzer.State)
          (f : Browser.File),
     VideoAnalyzer.file s = Some f ->
     let j := exec (VideoAnalyzer.handleAnalyze s) i in
     VideoAnalyzer.error (VideoAnalyzer.state j) = "" /\
     Browser.trace (VideoAnalyzer.browser j)
     = Browser.trace (VideoAnalyzer.browser i)
       ++ [Browser.Fetch
             (Browser.mkRequest VideoAnalyzer.VIDEO_API_URL "POST" []
                (Browser.FormBody
                   [("video", Browser.PartFile f);
                    ("user_emotion",
                     Browser.PartText (VideoAnalyzer.intendedEmotion s))]))]).
Proof.
  split; [|split].
  - intros i [fi sr em r er l] Hmissing. cbn in Hmissing.
    unfold EmotionDetector.analyze. cbn.
    destruct fi as [f|]; [|split; reflexivity].
    destruct Hmissing as [Hf|Hb]; [discriminate|].
    apply trim_empty in Hb. rewrite Hb. split; reflexivity.
  - intros i s Hf. unfold VideoAnalyzer.handleAnalyze. rewrite Hf.
    split; reflexivity.
  - intros i s f Hf. unfold VideoAnalyzer.handleAnalyze. rewrite Hf.
    split; reflexivity.
Qed.

Lemma emotion_submit_preconditions_witness :
  JS.blank "  " = true /\
  EmotionDetector.browser
    (exec (EmotionDetector.analyze
             (EmotionDetector.mkState (Some Sample.clip) (Some 0) "  "
                                      JS.VNull "" false))
          EmotionDetector.mount)
  = EmotionDetector.browser EmotionDetector.mount.
Proof.
  split; [reflexivity|].
  apply (proj1 emotion_submit_preconditions EmotionDetector.mount
           (EmotionDetector.mkState (Some Sample.clip) (Some 0) "  "
                                    JS.VNull "" false)).
  right. reflexivity.
Defined.

(** ** A response with a non-success status *)

(** Counterexample to C5: VideoAnalyzer receives a non-success status
    whose body is a message of the server; the message displayed is the
    fixed one. *)
Lemma video_analyzer_drops_the_server_message :
  VideoAnalyzer.error (VideoAnalyzer.state
    (run (controller VideoAnalyzerFlow)
         [VideoAnalyzer.ChooseFile (Some Sample.clip);
          VideoAnalyzer.ClickAnalyze;
          VideoAnalyzer.Settled
            (Browser.Resolved
               (Browser.mkResponse false "No face detected in the clip"
                  (inl (JS.mkError "SyntaxError" "Unexpected token N"))))]))
  = "Failed to analyze video. Ensure the file isn't too large and the backend is active."
  /\
  VideoAnalyzer.error (VideoAnalyzer.state
    (run (controller VideoAnalyzerFlow)
         [VideoAnalyzer.ChooseFile (Some Sample.clip);
          VideoAnalyzer.ClickAnalyze;
          VideoAnalyzer.Settled
            (Browser.Resolved
               (Browser.mkResponse false "No face detected in the clip"
                  (inl (JS.mkError "SyntaxError" "Unexpected token N"))))]))
  <> "No face detected in the clip".
Proof. split; [reflexivity|vm_compute; discriminate]. Qed.

(** C5, amended.  On a non-success status ScriptWriter and
    EmotionDetector parse the body as JSON and display its [detail]:
    as it is when it is a string, converted to a string otherwise (what
    [Number.prototype.toString] gives for a number, "Error" when the
    conversion gives the empty string, and the message of the
    conversion's exception when the [detail] is an object that cannot
    be converted); "Server error" when there is no truthy [detail]; and
    the message of the parser's exception when the body is not JSON.
    VideoAnalyzer reads the body but displays its own fixed message;
    ScriptTransformer does not read the body and displays its own fixed
    message.  In all four the submission ends failed: [loading] is
    false again and the result cell is left as it was. *)
Theorem non_success_status_is_reported :
  (forall i : ScriptWriter.Instance,
     reports_server_detail
       (fun r => ScriptWriter.err (ScriptWriter.state
          (exec (ScriptWriter.submit_settled (Browser.Resolved r)) i)))) /\
  (forall i : EmotionDetector.Instance,
     reports_server_detail
       (fun r => EmotionDetector.error (EmotionDetector.state
          (exec (EmotionDetector.analyze_settled (Browser.Resolved r)) i)))) /\
  (forall i : VideoAnalyzer.Instance,
     reports_fixed_message
       "Failed to analyze video. Ensure the file isn't too large and the backend is active."
       (fun r => VideoAnalyzer.error (VideoAnalyzer.state
          (exec (VideoAnalyzer.handleAnalyze_settled (Browser.Resolved r)) i)))) /\
  (forall i : ScriptTransformer.Instance,
     reports_fixed_message
       "Failed to connect to the backend. Please check if the API is active."
       (fun r => ScriptTransformer.error (ScriptTransformer.state
          (exec (ScriptTransformer.handleGenerate_settled
                   (Browser.Resolved r)) i)))) /\
  (forall r : Browser.Response,
     Browser.ok r = false ->
     (forall i,
        let j := exec (ScriptWriter.submit_settled (Browser.Resolved r)) i in
        ScriptWriter.loading (ScriptWriter.state j) = false /\
        ScriptWriter.out (ScriptWriter.state j)
          = ScriptWriter.out (ScriptWriter.state i)) /\
     (forall i,
        let j := exec (EmotionDetector.analyze_settled (Browser.Resolved r)) i in
        EmotionDetector.loading (EmotionDetector.state j) = false /\
        EmotionDetector.result (EmotionDetector.state j)
          = EmotionDetector.result (EmotionDetector.state i)) /\
     (forall i,
        let j := exec (VideoAnalyzer.handleAnalyze_settled
                         (Browser.Resolved r)) i in
        VideoAnalyzer.loading (VideoAnalyzer.state j) = false /\
        VideoAnalyzer.result (VideoAnalyzer.state j)
          = VideoAnalyzer.result (VideoAnalyzer.state i)) /\
     (forall i,
        let j := exec (ScriptTransformer.handleGenerate_settled
                         (Browser.Resolved r)) i in
        ScriptTransformer.loading (ScriptTransformer.state j) = false /\
        ScriptTransformer.result (ScriptTransformer.state j)
          = ScriptTransformer.result (ScriptTransformer.state i))).
Proof.
  split; [|split; [|split; [|split]]].
  - intros i. apply detail_reported. intros r Hr.
    unfold exec, ScriptWriter.submit_settled, ScriptWriter.submit_try. cbn.
    rewrite Hr. destruct (Browser.json r) as [e|data]; [reflexivity|]. cbn.
    destruct (JS.new_Error _); reflexivity.
  - intros i. apply detail_reported. intros r Hr.
    unfold exec, EmotionDetector.analyze_settled, EmotionDetector.analyze_try.
    cbn. rewrite Hr. destruct (Browser.json r) as [e|data]; [reflexivity|]. cbn.
    destruct (JS.new_Error _); reflexivity.
  - intros i r Hr.
    unfold exec, VideoAnalyzer.handleAnalyze_settled, VideoAnalyzer.analyze_try.
    cbn. rewrite Hr. reflexivity.
  - intros i r Hr.
    unfold exec, ScriptTransformer.handleGenerate_settled,
      ScriptTransformer.generate_try.
    cbn. rewrite Hr. reflexivity.
  - intros r Hr. repeat split.
    all: unfold exec, ScriptWriter.submit_settled, ScriptWriter.submit_try,
           EmotionDetector.analyze_settled, EmotionDetector.analyze_try,
           VideoAnalyzer.handleAnalyze_settled, VideoAnalyzer.analyze_try,
           ScriptTransformer.handleGenerate_settled,
           ScriptTransformer.generate_try; cbn; rewrite Hr;
         try destruct (Browser.json r) as [e|data]; cbn;
         try destruct (JS.new_Error _); reflexivity.
Qed.

Lemma non_success_status_is_reported_witness :
  Browser.ok (Browser.mkResponse false ""
                (inr (JS.VObj [("detail", JS.VStr "Genre not supported")])))
  = false /\
  ScriptWriter.err (ScriptWriter.state
    (exec (ScriptWriter.submit_settled
             (Browser.Resolved
                (Browser.mkResponse false ""
                   (inr (JS.VObj [("detail", JS.VStr "Genre not supported")])))))
          ScriptWriter.mount))
  = "Genre not supported".
Proof.
  split; [reflexivity|].
  apply (proj1 (proj1 non_success_status_is_reported ScriptWriter.mount
                  (Browser.mkResponse false ""
                     (inr (JS.VObj [("detail", JS.VStr "Genre not supported")])))
                  eq_refl)
               (JS.VObj [("detail", JS.VStr "Genre not supported")])
               "Genre not supported" eq_refl eq_refl).
  discriminate.
Defined.

(** ** A result beside an error *)

(** Counterexample to C6: in EmotionDetector a clip is analysed with
    success, the intended emotion is then emptied and the button
    clicked again.  The click is refused by the validation of
    [analyze], which returns before any request and before
    [setResult(null)]: the result of the first analysis stays displayed
    together with the validation message. *)
Lemma stale_result_beside_validation_error :
  EmotionDetector.result (EmotionDetector.state
    (run (controller EmotionDetectorFlow)
         [EmotionDetector.FileSelected (Some Sample.clip);
          EmotionDetector.ChangeEmotion "Joy";
          EmotionDetector.ClickAnalyze;
          EmotionDetector.Settled (Sample.success Sample.verdict);
          EmotionDetector.ChangeEmotion "";
          EmotionDetector.ClickAnalyze])) = Sample.verdict /\
  EmotionDetector.error (EmotionDetector.state
    (run (controller EmotionDetectorFlow)
         [EmotionDetector.FileSelected (Some Sample.clip);
          EmotionDetector.ChangeEmotion "Joy";
          EmotionDetector.ClickAnalyze;
          EmotionDetector.Settled (Sample.success Sample.verdict);
          EmotionDetector.ChangeEmotion "";
          EmotionDetector.ClickAnalyze]))
  = "Upload video and enter intended emotion" /\
  EmotionDetector.result_view (EmotionDetector.state
    (run (controller EmotionDetectorFlow)
         [EmotionDetector.FileSelected (Some Sample.clip);
          EmotionDetector.ChangeEmotion "Joy";
          EmotionDetector.ClickAnalyze;
          EmotionDetector.Settled (Sample.success Sample.verdict);
          EmotionDetector.ChangeEmotion "";
          EmotionDetector.ClickAnalyze])) = JS.Element /\
  EmotionDetector.error_shown (EmotionDetector.state
    (run (controller EmotionDetectorFlow)
         [EmotionDetector.FileSelected (Some Sample.clip);
          EmotionDetector.ChangeEmotion "Joy";
          EmotionDetector.ClickAnalyze;
          EmotionDetector.Settled (Sample.success Sample.verdict);
          EmotionDetector.ChangeEmotion "";
          EmotionDetector.ClickAnalyze])) = true.
Proof. repeat split. Qed.

(** What is held while a request is out. *)

Lemma message_of_exception (e : JS.Error) :
  JS.or_str (JS.err_message e) (JS.String_of_Error e) = exception_text e.
Proof.
  unfold JS.or_str, JS.String_of_Error, exception_text.
  destruct e as [n m]; cbn.
  destruct (m =? "") eqn:Em; [|reflexivity].
  destruct (n =? "") eqn:En; [|reflexivity].
  apply String.eqb_eq in Em, En. congruence.
Qed.

Lemma EmotionDetector_waiting_react (i : EmotionDetector.Instance)
  (e : EmotionDetector.Event) :
  (EmotionDetector.mounted i = true ->
   EmotionDetector.loading (EmotionDetector.state i) = true ->
   EmotionDetector.result (EmotionDetector.state i) = JS.VNull) ->
  EmotionDetector.mounted (EmotionDetector.react i e) = true ->
  EmotionDetector.loading (EmotionDetector.state (EmotionDetector.react i e))
  = true ->
  EmotionDetector.result (EmotionDetector.state (EmotionDetector.react i e))
  = JS.VNull.
Proof.
  destruct i as [[fi sr em r er l] dp [u|] [|] [tr nu inf]];
    unfold EmotionDetector.react; cbn; intros H;
    destruct e as [sel|v| | |o|]; cbn; try discriminate;
    try destruct sel;
    unfold EmotionDetector.onFileSelected, EmotionDetector.analyze,
      EmotionDetector.analyze_settled;
    branches; intros; try discriminate; auto.
Qed.

Lemma waiting_instance (f : flow) (i : instance (controller f)) :
  reachable_inv f i ->
  is_mounted f i = true ->
  pending (controller f) i = true ->
  f <> EmotionDetectorFlow ->
  error_of f i = "" /\ result_of f i = JS.VNull.
Proof.
  destruct f; cbn.
  - intros (_ & H & _) _ Hp _. auto.
  - intros (_ & H) Hm Hp _. rewrite Hm in H.
    destruct H as ((_ & H & _) & _). auto.
  - intros ((_ & H & _) & _) _ Hp _. auto.
  - intros _ _ _ Hne. contradiction Hne. reflexivity.
Qed.

Lemma sending_click_clears (f : flow) (i : instance (controller f)) :
  Browser.fetches
    (Browser.trace
       (browser (controller f)
          (react (controller f) i (submit_click (controller f)))))
  <> Browser.fetches (Browser.trace (browser (controller f) i)) ->
  result_of f (react (controller f) i (submit_click (controller f)))
  = JS.VNull /\
  error_of f (react (controller f) i (submit_click (controller f))) = "".
Proof.
  destruct f; cbn.
  - destruct i as [[l r g t er] [tr nu inf]]; cbn.
    unfold ScriptTransformer.generate_disabled,
      ScriptTransformer.handleGenerate. cbn.
    destruct (l || (t =? "")); cbn; [intros H; contradiction H; reflexivity|].
    destruct (JS.trim t =? ""); cbn;
      [intros H; contradiction H; reflexivity|auto].
  - destruct i as [[fi [pv|] l r em er] [c|] [|] [tr nu inf]];
      unfold VideoAnalyzer.react; cbn;
      unfold VideoAnalyzer.handleAnalyze;
      branches; intros H; auto;
      exfalso; apply H; unfold Browser.fetches;
      rewrite ?flat_map_app; cbn; rewrite ?app_nil_r; reflexivity.
  - destruct i as [[g t p l o er] [tr nu inf]]; cbn.
    unfold ScriptWriter.generate_disabled, ScriptWriter.submit. cbn.
    destruct l; cbn; [intros H; contradiction H; reflexivity|].
    destruct (ScriptWriter.no_input _); cbn;
      [intros H; contradiction H; reflexivity|auto].
  - destruct i as [[fi sr em r er l] dp [u|] [|] [tr nu inf]];
      unfold EmotionDetector.react; cbn;
      unfold EmotionDetector.analyze;
      branches; intros H; auto;
      exfalso; apply H; unfold Browser.fetches;
      rewrite ?flat_map_app; cbn; rewrite ?app_nil_r; reflexivity.
Qed.

Lemma failed_instance (f : flow) (i : instance (controller f))
  (o : Browser.outcome) (e : JS.Error) :
  reachable_inv f i ->
  result_of f i = JS.VNull ->
  is_mounted f i = true ->
  pending (controller f) i = true ->
  attempt f o = inl e ->
  result_of f (react (controller f) i (settled f o)) = JS.VNull /\
  error_of f (react (controller f) i (settled f o)) = failure_message f e.
Proof.
  destruct f; cbn.
  - destruct i as [[l r g t er] [tr nu inf]]; cbn.
    intros (Hn & _) -> _ -> Ho. cbn in Hn. subst inf. cbn.
    unfold ScriptTransformer.handleGenerate_settled. rewrite Ho. cbn. auto.
  - destruct i as [[fi pv l r em er] cap m [tr nu inf]];
      unfold VideoAnalyzer_inv, VideoAnalyzer.react; cbn.
    intros (_ & H) -> -> -> Ho. destruct H as ((Hn & _) & -> & _).
    cbn in Hn. subst inf. unfold exec; cbn.
    unfold VideoAnalyzer.handleAnalyze_settled. rewrite Ho. cbn.
    rewrite same_url_refl. cbn. auto.
  - destruct i as [[g t p l ou er] [tr nu inf]]; cbn.
    intros ((Hn & _) & _) -> _ -> Ho. cbn in Hn. subst inf. cbn.
    unfold ScriptWriter.submit_settled, ScriptWriter.message_of.
    rewrite Ho. cbn. rewrite message_of_exception. auto.
  - destruct i as [[fi sr em r er l] dp rg m [tr nu inf]];
      unfold EmotionDetector_inv, EmotionDetector.react; cbn.
    intros (_ & H) -> -> -> Ho. destruct H as (Hn & Hs & _).
    cbn in Hn. subst inf. unfold exec; cbn.
    unfold EmotionDetector.analyze_settled, EmotionDetector.message_of.
    rewrite Ho. cbn. rewrite Hs. cbn. rewrite message_of_exception. auto.
Qed.

Lemma result_without_error (f : flow) (i : instance (controller f)) :
  reachable_inv f i ->
  f <> EmotionDetectorFlow ->
  is_mounted f i = true ->
  JS.truthy (result_of f i) = true ->
  error_of f i = "".
Proof.
  destruct f; cbn.
  - intros (_ & _ & H) _ _. exact H.
  - intros (_ & H) _ Hm. rewrite Hm in H. destruct H as ((_ & _ & H) & _).
    exact H.
  - intros ((_ & _ & H) & _) _ _. exact H.
  - intros _ Hne. contradiction Hne. reflexivity.
Qed.

Lemma waiting_result (f : flow) (events : list (event (controller f))) :
  is_mounted f (run (controller f) events) = true ->
  pending (controller f) (run (controller f) events) = true ->
  result_of f (run (controller f) events) = JS.VNull.
Proof.
  intros Hm Hp. pose proof (reachable f events) as Hinv.
  destruct f.
  - apply waiting_instance; auto; discriminate.
  - apply waiting_instance; auto; discriminate.
  - apply waiting_instance; auto; discriminate.
  - clear Hinv. revert Hm Hp.
    apply (run_invariant (controller EmotionDetectorFlow)
             (fun i => EmotionDetector.mounted i = true ->
                       EmotionDetector.loading (EmotionDetector.state i) = true ->
                       EmotionDetector.result (EmotionDetector.state i)
                       = JS.VNull)).
    + discriminate.
    + intros i e. apply EmotionDetector_waiting_react.
Qed.

(** C6, amended.  In all four flows, along every run.  A click on the
    submit button that sends a request clears the result and the error
    as the request leaves.  While the mounted component waits the
    result stays cleared, so when the request then fails (the [try]
    block throws: fetch rejected, a non-success status, a body that is
    not JSON) the error message is displayed with no result.  In
    ScriptTransformer, ScriptWriter and a mounted VideoAnalyzer a
    result is never held together with an error at all.  A click that
    the validation refuses sends nothing and is not such a submission:
    in EmotionDetector it leaves the earlier result beside the
    validation message. *)
Theorem no_stale_result_after_a_request (f : flow)
  (events : list (event (controller f))) :
  let c := controller f in
  let i := run c events in
  (Browser.fetches (Browser.trace (browser c (react c i (submit_click c))))
   <> Browser.fetches (Browser.trace (browser c i)) ->
   result_of f (react c i (submit_click c)) = JS.VNull /\
   error_of f (react c i (submit_click c)) = "") /\
  (forall o e,
     is_mounted f i = true ->
     pending c i = true ->
     attempt f o = inl e ->
     result_of f (react c i (settled f o)) = JS.VNull /\
     error_of f (react c i (settled f o)) = failure_message f e) /\
  (f <> EmotionDetectorFlow ->
   is_mounted f i = true ->
   JS.truthy (result_of f i) = true ->
   error_of f i = "").
Proof.
  cbv zeta. split; [apply sending_click_clears|]. split.
  - intros o e Hm Hp Ho.
    apply failed_instance; auto; [apply reachable|apply waiting_result; auto].
  - intros Hne Hm Ht.
    apply (result_without_error f _ (reachable f events)); assumption.
Qed.

Lemma no_stale_result_after_a_request_witness :
  let c := controller EmotionDetectorFlow in
  let i := run c [EmotionDetector.FileSelected (Some Sample.clip);
                  EmotionDetector.ChangeEmotion "Joy";
                  EmotionDetector.ClickAnalyze;
                  EmotionDetector.Settled (Sample.success Sample.verdict);
                  EmotionDetector.ClickAnalyze] in
  let e := JS.TypeError "Failed to fetch" in
  is_mounted EmotionDetectorFlow i = true /\
  pending c i = true /\
  attempt EmotionDetectorFlow (Browser.Rejected e) = inl e /\
  result_of EmotionDetectorFlow
    (react c i (settled EmotionDetectorFlow (Browser.Rejected e)))
  = JS.VNull.
Proof.
  cbv zeta.
  split; [reflexivity|]. split; [reflexivity|]. split; [reflexivity|].
  apply (proj1 (proj2 (no_stale_result_after_a_request EmotionDetectorFlow
           [EmotionDetector.FileSelected (Some Sample.clip);
            EmotionDetector.ChangeEmotion "Joy";
            EmotionDetector.ClickAnalyze;
            EmotionDetector.Settled (Sample.success Sample.verdict);
            EmotionDetector.ClickAnalyze]))
           (Browser.Rejected (JS.TypeError "Failed to fetch"))
           (JS.TypeError "Failed to fetch"));
    reflexivity.
Defined.

(** ** The genre of the text request *)

(** Counterexample to C7: the genre " Noir" is not blank, and the
    request carries "Noir", not " Noir". *)
Lemma padded_genre_is_sent_trimmed :
  JS.blank " Noir" = false /\
  Browser.fetches (Browser.trace (ScriptTransformer.browser
    (run (controller ScriptTransformerFlow)
         [ScriptTransformer.ChangeText "John sits at the cafe.";
          ScriptTransformer.ChangeGenre " Noir";
          ScriptTransformer.ClickGenerate])))
  = [Browser.mkRequest ScriptTransformer.SCRIPT_API_URL_TEXT "POST"
       [("Content-Type", "application/json")]
       (Browser.JsonBody
          [("original_script", JS.VStr "John sits at the cafe.");
           ("genre", JS.VStr "Noir")])] /\
  Browser.json_field
    (ScriptTransformer.generate_request
       (ScriptTransformer.mkState false JS.VNull " Noir"
                                  "John sits at the cafe." ""))
    "genre"
  <> JS.VStr " Noir".
Proof. repeat split. vm_compute. discriminate. Qed.

(** C7, amended.  In the request of ScriptTransformer the genre field is
    "Screenplay" when the genre is empty or blank; otherwise it is the
    genre without the white space at its two ends; it is never the
    empty string.  That request is what a click on the enabled button
    sends when the text is not blank.  ScriptWriter sends its genre as
    it is on the text path, and that genre is always one of the options
    of its select. *)
Theorem genre_of_the_text_request :
  (forall s : ScriptTransformer.State,
     let sent :=
       Browser.json_field (ScriptTransformer.generate_request s) "genre" in
     (JS.blank (ScriptTransformer.genre s) = true ->
        sent = JS.VStr "Screenplay") /\
     (JS.blank (ScriptTransformer.genre s) = false ->
        exists g l r,
          sent = JS.VStr g /\
          g = JS.trim (ScriptTransformer.genre s) /\
          ScriptTransformer.genre s = (l ++ g ++ r)%string /\
          JS.blank l = true /\ JS.blank r = true /\ JS.trim g = g) /\
     sent <> JS.VStr "") /\
  (forall i : ScriptTransformer.Instance,
     ScriptTransformer.generate_disabled (ScriptTransformer.state i) = false ->
     JS.blank (ScriptTransformer.text (ScriptTransformer.state i)) = false ->
     Browser.trace (ScriptTransformer.browser
                      (ScriptTransformer.react i ScriptTransformer.ClickGenerate))
     = Browser.trace (ScriptTransformer.browser i)
       ++ [Browser.Fetch (ScriptTransformer.generate_request
                            (ScriptTransformer.state i))]) /\
  (forall events : list ScriptWriter.Event,
     let s := ScriptWriter.state (run (controller ScriptWriterFlow) events) in
     ScriptWriter.pdf s = None ->
     Browser.json_field (ScriptWriter.submit_request s) "genre"
       = JS.VStr (ScriptWriter.genre s) /\
     exists g, ScriptWriter.genre s = ScriptWriter.option_value g).
Proof.
  split; [|split].
  - intros s. cbn. unfold ScriptTransformer.selectedGenre, JS.or_str.
    destruct (String.eqb_spec (JS.trim (ScriptTransformer.genre s)) "")
      as [E|E].
    + apply trim_empty in E. rewrite E.
      repeat split; discriminate.
    + assert (Hb : JS.blank (ScriptTransformer.genre s) = false).
      { destruct (JS.blank _) eqn:B; [|reflexivity].
        apply trim_empty in B. contradiction. }
      rewrite Hb. repeat split; [discriminate| |congruence].
      intros _.
      destruct (trim_split (ScriptTransformer.genre s)) as (l & r & Hs & Hl & Hr).
      exists (JS.trim (ScriptTransformer.genre s)), l, r.
      repeat split; auto. apply trim_idempotent.
  - intros [[l r g t er] w]. cbn. intros Hd Hb.
    rewrite Hd. unfold ScriptTransformer.handleGenerate. cbn.
    destruct (String.eqb_spec (JS.trim t) "") as [E|E].
    + apply trim_empty in E. congruence.
    + reflexivity.
  - intros events. cbv zeta.
    pose proof (reachable ScriptWriterFlow events) as (_ & Hg).
    intros Hp. split; [|exact Hg].
    unfold ScriptWriter.submit_request. rewrite Hp. reflexivity.
Qed.

Lemma genre_of_the_text_request_witness :
  JS.blank "   " = true /\
  Browser.json_field
    (ScriptTransformer.generate_request
       (ScriptTransformer.mkState false JS.VNull "   "
                                  "John sits at the cafe." ""))
    "genre"
  = JS.VStr "Screenplay".
Proof.
  split; [reflexivity|].
  apply (proj1 (proj1 genre_of_the_text_request
                  (ScriptTransformer.mkState false JS.VNull "   "
                                             "John sits at the cafe." ""))).
  reflexivity.
Defined.

(** ** Reset *)

(** Counterexample to C8: after Reset the genre of ScriptWriter is still
    the one that was picked, not the initial "Drama"; after the removal
    of the file the intended emotion of VideoAnalyzer is still the one
    that was typed, not the initial empty string; and Clear during a
    pending request of EmotionDetector leaves [loading] true, not the
    initial [false]. *)
Lemma reset_keeps_the_label :
  ScriptWriter.genre (ScriptWriter.state
    (run (controller ScriptWriterFlow)
         [ScriptWriter.ChangeGenre ScriptWriter.Comedy;
          ScriptWriter.ClickReset])) = "Comedy" /\
  ScriptWriter.genre ScriptWriter.initial = "Drama" /\
  ScriptWriter.state
    (run (controller ScriptWriterFlow)
         [ScriptWriter.ChangeGenre ScriptWriter.Comedy;
          ScriptWriter.ClickReset]) <> ScriptWriter.initial /\
  VideoAnalyzer.intendedEmotion (VideoAnalyzer.state
    (run (controller VideoAnalyzerFlow)
         [VideoAnalyzer.ChooseFile (Some Sample.clip);
          VideoAnalyzer.ChangeIntendedEmotion "Joy";
          VideoAnalyzer.ClickRemove])) = "Joy" /\
  VideoAnalyzer.intendedEmotion VideoAnalyzer.initial = "" /\
  EmotionDetector.loading (EmotionDetector.state
    (run (controller EmotionDetectorFlow)
         [EmotionDetector.FileSelected (Some Sample.clip);
          EmotionDetector.ChangeEmotion "Joy";
          EmotionDetector.ClickAnalyze;
          EmotionDetector.ClickClear])) = true /\
  EmotionDetector.loading EmotionDetector.initial = false.
Proof. repeat split. vm_compute. discriminate. Qed.

(** C8, amended.  After any run at all (selections, edits, submissions,
    settlings), with the component mounted.  The Clear button of
    EmotionDetector puts file, preview, intended emotion, result and
    error back to their initial values and releases the held preview
    URL, once.  The Reset button of ScriptWriter puts text, file,
    result and error back to their initial values and keeps the genre.
    The remove button of VideoAnalyzer, which exists while a preview is
    shown, puts file, preview and result back to their initial values
    and releases the held preview URL, once; it keeps the intended
    emotion and the error.  None of the three touches [loading] or the
    request that is out: a pending request is not cancelled. *)
Theorem reset_from_any_state :
  (forall events : list EmotionDetector.Event,
     let i := run (controller EmotionDetectorFlow) events in
     let j := EmotionDetector.react i EmotionDetector.ClickClear in
     EmotionDetector.mounted i = true ->
     EmotionDetector.state j
     = EmotionDetector.mkState None None "" JS.VNull ""
         (EmotionDetector.loading (EmotionDetector.state i)) /\
     EmotionDetector.registered j = None /\
     Browser.trace (EmotionDetector.browser j)
     = Browser.trace (EmotionDetector.browser i)
       ++ map Browser.RevokeObjectURL
              (to_list (EmotionDetector.registered i)) /\
     Browser.in_flight (EmotionDetector.browser j)
     = Browser.in_flight (EmotionDetector.browser i)) /\
  (forall events : list ScriptWriter.Event,
     let i := run (controller ScriptWriterFlow) events in
     let j := ScriptWriter.react i ScriptWriter.ClickReset in
     ScriptWriter.state j
     = ScriptWriter.mkState (ScriptWriter.genre (ScriptWriter.state i))
         "" None (ScriptWriter.loading (ScriptWriter.state i)) JS.VNull "" /\
     ScriptWriter.browser j = ScriptWriter.browser i) /\
  (forall events : list VideoAnalyzer.Event,
     let i := run (controller VideoAnalyzerFlow) events in
     let j := VideoAnalyzer.react i VideoAnalyzer.ClickRemove in
     VideoAnalyzer.mounted i = true ->
     VideoAnalyzer.preview (VideoAnalyzer.state i) <> None ->
     VideoAnalyzer.state j
     = VideoAnalyzer.mkState None None
         (VideoAnalyzer.loading (VideoAnalyzer.state i)) JS.VNull
         (VideoAnalyzer.intendedEmotion (VideoAnalyzer.state i))
         (VideoAnalyzer.error (VideoAnalyzer.state i)) /\
     VideoAnalyzer.captured j = None /\
     Browser.trace (VideoAnalyzer.browser j)
     = Browser.trace (VideoAnalyzer.browser i)
       ++ map Browser.RevokeObjectURL (to_list (VideoAnalyzer.captured i)) /\
     Browser.in_flight (VideoAnalyzer.browser j)
     = Browser.in_flight (VideoAnalyzer.browser i)).
Proof.
  split; [|split].
  - intros events. cbv zeta.
    pose proof (reachable EmotionDetectorFlow events) as Hinv.
    set (i := run (controller EmotionDetectorFlow) events) in *. clearbody i.
    change (EmotionDetector_inv i) in Hinv.
    destruct i as [[fi sr em r er l] dp rg m [tr nu inf]].
    cbn. intros ->.
    destruct Hinv as (_ & _ & Hs & _ & Hd). cbn in Hs, Hd.
    unfold EmotionDetector.react, exec. cbn.
    destruct dp as [d|]; cbn.
    + destruct rg as [u|]; [|exfalso; intuition discriminate].
      cbn. auto.
    + destruct rg as [u|]; [exfalso; intuition discriminate|].
      cbn. rewrite app_nil_r. auto.
  - intros events. cbv zeta.
    set (i := run (controller ScriptWriterFlow) events) in *. clearbody i.
    destruct i as [[g t p l o er] w]. cbn. auto.
  - intros events. cbv zeta.
    pose proof (reachable VideoAnalyzerFlow events) as Hinv.
    set (i := run (controller VideoAnalyzerFlow) events) in *. clearbody i.
    change (VideoAnalyzer_inv i) in Hinv.
    destruct i as [[fi pv l r em er] cap m [tr nu inf]].
    cbn. intros -> Hpv.
    destruct Hinv as (_ & _ & Hc & _). cbn in Hc. subst cap.
    unfold VideoAnalyzer.react, exec. cbn.
    destruct pv as [u|]; [|contradiction Hpv; reflexivity].
    cbn. auto.
Qed.

Lemma reset_from_any_state_witness :
  let i := run (controller EmotionDetectorFlow)
             [EmotionDetector.FileSelected (Some Sample.clip);
              EmotionDetector.ChangeEmotion "Joy";
              EmotionDetector.ClickAnalyze;
              EmotionDetector.Settled (Sample.success Sample.verdict);
              EmotionDetector.ChangeEmotion "";
              EmotionDetector.ClickAnalyze] in
  EmotionDetector.mounted i = true /\
  EmotionDetector.result (EmotionDetector.state i) = Sample.verdict /\
  EmotionDetector.error (EmotionDetector.state i)
  = "Upload video and enter intended emotion" /\
  EmotionDetector.registered i = Some 0 /\
  EmotionDetector.state
    (EmotionDetector.react i EmotionDetector.ClickClear)
  = EmotionDetector.mkState None None "" JS.VNull ""
      (EmotionDetector.loading (EmotionDetector.state i)) /\
  Browser.trace
    (EmotionDetector.browser
       (EmotionDetector.react i EmotionDetector.ClickClear))
  = Browser.trace (EmotionDetector.browser i)
    ++ map Browser.RevokeObjectURL (to_list (EmotionDetector.registered i)).
Proof.
  cbv zeta.
  split; [reflexivity|]. split; [reflexivity|]. split; [reflexivity|].
  split; [reflexivity|].
  pose proof (proj1 reset_from_any_state
                [EmotionDetector.FileSelected (Some Sample.clip);
                 EmotionDetector.ChangeEmotion "Joy";
                 EmotionDetector.ClickAnalyze;
                 EmotionDetector.Settled (Sample.success Sample.verdict);
                 EmotionDetector.ChangeEmotion "";
                 EmotionDetector.ClickAnalyze] eq_refl) as (H1 & _ & H3 & _).
  split; [exact H1|exact H3].
Defined.

(** ** The rendered script *)

(** Counterexample to C9: ScriptTransformer receives a payload with
    neither [structured_script] nor [final_script]; it renders the
    placeholder, not a dump of the payload. *)
Lemma script_transformer_has_no_raw_dump :
  ScriptTransformer.output (ScriptTransformer.state
    (run (controller ScriptTransformerFlow)
         [ScriptTransformer.ChangeText "John sits at the cafe.";
          ScriptTransformer.ClickGenerate;
          ScriptTransformer.Settled
            (Sample.success
               (JS.VObj [("script", JS.VStr "INT. CAFE - DAY")]))]))
  = ScriptTransformer.Placeholder.
Proof. reflexivity. Qed.

(** C9, amended.  ScriptWriter stores the payload of a success and
    renders its placeholder for a falsy payload and, for a truthy one, its [structured_script] when that is
    truthy (present and not empty), otherwise its [final_script] when
    that is truthy, otherwise [JSON.stringify] of the whole payload.
    ScriptTransformer renders [structured_script] when truthy, otherwise
    [final_script] when truthy, and otherwise its placeholder: it has
    no raw dump. *)
Theorem rendered_script :
  (forall (JSON_stringify : JS.value -> string) (s : ScriptWriter.State),
     JS.truthy (ScriptWriter.out s) = false ->
     ScriptWriter.teleprompter JSON_stringify s = ScriptWriter.Placeholder) /\
  (forall (JSON_stringify : JS.value -> string) (s : ScriptWriter.State),
     JS.truthy (ScriptWriter.out s) = true ->
     let a := JS.opt_member (ScriptWriter.out s) "structured_script" in
     let b := JS.opt_member (ScriptWriter.out s) "final_script" in
     (JS.truthy a = true ->
        ScriptWriter.teleprompter JSON_stringify s = ScriptWriter.Script a) /\
     (JS.truthy a = false -> JS.truthy b = true ->
        ScriptWriter.teleprompter JSON_stringify s = ScriptWriter.Script b) /\
     (JS.truthy a = false -> JS.truthy b = false ->
        ScriptWriter.teleprompter JSON_stringify s
        = ScriptWriter.Script
            (JS.VStr (JSON_stringify (ScriptWriter.out s))))) /\
  (forall (i : ScriptWriter.Instance) (r : Browser.Response)
          (data : JS.value),
     Browser.ok r = true -> Browser.json r = inr data ->
     ScriptWriter.out (ScriptWriter.state
       (exec (ScriptWriter.submit_settled (Browser.Resolved r)) i)) = data) /\
  (forall (i : ScriptTransformer.Instance) (r : Browser.Response)
          (fields : list (string * JS.value)),
     Browser.ok r = true -> Browser.json r = inr (JS.VObj fields) ->
     let s := ScriptTransformer.state
                (exec (ScriptTransformer.handleGenerate_settled
                         (Browser.Resolved r)) i) in
     let a := JS.lookup "structured_script" fields in
     let b := JS.lookup "final_script" fields in
     (JS.truthy a = true ->
        ScriptTransformer.output s = ScriptTransformer.Script a) /\
     (JS.truthy a = false -> JS.truthy b = true ->
        ScriptTransformer.output s = ScriptTransformer.Script b) /\
     (JS.truthy a = false -> JS.truthy b = false ->
        ScriptTransformer.output s = ScriptTransformer.Placeholder)).
Proof.
  split; [|split; [|split]].
  - intros stringify s Ho. unfold ScriptWriter.teleprompter.
    rewrite Ho. reflexivity.
  - intros stringify s Ho. cbv zeta. unfold ScriptWriter.teleprompter, JS.or.
    rewrite Ho. repeat split.
    + intros Ha. rewrite Ha. cbn. rewrite Ha. reflexivity.
    + intros Ha Hb. rewrite Ha. cbn. rewrite Hb. reflexivity.
    + intros Ha Hb. rewrite Ha. cbn. rewrite Hb. reflexivity.
  - intros i r data Hok Hj.
    unfold exec, ScriptWriter.submit_settled, ScriptWriter.submit_try. cbn.
    rewrite Hj, Hok. reflexivity.
  - intros i r fields Hok Hj. cbv zeta.
    unfold exec, ScriptTransformer.handleGenerate_settled,
      ScriptTransformer.generate_try, ScriptTransformer.output. cbn.
    rewrite Hok, Hj. cbn. repeat split.
    + intros Ha. rewrite Ha. cbn. rewrite Ha. reflexivity.
    + intros Ha Hb. rewrite Ha. cbn. rewrite Hb. reflexivity.
    + intros Ha Hb. rewrite Ha. cbn. rewrite Hb. reflexivity.
Qed.

Lemma rendered_script_witness :
  JS.truthy (JS.VObj [("final_script", JS.VStr "FADE IN:")]) = true /\
  ScriptWriter.teleprompter (fun _ => "{}")
    (ScriptWriter.mkState "Drama" "" None false
       (JS.VObj [("final_script", JS.VStr "FADE IN:")]) "")
  = ScriptWriter.Script (JS.VStr "FADE IN:").
Proof.
  split; [reflexivity|].
  apply (proj1 (proj2 rendered_script) (fun _ => "{}")
           (ScriptWriter.mkState "Drama" "" None false
              (JS.VObj [("final_script", JS.VStr "FADE IN:")]) "")
           eq_refl); reflexivity.
Defined.

(** ** Document or text *)

(** C10.  In ScriptWriter, when a PDF is selected at the time of the
    click on the enabled button, the one request that leaves goes to the
    document endpoint as a form with the file and the genre, whatever
    the pasted text is: the text is in none of its parts. *)
Theorem document_takes_precedence (i : ScriptWriter.Instance)
  (f : Browser.File) :
  ScriptWriter.pdf (ScriptWriter.state i) = Some f ->
  ScriptWriter.loading (ScriptWriter.state i) = false ->
  let j := ScriptWriter.react i ScriptWriter.ClickGenerate in
  Browser.trace (ScriptWriter.browser j)
  = Browser.trace (ScriptWriter.browser i)
    ++ [Browser.Fetch
          (Browser.mkRequest
             "https://Arjun9036-script-writer-api.hf.space/generate-script-from-pdf/"
             "POST" []
             (Browser.FormBody
                [("file", Browser.PartFile f);
                 ("genre",
                  Browser.PartText
                    (ScriptWriter.genre (ScriptWriter.state i)))]))] /\
  ScriptWriter.loading (ScriptWriter.state j) = true.
Proof.
  destruct i as [[g t p l o er] w]. cbn. intros -> ->. cbn. auto.
Qed.

Lemma document_takes_precedence_witness :
  ScriptWriter.pdf (ScriptWriter.state
    (run (controller ScriptWriterFlow)
         [ScriptWriter.ChangeText "John sits at the cafe.";
          ScriptWriter.FileSelected (Some Sample.notes)]))
  = Some Sample.notes /\
  ScriptWriter.text (ScriptWriter.state
    (run (controller ScriptWriterFlow)
         [ScriptWriter.ChangeText "John sits at the cafe.";
          ScriptWriter.FileSelected (Some Sample.notes)]))
  = "John sits at the cafe." /\
  ScriptWriter.loading (ScriptWriter.state
    (ScriptWriter.react
       (run (controller ScriptWriterFlow)
            [ScriptWriter.ChangeText "John sits at the cafe.";
             ScriptWriter.FileSelected (Some Sample.notes)])
       ScriptWriter.ClickGenerate))
  = true.
Proof.
  split; [reflexivity|]. split; [reflexivity|].
  apply (document_takes_precedence
           (run (controller ScriptWriterFlow)
                [ScriptWriter.ChangeText "John sits at the cafe.";
                 ScriptWriter.FileSelected (Some Sample.notes)])
           Sample.notes); reflexivity.
Defined.

(** ** The two scenarios end to end *)

Example script_scenario :
  Browser.fetches (Browser.trace (ScriptTransformer.browser
    (run (controller ScriptTransformerFlow)
         [ScriptTransformer.ChangeText "John sits at the cafe.";
          ScriptTransformer.ChangeGenre "Noir";
          ScriptTransformer.ClickGenerate])))
  = [Browser.mkRequest ScriptTransformer.SCRIPT_API_URL_TEXT "POST"
       [("Content-Type", "application/json")]
       (Browser.JsonBody
          [("original_script", JS.VStr "John sits at the cafe.");
           ("genre", JS.VStr "Noir")])] /\
  ScriptTransformer.output (ScriptTransformer.state
    (run (controller ScriptTransformerFlow)
         [ScriptTransformer.ChangeText "John sits at the cafe.";
          ScriptTransformer.ChangeGenre "Noir";
          ScriptTransformer.ClickGenerate;
          ScriptTransformer.Settled
            (Sample.success
               (JS.VObj [("structured_script", JS.VStr "INT. CAFE - DAY")]))]))
  = ScriptTransformer.Script (JS.VStr "INT. CAFE - DAY").
Proof. split; reflexivity. Qed.

Example emotion_scenario :
  Browser.fetches (Browser.trace (EmotionDetector.browser
    (run (controller EmotionDetectorFlow)
         [EmotionDetector.FileSelected (Some Sample.clip);
          EmotionDetector.ChangeEmotion "Joy";
          EmotionDetector.ClickAnalyze])))
  = [Browser.mkRequest EmotionDetector.EMOTION_API "POST" []
       (Browser.FormBody [("video", Browser.PartFile Sample.clip);
                          ("user_emotion", Browser.PartText "Joy")])] /\
  EmotionDetector.result (EmotionDetector.state
    (run (controller EmotionDetectorFlow)
         [EmotionDetector.FileSelected (Some Sample.clip);
          EmotionDetector.ChangeEmotion "Joy";
          EmotionDetector.ClickAnalyze;
          EmotionDetector.Settled (Sample.success Sample.verdict)]))
  = Sample.verdict.
Proof. split; reflexivity. Qed.


(** * More of the code *)

(** ** Requests leave on a submit click only *)

Lemma fetches_app (t1 t2 : list Browser.effect) :
  Browser.fetches (t1 ++ t2) = Browser.fetches t1 ++ Browser.fetches t2.
Proof. unfold Browser.fetches. apply flat_map_app. Qed.

Ltac sends :=
  unfold Browser.fetches; rewrite ?flat_map_app; cbn; rewrite ?app_nil_r;
  first [ reflexivity
        | exists []; rewrite app_nil_r; split; [reflexivity|cbn; lia]
        | eexists [_]; split; [reflexivity|cbn; lia] ].

Lemma at_most_one_request_per_event (f : flow) (i : instance (controller f))
  (e : event (controller f)) :
  exists sent,
    Browser.fetches (Browser.trace (browser (controller f) (react (controller f) i e)))
    = Browser.fetches (Browser.trace (browser (controller f) i)) ++ sent /\
    length sent <= 1.
Proof.
  destruct f; cbn in *.
  - destruct i as [[l r g t er] [tr nu inf]], e as [v|v| |o|]; cbn;
      unfold ScriptTransformer.handleGenerate,
        ScriptTransformer.handleGenerate_settled,
        ScriptTransformer.download_button, ScriptTransformer.handleDownload;
      branches; sends.
  - destruct i as [[fi [pv|] l r em er] [c|] m [tr nu inf]], e as [sel| |v| |o|];
      unfold VideoAnalyzer.react; cbn; try destruct sel;
      unfold VideoAnalyzer.handleAnalyze, VideoAnalyzer.handleAnalyze_settled;
      branches; sends.
  - destruct i as [[g t p l o er] [tr nu inf]], e as [g'|v|f| | |o'];
      cbn; unfold ScriptWriter.submit, ScriptWriter.submit_settled;
      branches; sends.
  - destruct i as [[fi sr em r er l] dp [u|] m [tr nu inf]],
      e as [sel|v| | |o|];
      unfold EmotionDetector.react; cbn; try destruct sel;
      unfold EmotionDetector.onFileSelected, EmotionDetector.analyze,
        EmotionDetector.analyze_settled;
      branches; sends.
Qed.

Ltac silent :=
  unfold Browser.fetches; rewrite ?flat_map_app; cbn; rewrite ?app_nil_r;
  reflexivity.

Lemma no_request_without_submit (f : flow) (i : instance (controller f))
  (e : event (controller f)) :
  e <> submit_click (controller f) ->
  Browser.fetches (Browser.trace (browser (controller f) (react (controller f) i e)))
  = Browser.fetches (Browser.trace (browser (controller f) i)).
Proof.
  destruct f; cbn in *.
  - destruct i as [[l r g t er] [tr nu inf]], e as [v|v| |o|]; intros Hne;
      try (exfalso; apply Hne; reflexivity); cbn;
      unfold ScriptTransformer.handleGenerate_settled,
        ScriptTransformer.download_button, ScriptTransformer.handleDownload;
      branches; silent.
  - destruct i as [[fi [pv|] l r em er] [c|] m [tr nu inf]], e as [sel| |v| |o|];
      intros Hne; try (exfalso; apply Hne; reflexivity);
      unfold VideoAnalyzer.react; cbn; try destruct sel;
      unfold VideoAnalyzer.handleAnalyze_settled; branches; silent.
  - destruct i as [[g t p l o er] [tr nu inf]], e as [g'|v|f| | |o'];
      intros Hne; try (exfalso; apply Hne; reflexivity);
      cbn; unfold ScriptWriter.submit_settled; branches; silent.
  - destruct i as [[fi sr em r er l] dp [u|] m [tr nu inf]],
      e as [sel|v| | |o|];
      intros Hne; try (exfalso; apply Hne; reflexivity);
      unfold EmotionDetector.react; cbn; try destruct sel;
      unfold EmotionDetector.onFileSelected, EmotionDetector.analyze_settled;
      branches; silent.
Qed.

(** X1.  In all four flows and from any state, an event other than the
    click on the submit button sends no request (typing, selecting or
    dropping a file, Reset, Clear, the removal of the file, the settling
    of a request, the unmounting), and a click on the submit button
    sends one request at most. *)
Theorem requests_leave_on_submit_only (f : flow)
  (i : instance (controller f)) (e : event (controller f)) :
  (e <> submit_click (controller f) ->
   Browser.fetches
     (Browser.trace (browser (controller f) (react (controller f) i e)))
   = Browser.fetches (Browser.trace (browser (controller f) i))) /\
  (exists sent,
     Browser.fetches
       (Browser.trace (browser (controller f) (react (controller f) i e)))
     = Browser.fetches (Browser.trace (browser (controller f) i)) ++ sent /\
     length sent <= 1).
Proof.
  split.
  - apply no_request_without_submit.
  - apply at_most_one_request_per_event.
Qed.

Lemma requests_leave_on_submit_only_witness :
  EmotionDetector.FileSelected (Some Sample.clip)
    <> submit_click (controller EmotionDetectorFlow) /\
  Browser.fetches
    (Browser.trace
       (browser (controller EmotionDetectorFlow)
          (react (controller EmotionDetectorFlow)
             (mount (controller EmotionDetectorFlow))
             (EmotionDetector.FileSelected (Some Sample.clip)))))
  = Browser.fetches
      (Browser.trace
         (browser (controller EmotionDetectorFlow)
            (mount (controller EmotionDetectorFlow)))).
Proof.
  split; [discriminate|].
  apply (proj1 (requests_leave_on_submit_only EmotionDetectorFlow
                  (mount (controller EmotionDetectorFlow))
                  (EmotionDetector.FileSelected (Some Sample.clip)))).
  discriminate.
Defined.


(** ** The settling of a request *)

Lemma settled_instance (f : flow) (i : instance (controller f))
  (o : Browser.outcome) :
  reachable_inv f i ->
  is_mounted f i = true ->
  pending (controller f) i = true ->
  pending (controller f) (react (controller f) i (settled f o)) = false /\
  Browser.in_flight
    (browser (controller f) (react (controller f) i (settled f o))) = 0.
Proof.
  destruct f; cbn.
  - destruct i as [[l r g t er] [tr nu inf]]; cbn.
    intros (Hn & _) _ ->. cbn in Hn. subst inf. cbn.
    unfold ScriptTransformer.handleGenerate_settled; branches; auto.
  - destruct i as [[fi pv l r em er] cap m [tr nu inf]];
      unfold VideoAnalyzer_inv, VideoAnalyzer.react; cbn.
    intros (_ & H) -> ->. destruct H as ((Hn & _) & -> & _).
    cbn in Hn. subst inf. unfold exec; cbn.
    unfold VideoAnalyzer.handleAnalyze_settled.
    destruct (VideoAnalyzer.analyze_try o); cbn;
      rewrite same_url_refl; cbn; auto.
  - destruct i as [[g t p l ou er] [tr nu inf]]; cbn.
    intros ((Hn & _) & _) _ ->. cbn in Hn. subst inf. cbn.
    unfold ScriptWriter.submit_settled; branches; auto.
  - destruct i as [[fi sr em r er l] dp rg m [tr nu inf]];
      unfold EmotionDetector_inv, EmotionDetector.react; cbn.
    intros (_ & H) -> ->. destruct H as (Hn & Hs & _).
    cbn in Hn. subst inf. unfold exec; cbn.
    unfold EmotionDetector.analyze_settled.
    destruct (EmotionDetector.analyze_try o); cbn; rewrite Hs; cbn; auto.
Qed.

(** X2.  In all four flows, along every run: when the component is
    mounted and waits for its request, the handler that resumes when
    the request settles, however it settles (the promise of fetch
    rejected, or resolved with any status and any body), writes [false]
    to [loading] on every path, through the catch block as well, and no
    request is out any more.  What the render that follows makes of the
    stored body is not part of the statement. *)
Theorem settling_ends_the_wait (f : flow)
  (events : list (event (controller f))) (o : Browser.outcome) :
  let c := controller f in
  let i := run c events in
  is_mounted f i = true ->
  pending c i = true ->
  pending c (react c i (settled f o)) = false /\
  Browser.in_flight (browser c (react c i (settled f o))) = 0.
Proof.
  cbv zeta. apply settled_instance, reachable.
Qed.

Lemma settling_ends_the_wait_witness :
  let c := controller VideoAnalyzerFlow in
  let i := run c [VideoAnalyzer.ChooseFile (Some Sample.clip);
                  VideoAnalyzer.ClickAnalyze] in
  let o := Sample.success Sample.verdict in
  is_mounted VideoAnalyzerFlow i = true /\
  pending c i = true /\
  pending c (react c i (settled VideoAnalyzerFlow o)) = false /\
  Browser.in_flight (browser c (react c i (settled VideoAnalyzerFlow o))) = 0.
Proof.
  cbv zeta.
  split; [reflexivity|]. split; [reflexivity|].
  apply (settling_ends_the_wait VideoAnalyzerFlow
           [VideoAnalyzer.ChooseFile (Some Sample.clip);
            VideoAnalyzer.ClickAnalyze]
           (Sample.success Sample.verdict));
    reflexivity.
Defined.

(** ** What a submission leaves alone *)

Lemma draft_kept (f : flow) (i : instance (controller f))
  (o : Browser.outcome) :
  reachable_inv f i ->
  draft_of f (react (controller f) i (submit_click (controller f)))
  = draft_of f i /\
  draft_of f (react (controller f) i (settled f o)) = draft_of f i.
Proof.
  destruct f; cbn.
  - destruct i as [[l r g t er] [tr nu inf]]; cbn. intros _.
    unfold ScriptTransformer.handleGenerate,
      ScriptTransformer.handleGenerate_settled.
    split; branches; reflexivity.
  - destruct i as [[fi pv l r em er] cap [|] [tr nu inf]];
      unfold VideoAnalyzer_inv, VideoAnalyzer.react; cbn.
    + intros (_ & _ & -> & _).
      unfold VideoAnalyzer.handleAnalyze,
        VideoAnalyzer.handleAnalyze_settled.
      destruct pv; split; branches; reflexivity.
    + intros _. split; reflexivity.
  - destruct i as [[g t p l ou er] [tr nu inf]]; cbn. intros _.
    unfold ScriptWriter.submit, ScriptWriter.submit_settled.
    split; branches; reflexivity.
  - destruct i as [[fi sr em r er l] dp rg [|] [tr nu inf]];
      unfold EmotionDetector_inv, EmotionDetector.react; cbn.
    + intros (_ & _ & Hs & _).
      unfold EmotionDetector.analyze, EmotionDetector.analyze_settled.
      destruct fi as [fi|], dp as [dp|]; cbn in Hs; try discriminate;
        split; branches; reflexivity.
    + intros _. split; reflexivity.
Qed.

(** X3.  In all four flows, along every run: neither a click on the
    submit button (whether it sends a request, fails the validation or
    is ignored) nor the settling of a request changes what the user has
    entered: the text and the genre, the selected file and its preview,
    the intended emotion.  Only the Reset, Clear and remove buttons and
    the user's own edits do. *)
Theorem submission_keeps_the_draft (f : flow)
  (events : list (event (controller f))) (o : Browser.outcome) :
  draft_of f (react (controller f) (run (controller f) events)
                    (submit_click (controller f)))
  = draft_of f (run (controller f) events) /\
  draft_of f (react (controller f) (run (controller f) events) (settled f o))
  = draft_of f (run (controller f) events).
Proof.
  apply draft_kept, reachable.
Qed.


(** ** A request that throws *)

Lemma thrown_instance (f : flow) (i : instance (controller f))
  (o : Browser.outcome) (e : JS.Error) :
  reachable_inv f i ->
  is_mounted f i = true ->
  pending (controller f) i = true ->
  breaks_with o e ->
  error_of f (react (controller f) i (settled f o)) = failure_message f e /\
  result_of f (react (controller f) i (settled f o)) = result_of f i.
Proof.
  intros Hinv Hm Hp Hb.
  assert (Ho : Browser.awaited o = inl e \/
               exists r, Browser.awaited o = inr r /\ Browser.ok r = true /\
                         Browser.json r = inl e).
  { destruct Hb as [->|(r & -> & Hok & Hj)]; [left; reflexivity|].
    right. exists r. auto. }
  clear Hb. revert Hinv Hm Hp.
  destruct f; cbn.
  - destruct i as [[l r g t er] [tr nu inf]]; cbn.
    intros (Hn & _) _ ->. cbn in Hn. subst inf. cbn.
    unfold ScriptTransformer.handleGenerate_settled,
      ScriptTransformer.generate_try.
    destruct Ho as [Ho|(r' & Ho & Hok & Hj)]; rewrite Ho; cbn;
      rewrite ?Hok; cbn; rewrite ?Hj; cbn; auto.
  - destruct i as [[fi pv l r em er] cap m [tr nu inf]];
      unfold VideoAnalyzer_inv, VideoAnalyzer.react; cbn.
    intros (_ & H) -> ->. destruct H as ((Hn & _) & -> & _).
    cbn in Hn. subst inf. unfold exec; cbn.
    unfold VideoAnalyzer.handleAnalyze_settled, VideoAnalyzer.analyze_try.
    destruct Ho as [Ho|(r' & Ho & Hok & Hj)]; rewrite Ho; cbn;
      rewrite ?Hok; cbn; rewrite ?Hj; cbn; rewrite same_url_refl; cbn; auto.
  - destruct i as [[g t p l ou er] [tr nu inf]]; cbn.
    intros ((Hn & _) & _) _ ->. cbn in Hn. subst inf. cbn.
    unfold ScriptWriter.submit_settled, ScriptWriter.submit_try,
      ScriptWriter.message_of.
    destruct Ho as [Ho|(r' & Ho & Hok & Hj)]; rewrite Ho; cbn;
      rewrite ?Hj; cbn; rewrite message_of_exception; auto.
  - destruct i as [[fi sr em r er l] dp rg m [tr nu inf]];
      unfold EmotionDetector_inv, EmotionDetector.react; cbn.
    intros (_ & H) -> ->. destruct H as (Hn & Hs & _).
    cbn in Hn. subst inf. unfold exec; cbn.
    unfold EmotionDetector.analyze_settled, EmotionDetector.analyze_try,
      EmotionDetector.message_of.
    destruct Ho as [Ho|(r' & Ho & Hok & Hj)]; rewrite Ho; cbn;
      rewrite ?Hj; cbn; rewrite Hs; cbn; rewrite message_of_exception; auto.
Qed.

(** X4.  In all four flows, along every run: when the request of a
    mounted, waiting component throws (fetch rejects, as it does when
    the network is down, or the response has a success status and a
    body that is not JSON), the component displays a message and leaves
    its result cell as it is.  ScriptWriter and EmotionDetector display
    the message of the exception (its name when it has no message);
    ScriptTransformer and VideoAnalyzer display the fixed text of their
    catch block, whatever was thrown. *)
Theorem thrown_request_is_reported (f : flow)
  (events : list (event (controller f))) (o : Browser.outcome)
  (e : JS.Error) :
  let c := controller f in
  let i := run c events in
  is_mounted f i = true ->
  pending c i = true ->
  breaks_with o e ->
  error_of f (react c i (settled f o)) = failure_message f e /\
  result_of f (react c i (settled f o)) = result_of f i.
Proof.
  cbv zeta. apply thrown_instance, reachable.
Qed.

Lemma thrown_request_is_reported_witness :
  let c := controller EmotionDetectorFlow in
  let i := run c [EmotionDetector.FileSelected (Some Sample.clip);
                  EmotionDetector.ChangeEmotion "joy";
                  EmotionDetector.ClickAnalyze] in
  let e := JS.TypeError "Failed to fetch" in
  is_mounted EmotionDetectorFlow i = true /\
  pending c i = true /\
  breaks_with (Browser.Rejected e) e /\
  error_of EmotionDetectorFlow
    (react c i (settled EmotionDetectorFlow (Browser.Rejected e)))
  = failure_message EmotionDetectorFlow e.
Proof.
  cbv zeta.
  split; [reflexivity|]. split; [reflexivity|].
  split; [left; reflexivity|].
  apply (thrown_request_is_reported EmotionDetectorFlow
           [EmotionDetector.FileSelected (Some Sample.clip);
            EmotionDetector.ChangeEmotion "joy";
            EmotionDetector.ClickAnalyze]
           (Browser.Rejected (JS.TypeError "Failed to fetch"))
           (JS.TypeError "Failed to fetch"));
    [reflexivity|reflexivity|left; reflexivity].
Defined.

(** ** A request that succeeds *)

Lemma success_instance (f : flow) (i : instance (controller f))
  (r : Browser.Response) (data : JS.value) :
  reachable_inv f i ->
  f <> ScriptTransformerFlow ->
  is_mounted f i = true ->
  pending (controller f) i = true ->
  Browser.ok r = true ->
  Browser.json r = inr data ->
  result_of f (react (controller f) i (settled f (Browser.Resolved r)))
  = data /\
  error_of f (react (controller f) i (settled f (Browser.Resolved r)))
  = error_of f i /\
  (f = ScriptWriterFlow ->
   result_panel f (react (controller f) i (settled f (Browser.Resolved r)))
   = if JS.truthy data then JS.Element else JS.Nothing) /\
  (f <> ScriptWriterFlow ->
   result_panel f (react (controller f) i (settled f (Browser.Resolved r)))
   = JS.and_element data).
Proof.
  destruct f; cbn; [intros _ Hne; contradiction Hne; reflexivity| | |].
  - destruct i as [[fi pv l re em er] cap m [tr nu inf]];
      unfold VideoAnalyzer_inv, VideoAnalyzer.react; cbn.
    intros (_ & H) _ -> -> Hok Hj.
    destruct H as ((Hn & _) & -> & _).
    cbn in Hn. subst inf. unfold exec; cbn.
    unfold VideoAnalyzer.handleAnalyze_settled, VideoAnalyzer.analyze_try.
    cbn. rewrite Hok, Hj. cbn. rewrite same_url_refl. cbn.
    unfold VideoAnalyzer.result_view. cbn.
    repeat split; [discriminate|].
    intros _. destruct (JS.and_element data); reflexivity.
  - destruct i as [[g t p l ou er] [tr nu inf]]; cbn.
    intros ((Hn & _) & _) _ _ -> Hok Hj.
    cbn in Hn. subst inf. cbn.
    unfold ScriptWriter.submit_settled, ScriptWriter.submit_try.
    cbn. rewrite Hok, Hj. cbn.
    repeat split. intros Hne. contradiction Hne. reflexivity.
  - destruct i as [[fi sr em re er l] dp rg m [tr nu inf]];
      unfold EmotionDetector_inv, EmotionDetector.react; cbn.
    intros (_ & H) _ -> -> Hok Hj. destruct H as (Hn & Hs & _).
    cbn in Hn. subst inf. unfold exec; cbn.
    unfold EmotionDetector.analyze_settled, EmotionDetector.analyze_try.
    cbn. rewrite Hok, Hj. cbn. rewrite Hs. cbn.
    repeat split. discriminate.
Qed.

(** X5.  In ScriptWriter, VideoAnalyzer and EmotionDetector, along
    every run: when the request of a mounted, waiting component is
    answered with a success status and a JSON body, the parsed body
    becomes the result as it is and the error cell is not written.
    The result expression of the view then evaluates as JavaScript has
    it.  The ternary of ScriptWriter gives the element of the result
    for a truthy body and the placeholder otherwise.  The
    [{result && ...}] of VideoAnalyzer and EmotionDetector gives the
    element of the result for a truthy body, nothing for [null],
    [false] and the empty string, and the number itself for a number
    that is zero, which React renders as its text.  Whether React can
    render the children of the element is not part of the statement. *)
Theorem success_stores_the_body (f : flow)
  (events : list (event (controller f))) (r : Browser.Response)
  (data : JS.value) :
  let c := controller f in
  let i := run c events in
  f <> ScriptTransformerFlow ->
  is_mounted f i = true ->
  pending c i = true ->
  Browser.ok r = true ->
  Browser.json r = inr data ->
  result_of f (react c i (settled f (Browser.Resolved r))) = data /\
  error_of f (react c i (settled f (Browser.Resolved r))) = error_of f i /\
  (f = ScriptWriterFlow ->
   result_panel f (react c i (settled f (Browser.Resolved r)))
   = if JS.truthy data then JS.Element else JS.Nothing) /\
  (f <> ScriptWriterFlow ->
   result_panel f (react c i (settled f (Browser.Resolved r)))
   = JS.and_element data).
Proof.
  cbv zeta. apply success_instance, reachable.
Qed.

Lemma success_stores_the_body_witness :
  let c := controller EmotionDetectorFlow in
  let i := run c [EmotionDetector.FileSelected (Some Sample.clip);
                  EmotionDetector.ChangeEmotion "joy";
                  EmotionDetector.ClickAnalyze] in
  let zero := JS.VNum (JS.mkNumber true "0") in
  let r := Browser.mkResponse true "0" (inr zero) in
  EmotionDetectorFlow <> ScriptTransformerFlow /\
  is_mounted EmotionDetectorFlow i = true /\
  pending c i = true /\
  result_panel EmotionDetectorFlow
    (react c i (settled EmotionDetectorFlow (Browser.Resolved r)))
  = JS.and_element zero /\
  JS.and_element zero = JS.Text "0".
Proof.
  cbv zeta.
  split; [discriminate|]. split; [reflexivity|]. split; [reflexivity|].
  split; [|reflexivity].
  apply (success_stores_the_body EmotionDetectorFlow
           [EmotionDetector.FileSelected (Some Sample.clip);
            EmotionDetector.ChangeEmotion "joy";
            EmotionDetector.ClickAnalyze]
           (Browser.mkResponse true "0"
              (inr (JS.VNum (JS.mkNumber true "0"))))
           (JS.VNum (JS.mkNumber true "0")));
    [discriminate|reflexivity|reflexivity|reflexivity|reflexivity
    |discriminate].
Defined.

(** X6.  ScriptTransformer, along every run, when its pending request
    is answered with a success status and a JSON body: a body that is
    [null] is reported with the text of the catch block (reading
    [data.structured_script] throws); a body that is an object whose
    [structured_script] and [final_script] are both falsy (absent or
    empty) leaves the placeholder in the output panel and displays no
    message. *)
Theorem script_transformer_success_without_a_script
  (events : list ScriptTransformer.Event) (r : Browser.Response) :
  let i := run (controller ScriptTransformerFlow) events in
  let j := ScriptTransformer.react i
             (ScriptTransformer.Settled (Browser.Resolved r)) in
  ScriptTransformer.loading (ScriptTransformer.state i) = true ->
  Browser.ok r = true ->
  (Browser.json r = inr JS.VNull ->
   ScriptTransformer.error (ScriptTransformer.state j)
   = "Failed to connect to the backend. Please check if the API is active." /\
   ScriptTransformer.output (ScriptTransformer.state j)
   = ScriptTransformer.Placeholder) /\
  (forall fields,
     Browser.json r = inr (JS.VObj fields) ->
     JS.truthy (JS.lookup "structured_script" fields) = false ->
     JS.truthy (JS.lookup "final_script" fields) = false ->
     ScriptTransformer.error (ScriptTransformer.state j) = "" /\
     ScriptTransformer.output (ScriptTransformer.state j)
     = ScriptTransformer.Placeholder).
Proof.
  cbv zeta.
  pose proof (reachable ScriptTransformerFlow events) as Hinv.
  set (i := run (controller ScriptTransformerFlow) events) in *.
  clearbody i. change (ScriptTransformer_inv i) in Hinv.
  destruct i as [[l re g t er] [tr nu inf]].
  destruct Hinv as (Hn & Hl & _). cbn in *.
  intros -> Hok. destruct (Hl eq_refl) as (-> & ->).
  cbn in Hn. subst inf. cbn.
  unfold ScriptTransformer.handleGenerate_settled,
    ScriptTransformer.generate_try.
  cbn. rewrite Hok. cbn. split.
  - intros ->. cbn. auto.
  - intros fields -> Ha Hb. cbn. rewrite Ha. unfold exec. cbn.
    unfold ScriptTransformer.output. cbn. rewrite Hb. auto.
Qed.

Lemma script_transformer_success_without_a_script_witness :
  let i := run (controller ScriptTransformerFlow)
             [ScriptTransformer.ChangeText "INT. CAFE";
              ScriptTransformer.ClickGenerate] in
  let r := Browser.mkResponse true "null" (inr JS.VNull) in
  let j := ScriptTransformer.react i
             (ScriptTransformer.Settled (Browser.Resolved r)) in
  ScriptTransformer.loading (ScriptTransformer.state i) = true /\
  ScriptTransformer.error (ScriptTransformer.state j)
  = "Failed to connect to the backend. Please check if the API is active.".
Proof.
  cbv zeta. split; [reflexivity|].
  apply (script_transformer_success_without_a_script
           [ScriptTransformer.ChangeText "INT. CAFE";
            ScriptTransformer.ClickGenerate]
           (Browser.mkResponse true "null" (inr JS.VNull)));
    reflexivity.
Defined.


(** ** What a script submission requires *)

(** X7.  The validation of the two script flows, from any state.
    ScriptTransformer: a click on Generate with a text that is empty or
    all white space changes nothing at all (no message is displayed and
    no request leaves); with any other text, when no request is
    pending, it sends the request of the text.  ScriptWriter: with no
    PDF selected and such a text, a click on Generate with no request
    pending clears the output, displays the validation message and
    sends nothing. *)
Theorem script_submit_preconditions :
  (forall i : ScriptTransformer.Instance,
     JS.blank (ScriptTransformer.text (ScriptTransformer.state i)) = true ->
     ScriptTransformer.react i ScriptTransformer.ClickGenerate = i) /\
  (forall i : ScriptTransformer.Instance,
     JS.blank (ScriptTransformer.text (ScriptTransformer.state i)) = false ->
     ScriptTransformer.loading (ScriptTransformer.state i) = false ->
     Browser.trace (ScriptTransformer.browser
                      (ScriptTransformer.react i ScriptTransformer.ClickGenerate))
     = Browser.trace (ScriptTransformer.browser i)
       ++ [Browser.Fetch
             (ScriptTransformer.generate_request (ScriptTransformer.state i))]) /\
  (forall i : ScriptWriter.Instance,
     ScriptWriter.loading (ScriptWriter.state i) = false ->
     ScriptWriter.pdf (ScriptWriter.state i) = None ->
     JS.blank (ScriptWriter.text (ScriptWriter.state i)) = true ->
     let j := ScriptWriter.react i ScriptWriter.ClickGenerate in
     ScriptWriter.err (ScriptWriter.state j)
     = "Please paste script text or upload a PDF." /\
     ScriptWriter.out (ScriptWriter.state j) = JS.VNull /\
     ScriptWriter.loading (ScriptWriter.state j) = false /\
     ScriptWriter.browser j = ScriptWriter.browser i).
Proof.
  split; [|split].
  - intros [[l r g t er] w]. cbn. intros Hb.
    apply trim_empty in Hb.
    unfold ScriptTransformer.generate_disabled,
      ScriptTransformer.handleGenerate. cbn.
    destruct (l || (t =? "")); [reflexivity|].
    rewrite Hb. reflexivity.
  - intros [[l r g t er] [tr nu inf]]. cbn. intros Hb ->.
    unfold ScriptTransformer.generate_disabled,
      ScriptTransformer.handleGenerate. cbn.
    destruct (t =? "") eqn:Et.
    { apply String.eqb_eq in Et. subst t. discriminate. }
    destruct (JS.trim t =? "") eqn:E.
    { apply String.eqb_eq, trim_empty in E. congruence. }
    reflexivity.
  - intros [[g t p l o er] w]. cbn. intros -> -> Hb.
    apply trim_empty in Hb.
    unfold ScriptWriter.generate_disabled, ScriptWriter.submit,
      ScriptWriter.no_input. cbn. rewrite Hb.
    cbn. auto.
Qed.

Lemma script_submit_preconditions_witness :
  let i := ScriptWriter.react ScriptWriter.mount
             (ScriptWriter.ChangeText "   ") in
  ScriptWriter.loading (ScriptWriter.state i) = false /\
  ScriptWriter.pdf (ScriptWriter.state i) = None /\
  JS.blank (ScriptWriter.text (ScriptWriter.state i)) = true /\
  ScriptWriter.err
    (ScriptWriter.state (ScriptWriter.react i ScriptWriter.ClickGenerate))
  = "Please paste script text or upload a PDF.".
Proof.
  cbv zeta.
  split; [reflexivity|]. split; [reflexivity|]. split; [reflexivity|].
  apply (proj2 (proj2 script_submit_preconditions)
           (ScriptWriter.react ScriptWriter.mount
              (ScriptWriter.ChangeText "   ")));
    reflexivity.
Defined.

(** ** Every request that leaves is well formed *)

Lemma fetches_snoc (t : list Browser.effect) (r : Browser.Request) :
  Browser.fetches (t ++ [Browser.Fetch r]) = Browser.fetches t ++ [r].
Proof. rewrite fetches_app. reflexivity. Qed.

Lemma fetches_snoc_create (t : list Browser.effect) (f : Browser.File)
  (u : Browser.url) :
  Browser.fetches (t ++ [Browser.CreateObjectURL f u]) = Browser.fetches t.
Proof. rewrite fetches_app. cbn. apply app_nil_r. Qed.

Lemma fetches_snoc_revoke (t : list Browser.effect) (u : Browser.url) :
  Browser.fetches (t ++ [Browser.RevokeObjectURL u]) = Browser.fetches t.
Proof. rewrite fetches_app. cbn. apply app_nil_r. Qed.

Lemma Forall_snoc {A : Type} (P : A -> Prop) (l : list A) (x : A) :
  Forall P l -> P x -> Forall P (l ++ [x]).
Proof. intros Hl Hx. apply Forall_app. split; [exact Hl|]. constructor; auto. Qed.

Ltac requests :=
  unfold Browser.fetches in *; rewrite ?flat_map_app; cbn;
  rewrite ?app_nil_r.

Lemma EmotionDetector_gate_react (i : EmotionDetector.Instance)
  (e : EmotionDetector.Event) :
  EmotionDetector_gate i -> EmotionDetector_gate (EmotionDetector.react i e).
Proof.
  destruct i as [[fi sr em r er l] dp [u|] m [tr nu inf]];
    unfold EmotionDetector_gate, EmotionDetector.react; cbn;
    intros (Hf & Hr);
    (destruct m; [|destruct e; cbn; auto]);
    destruct e as [sel|v| | |o|]; cbn.
  all: try solve [branches; requests; split; auto; discriminate].
  all: try solve [unfold EmotionDetector.analyze_settled;
                  branches; requests; split; auto].
  all: try (unfold EmotionDetector.onFileSelected;
            destruct sel as [g|]; cbn;
            [|branches; requests; split; auto; discriminate];
            destruct (JS.startsWith (Browser.ftype g) "video/") eqn:Et; cbn;
            [|branches; requests; split; auto];
            destruct (Browser.fsize g >? EmotionDetector.MAX_SIZE)%Z eqn:Es;
            cbn; [branches; requests; split; auto|];
            assert (Hg : video_within_limit g)
              by (split; [exact Et|unfold EmotionDetector.MAX_SIZE in Es; lia]);
            branches; requests; split; auto; intros ? [= <-]; exact Hg).
  all: unfold EmotionDetector.analyze; cbn;
    (destruct l; cbn; [branches; requests; split; auto|]);
    (destruct fi as [f|]; cbn; [|branches; requests; split; auto]);
    (destruct (JS.trim em =? "") eqn:E; cbn;
     [branches; requests; split; auto|]);
    assert (Hok : EmotionDetector_request_ok
              (EmotionDetector.analyze_request f
                 (EmotionDetector.mkState (Some f) sr em r er false)))
      by (exists f, em; split; [reflexivity|]; split; [apply Hf; reflexivity|];
          destruct (JS.blank em) eqn:Eb; [|reflexivity];
          apply trim_empty in Eb; rewrite Eb in E; discriminate);
    branches; requests; (split; [auto|apply Forall_snoc; auto]).
Qed.

(** X8.  EmotionDetector, along every run: the selected file, when
    there is one, has a media type that starts with [video/] and a size
    of 50 MiB at most, and every request sent so far is the multipart
    POST to the prediction endpoint with such a file as [video] and a
    [user_emotion] that is not blank.  What the selection gate and the
    validation of [analyze] refuse never reaches the network. *)
Theorem emotion_detector_sends_gated_files
  (events : list EmotionDetector.Event) :
  (forall f,
     EmotionDetector.file
       (EmotionDetector.state (run (controller EmotionDetectorFlow) events))
     = Some f ->
     video_within_limit f) /\
  Forall EmotionDetector_request_ok
    (Browser.fetches
       (Browser.trace
          (EmotionDetector.browser
             (run (controller EmotionDetectorFlow) events)))).
Proof.
  change (EmotionDetector_gate (run (controller EmotionDetectorFlow) events)).
  apply run_invariant.
  - split; [discriminate|constructor].
  - apply EmotionDetector_gate_react.
Qed.

Lemma emotion_detector_sends_gated_files_witness :
  EmotionDetector.file
    (EmotionDetector.state
       (run (controller EmotionDetectorFlow)
            [EmotionDetector.FileSelected (Some Sample.clip)]))
  = Some Sample.clip /\
  video_within_limit Sample.clip.
Proof.
  split; [reflexivity|].
  apply (proj1 (emotion_detector_sends_gated_files
                  [EmotionDetector.FileSelected (Some Sample.clip)])).
  reflexivity.
Defined.

Lemma selectedGenre_trimmed (s : ScriptTransformer.State) :
  ScriptTransformer.selectedGenre s <> "" /\
  JS.trim (ScriptTransformer.selectedGenre s)
  = ScriptTransformer.selectedGenre s.
Proof.
  unfold ScriptTransformer.selectedGenre, JS.or_str.
  destruct (JS.trim (ScriptTransformer.genre s) =? "") eqn:E.
  - split; [discriminate|]. vm_compute. reflexivity.
  - apply String.eqb_neq in E. split; [exact E|]. apply trim_idempotent.
Qed.

Lemma ScriptTransformer_requests_react (i : ScriptTransformer.Instance)
  (e : ScriptTransformer.Event) :
  Forall ScriptTransformer_request_ok
    (Browser.fetches (Browser.trace (ScriptTransformer.browser i))) ->
  Forall ScriptTransformer_request_ok
    (Browser.fetches
       (Browser.trace (ScriptTransformer.browser (ScriptTransformer.react i e)))).
Proof.
  destruct i as [[l r g t er] [tr nu inf]]. cbn. intros Hr.
  destruct e as [v|v| |o|]; cbn; auto.
  - unfold ScriptTransformer.generate_disabled,
      ScriptTransformer.handleGenerate. cbn.
    destruct (l || (t =? "")); cbn; [exact Hr|].
    destruct (JS.trim t =? "") eqn:E; cbn; [exact Hr|].
    rewrite fetches_snoc. apply Forall_snoc; [exact Hr|].
    eexists t, _. split; [reflexivity|]. split.
    + destruct (JS.blank t) eqn:Eb; [|reflexivity].
      apply trim_empty in Eb. rewrite Eb in E. discriminate.
    + apply selectedGenre_trimmed.
  - unfold ScriptTransformer.handleGenerate_settled.
    branches; exact Hr.
  - unfold ScriptTransformer.download_button,
      ScriptTransformer.handleDownload.
    branches; rewrite ?fetches_app; cbn; rewrite ?app_nil_r; exact Hr.
Qed.

Lemma ScriptWriter_requests_react (i : ScriptWriter.Instance)
  (e : ScriptWriter.Event) :
  (exists g, ScriptWriter.genre (ScriptWriter.state i)
             = ScriptWriter.option_value g) /\
  Forall ScriptWriter_request_ok
    (Browser.fetches (Browser.trace (ScriptWriter.browser i))) ->
  (exists g, ScriptWriter.genre (ScriptWriter.state (ScriptWriter.react i e))
             = ScriptWriter.option_value g) /\
  Forall ScriptWriter_request_ok
    (Browser.fetches
       (Browser.trace (ScriptWriter.browser (ScriptWriter.react i e)))).
Proof.
  destruct i as [[g t p l o er] [tr nu inf]]. cbn. intros (Hg & Hr).
  destruct e as [g'|v|f| | |o']; cbn; auto.
  - split; [exists g'; reflexivity|exact Hr].
  - unfold ScriptWriter.generate_disabled, ScriptWriter.submit,
      ScriptWriter.no_input, ScriptWriter.submit_request. cbn.
    destruct Hg as (g0 & ->).
    destruct l; cbn; [split; [exists g0; reflexivity|exact Hr]|].
    destruct p as [f|]; cbn.
    + split; [exists g0; reflexivity|].
      rewrite fetches_snoc. apply Forall_snoc; [exact Hr|].
      left. exists f, g0. reflexivity.
    + destruct (JS.trim t =? "") eqn:E; cbn;
        (split; [exists g0; reflexivity|]); [exact Hr|].
      rewrite fetches_snoc. apply Forall_snoc; [exact Hr|].
      right. exists t, g0. split; [reflexivity|].
      destruct (JS.blank t) eqn:Eb; [|reflexivity].
      apply trim_empty in Eb. rewrite Eb in E. discriminate.
  - unfold ScriptWriter.submit_settled. branches; auto.
Qed.

(** X9.  The two script flows, along every run: every request sent so
    far is well formed.  ScriptTransformer sends the JSON POST to the
    text endpoint with an [original_script] that is not blank and a
    [genre] that is not empty and has no white space at its ends.
    ScriptWriter sends either the multipart POST to the document
    endpoint with a file and one of the five genres of its select, or
    the JSON POST to the text endpoint with an [original_script] that
    is not blank and one of the five genres. *)
Theorem script_requests_are_well_formed :
  (forall events : list ScriptTransformer.Event,
     Forall ScriptTransformer_request_ok
       (Browser.fetches
          (Browser.trace
             (ScriptTransformer.browser
                (run (controller ScriptTransformerFlow) events))))) /\
  (forall events : list ScriptWriter.Event,
     Forall ScriptWriter_request_ok
       (Browser.fetches
          (Browser.trace
             (ScriptWriter.browser
                (run (controller ScriptWriterFlow) events))))).
Proof.
  split; intros events.
  - apply (run_invariant (controller ScriptTransformerFlow)
             (fun i => Forall ScriptTransformer_request_ok
                         (Browser.fetches
                            (Browser.trace (ScriptTransformer.browser i))))).
    + constructor.
    + intros i e. apply ScriptTransformer_requests_react.
  - apply (run_invariant (controller ScriptWriterFlow)
             (fun i =>
                (exists g, ScriptWriter.genre (ScriptWriter.state i)
                           = ScriptWriter.option_value g) /\
                Forall ScriptWriter_request_ok
                  (Browser.fetches
                     (Browser.trace (ScriptWriter.browser i))))).
    + split; [exists ScriptWriter.Drama; reflexivity|constructor].
    + intros i e. apply ScriptWriter_requests_react.
Qed.


(** ** Files dropped on the detector *)

Lemma drop_instance (i : EmotionDetector.Instance) :
  EmotionDetector_inv i ->
  EmotionDetector.mounted i = true ->
  (forall f rest,
     JS.startsWith (Browser.ftype f) "video/" = true ->
     (Browser.fsize f <= 50 * 1024 * 1024)%Z ->
     let j := EmotionDetector_drop (Some (f :: rest)) i in
     EmotionDetector.file (EmotionDetector.state j) = Some f /\
     EmotionDetector.src (EmotionDetector.state j) <> None /\
     EmotionDetector.error (EmotionDetector.state j) = "" /\
     EmotionDetector.result (EmotionDetector.state j) = JS.VNull) /\
  (forall files,
     files = None \/ files = Some [] ->
     let j := EmotionDetector_drop files i in
     EmotionDetector.file (EmotionDetector.state j) = None /\
     EmotionDetector.src (EmotionDetector.state j) = None /\
     EmotionDetector.registered j = None /\
     EmotionDetector.error (EmotionDetector.state j) = "" /\
     EmotionDetector.result (EmotionDetector.state j) = JS.VNull /\
     Browser.trace (EmotionDetector.browser j)
     = Browser.trace (EmotionDetector.browser i)
       ++ map Browser.RevokeObjectURL
              (to_list (EmotionDetector.registered i))).
Proof.
  destruct i as [[fi sr em r er l] dp rg m [tr nu inf]];
    unfold EmotionDetector_inv, EmotionDetector_drop; cbn.
  intros (_ & H) ->. destruct H as (_ & Hs & -> & Hd). split.
  - intros f rest Ht Hz. cbn. unfold EmotionDetector.onFileSelected.
    unfold exec. cbn. rewrite Ht. cbn.
    assert (Es : (Browser.fsize f >? EmotionDetector.MAX_SIZE)%Z = false)
      by (unfold EmotionDetector.MAX_SIZE; lia).
    rewrite Es. cbn.
    destruct dp as [d|]; cbn.
    + destruct (Browser.fid f =? Browser.fid d)%nat; cbn.
      * repeat split; auto. intros E. apply Hd in E. discriminate.
      * destruct rg; cbn; repeat split; auto; discriminate.
    + destruct rg; cbn; repeat split; auto; discriminate.
  - intros files Hfiles.
    assert (E : FileDrop.onFiles EmotionDetector.onFileSelected files
                = EmotionDetector.onFileSelected None)
      by (destruct Hfiles as [->| ->]; reflexivity).
    rewrite E. clear E Hfiles. unfold exec. cbn.
    destruct dp as [d|]; cbn.
    + destruct rg as [u|]; cbn; [|exfalso; destruct Hd as [_ Hd];
                                   specialize (Hd eq_refl); discriminate].
      repeat split; auto.
    + destruct Hd as [Hd _]. rewrite (Hd eq_refl). cbn.
      rewrite app_nil_r. repeat split; auto.
Qed.

(** X10.  The FileDrop of EmotionDetector, along every run with the
    detector mounted.  Of the files of a drop (or of the file input)
    only the first counts: when it is a video of 50 MiB at most, the
    limit included, it becomes the selection, is previewed, and error
    and result are cleared, whatever the other files are.  A drop
    without a file (an empty list, or no list) clears the selection,
    the preview, the error and the result, and releases the preview
    URL that was held. *)
Theorem drop_on_the_emotion_detector (events : list EmotionDetector.Event) :
  let i := run (controller EmotionDetectorFlow) events in
  EmotionDetector.mounted i = true ->
  (forall f rest,
     JS.startsWith (Browser.ftype f) "video/" = true ->
     (Browser.fsize f <= 50 * 1024 * 1024)%Z ->
     let j := EmotionDetector_drop (Some (f :: rest)) i in
     EmotionDetector.file (EmotionDetector.state j) = Some f /\
     EmotionDetector.src (EmotionDetector.state j) <> None /\
     EmotionDetector.error (EmotionDetector.state j) = "" /\
     EmotionDetector.result (EmotionDetector.state j) = JS.VNull) /\
  (forall files,
     files = None \/ files = Some [] ->
     let j := EmotionDetector_drop files i in
     EmotionDetector.file (EmotionDetector.state j) = None /\
     EmotionDetector.src (EmotionDetector.state j) = None /\
     EmotionDetector.registered j = None /\
     EmotionDetector.error (EmotionDetector.state j) = "" /\
     EmotionDetector.result (EmotionDetector.state j) = JS.VNull /\
     Browser.trace (EmotionDetector.browser j)
     = Browser.trace (EmotionDetector.browser i)
       ++ map Browser.RevokeObjectURL
              (to_list (EmotionDetector.registered i))).
Proof.
  cbv zeta. apply drop_instance.
  apply (reachable EmotionDetectorFlow).
Qed.

Lemma drop_on_the_emotion_detector_witness :
  let i := run (controller EmotionDetectorFlow)
             [EmotionDetector.FileSelected (Some Sample.clip)] in
  let limit := Browser.mkFile 5 "long.mp4" "video/mp4" 52428800 in
  EmotionDetector.mounted i = true /\
  JS.startsWith (Browser.ftype limit) "video/" = true /\
  (Browser.fsize limit <= 50 * 1024 * 1024)%Z /\
  EmotionDetector.file
    (EmotionDetector.state
       (EmotionDetector_drop (Some [limit; Sample.notes]) i))
  = Some limit.
Proof.
  cbv zeta.
  split; [reflexivity|]. split; [reflexivity|]. split; [cbn; lia|].
  apply (proj1 (drop_on_the_emotion_detector
                  [EmotionDetector.FileSelected (Some Sample.clip)]
                  eq_refl)
           (Browser.mkFile 5 "long.mp4" "video/mp4" 52428800)
           [Sample.notes]);
    [reflexivity|cbn; lia].
Defined.


(** ** What is on screen while a request is out *)

(** X11.  Along every run, while a mounted component waits for its
    request, no result is held: the result cell is [null] in all four
    flows, so nothing of an earlier answer is displayed during the
    wait.  In ScriptTransformer, VideoAnalyzer and ScriptWriter the
    error cell is empty as well.  (EmotionDetector can display a
    message of its file gate during the wait.) *)
Theorem no_result_during_the_wait (f : flow)
  (events : list (event (controller f))) :
  let c := controller f in
  let i := run c events in
  is_mounted f i = true ->
  pending c i = true ->
  result_of f i = JS.VNull /\
  (f <> EmotionDetectorFlow -> error_of f i = "").
Proof.
  cbv zeta. intros Hm Hp.
  pose proof (reachable f events) as Hinv.
  destruct f.
  - split; [|intros Hne]; apply waiting_instance; auto; discriminate.
  - split; [|intros Hne]; apply waiting_instance; auto; discriminate.
  - split; [|intros Hne]; apply waiting_instance; auto; discriminate.
  - split; [|intros Hne; contradiction Hne; reflexivity].
    clear Hinv. revert Hm Hp.
    apply (run_invariant (controller EmotionDetectorFlow)
             (fun i => EmotionDetector.mounted i = true ->
                       EmotionDetector.loading (EmotionDetector.state i) = true ->
                       EmotionDetector.result (EmotionDetector.state i)
                       = JS.VNull)).
    + discriminate.
    + intros i e. apply EmotionDetector_waiting_react.
Qed.

Lemma no_result_during_the_wait_witness :
  let c := controller EmotionDetectorFlow in
  let i := run c [EmotionDetector.FileSelected (Some Sample.clip);
                  EmotionDetector.ChangeEmotion "joy";
                  EmotionDetector.ClickAnalyze;
                  EmotionDetector.Settled (Sample.success Sample.verdict);
                  EmotionDetector.ClickAnalyze] in
  is_mounted EmotionDetectorFlow i = true /\
  pending c i = true /\
  result_of EmotionDetectorFlow i = JS.VNull.
Proof.
  cbv zeta.
  split; [reflexivity|]. split; [reflexivity|].
  apply (no_result_during_the_wait EmotionDetectorFlow
           [EmotionDetector.FileSelected (Some Sample.clip);
            EmotionDetector.ChangeEmotion "joy";
            EmotionDetector.ClickAnalyze;
            EmotionDetector.Settled (Sample.success Sample.verdict);
            EmotionDetector.ClickAnalyze]);
    reflexivity.
Defined.

(** ** The preview is that of the selected file *)

Lemma VideoAnalyzer_player_react (i : VideoAnalyzer.Instance)
  (e : VideoAnalyzer.Event) :
  (forall u,
     VideoAnalyzer.preview (VideoAnalyzer.state i) = Some u ->
     exists f,
       VideoAnalyzer.file (VideoAnalyzer.state i) = Some f /\
       In (Browser.CreateObjectURL f u)
          (Browser.trace (VideoAnalyzer.browser i))) ->
  forall u,
    VideoAnalyzer.preview (VideoAnalyzer.state (VideoAnalyzer.react i e))
    = Some u ->
    exists f,
      VideoAnalyzer.file (VideoAnalyzer.state (VideoAnalyzer.react i e))
      = Some f /\
      In (Browser.CreateObjectURL f u)
         (Browser.trace (VideoAnalyzer.browser (VideoAnalyzer.react i e))).
Proof.
  destruct i as [[fi [pv|] l r em er] [c|] [|] [tr nu inf]];
    unfold VideoAnalyzer.react; cbn; intros H;
    destruct e as [sel| |v| |o|]; cbn; try destruct sel;
    unfold VideoAnalyzer.handleAnalyze, VideoAnalyzer.handleAnalyze_settled;
    branches; intros u' Hu'; try discriminate;
    try (destruct (H _ Hu') as (f' & Hf' & Hin); exists f';
         split; [exact Hf'|]; rewrite ?in_app_iff; cbn; tauto);
    try (injection Hu' as <-; eexists; split; [reflexivity|];
         rewrite ?in_app_iff; cbn; tauto).
Qed.

Lemma EmotionDetector_player_react (i : EmotionDetector.Instance)
  (e : EmotionDetector.Event) :
  (forall u,
     EmotionDetector.src (EmotionDetector.state i) = Some u ->
     exists f g,
       EmotionDetector.file (EmotionDetector.state i) = Some f /\
       EmotionDetector.deps i = Some g /\
       Browser.fid g = Browser.fid f /\
       In (Browser.CreateObjectURL g u)
          (Browser.trace (EmotionDetector.browser i))) ->
  forall u,
    EmotionDetector.src (EmotionDetector.state (EmotionDetector.react i e))
    = Some u ->
    exists f g,
      EmotionDetector.file (EmotionDetector.state (EmotionDetector.react i e))
      = Some f /\
      EmotionDetector.deps (EmotionDetector.react i e) = Some g /\
      Browser.fid g = Browser.fid f /\
      In (Browser.CreateObjectURL g u)
         (Browser.trace (EmotionDetector.browser (EmotionDetector.react i e))).
Proof.
  destruct i as [[fi sr em r er l] dp [rg|] [|] [tr nu inf]];
    unfold EmotionDetector.react; cbn; intros H;
    destruct e as [sel|v| | |o|]; cbn; try destruct sel.
  all: unfold EmotionDetector.onFileSelected, EmotionDetector.analyze,
      EmotionDetector.analyze_settled.
  all: try (destruct fi as [fi|]); try (destruct dp as [dp|]); cbn.
  all: repeat (unfold exec, when; cbn;
               match goal with
               | |- context [(?x =? ?x)%nat] => rewrite Nat.eqb_refl
               | |- context [if (?a =? ?b)%nat then _ else _] =>
                   destruct (Nat.eqb_spec a b)
               | |- context [if ?c then _ else _] => destruct c
               | |- context [match ?c with Some _ => _ | None => _ end] =>
                   destruct c
               | |- context [match ?c with inl _ => _ | inr _ => _ end] =>
                   destruct c
               end);
         unfold exec, when; cbn.
  all: intros u' Hu'; try discriminate.
  all: try (injection Hu' as <-; eexists _, _;
            split; [reflexivity|]; split; [reflexivity|];
            split; [reflexivity|]; rewrite ?in_app_iff; cbn; tauto).
  all: destruct (H _ Hu') as (f' & g' & Hf' & Hg' & Hfid & Hin);
    try discriminate.
  all: try (injection Hf' as <-); try (injection Hg' as <-).
  all: try (eexists _, _;
            split; [reflexivity|]; split; [reflexivity|];
            split; [congruence|]; rewrite ?in_app_iff; cbn; tauto).
Qed.

(** X12.  VideoAnalyzer and EmotionDetector, along every run: the URL
    in the [src] of the video element was created by
    [URL.createObjectURL] from the file that is selected now (the same
    [File] object).  A preview is never that of an earlier selection,
    and there is no preview without a selected file. *)
Theorem preview_is_of_the_selected_file (p : preview_flow)
  (events : list (event (owner (preview_owner p)))) (u : Browser.url) :
  shown (preview_owner p) (run (owner (preview_owner p)) events) = Some u ->
  exists f g,
    selected_file p (run (owner (preview_owner p)) events) = Some f /\
    Browser.fid g = Browser.fid f /\
    In (Browser.CreateObjectURL g u)
       (Browser.trace
          (browser (owner (preview_owner p))
                   (run (owner (preview_owner p)) events))).
Proof.
  destruct p; cbn.
  - intros Hu.
    assert (H : exists f,
               VideoAnalyzer.file
                 (VideoAnalyzer.state (run (controller VideoAnalyzerFlow) events))
               = Some f /\
               In (Browser.CreateObjectURL f u)
                  (Browser.trace
                     (VideoAnalyzer.browser
                        (run (controller VideoAnalyzerFlow) events)))).
    { revert u Hu.
      apply (run_invariant (controller VideoAnalyzerFlow)
               (fun i => forall u,
                    VideoAnalyzer.preview (VideoAnalyzer.state i) = Some u ->
                    exists f,
                      VideoAnalyzer.file (VideoAnalyzer.state i) = Some f /\
                      In (Browser.CreateObjectURL f u)
                         (Browser.trace (VideoAnalyzer.browser i)))).
      - discriminate.
      - intros i e. apply VideoAnalyzer_player_react. }
    destruct H as (f & Hf & Hin). exists f, f. auto.
  - intros Hu.
    assert (H : exists f g,
               EmotionDetector.file
                 (EmotionDetector.state
                    (run (controller EmotionDetectorFlow) events)) = Some f /\
               EmotionDetector.deps
                 (run (controller EmotionDetectorFlow) events) = Some g /\
               Browser.fid g = Browser.fid f /\
               In (Browser.CreateObjectURL g u)
                  (Browser.trace
                     (EmotionDetector.browser
                        (run (controller EmotionDetectorFlow) events)))).
    { revert u Hu.
      apply (run_invariant (controller EmotionDetectorFlow)
               (fun i => forall u,
                    EmotionDetector.src (EmotionDetector.state i) = Some u ->
                    exists f g,
                      EmotionDetector.file (EmotionDetector.state i) = Some f /\
                      EmotionDetector.deps i = Some g /\
                      Browser.fid g = Browser.fid f /\
                      In (Browser.CreateObjectURL g u)
                         (Browser.trace (EmotionDetector.browser i)))).
      - discriminate.
      - intros i e. apply EmotionDetector_player_react. }
    destruct H as (f & g & Hf & _ & Hfid & Hin). exists f, g. auto.
Qed.

Lemma preview_is_of_the_selected_file_witness :
  shown (preview_owner EmotionDetectorPreview)
    (run (owner (preview_owner EmotionDetectorPreview))
         [EmotionDetector.FileSelected (Some Sample.clip);
          EmotionDetector.FileSelected (Some Sample.retake)])
  = Some 1 /\
  exists f g,
    selected_file EmotionDetectorPreview
      (run (owner (preview_owner EmotionDetectorPreview))
           [EmotionDetector.FileSelected (Some Sample.clip);
            EmotionDetector.FileSelected (Some Sample.retake)])
    = Some f /\
    Browser.fid g = Browser.fid f /\
    In (Browser.CreateObjectURL g 1)
       (Browser.trace
          (browser (owner (preview_owner EmotionDetectorPreview))
             (run (owner (preview_owner EmotionDetectorPreview))
                  [EmotionDetector.FileSelected (Some Sample.clip);
                   EmotionDetector.FileSelected (Some Sample.retake)]))).
Proof.
  split; [reflexivity|].
  apply (preview_is_of_the_selected_file EmotionDetectorPreview
           [EmotionDetector.FileSelected (Some Sample.clip);
            EmotionDetector.FileSelected (Some Sample.retake)] 1).
  reflexivity.
Defined.


(** ** The theme of the single-file app *)

Section ThemeFacts.
Import CoDirector.

Lemma lower_unit_t (c : ascii) :
  (lower_unit c =? "t")%char = ((c =? "t")%char || (c =? "T")%char).
Proof.
  destruct c as [[|] [|] [|] [|] [|] [|] [|] [|]]; vm_compute; reflexivity.
Qed.

Lemma toLowerCase_empty (s : string) : (toLowerCase s =? "") = (s =? "").
Proof. destruct s; reflexivity. Qed.

Lemma toLowerCase_t (k : string) :
  (toLowerCase k =? "t") = ((k =? "t") || (k =? "T")).
Proof.
  destruct k as [|c r]; [reflexivity|].
  cbn [toLowerCase]. cbn [String.eqb].
  rewrite lower_unit_t.
  destruct (c =? "t")%char, (c =? "T")%char; cbn;
    rewrite ?toLowerCase_empty; destruct (r =? ""); reflexivity.
Qed.

Lemma keydown_shortcut (e : KeyEvent) (a : App) :
  keydown e a = if is_shortcut e then (toggle a, true) else (a, false).
Proof.
  unfold keydown, is_shortcut, toggle.
  destruct (key e) as [k|]; cbn.
  - rewrite toLowerCase_t. reflexivity.
  - rewrite andb_false_r. reflexivity.
Qed.

Lemma theme_toggle (a : App) : theme (toggle a) = other (theme a).
Proof. unfold toggle, setTheme. destruct (theme a); reflexivity. Qed.

End ThemeFacts.

(** X13.  The keyboard handler of the app toggles the theme exactly
    on the shortcut: a [keydown] with Ctrl or Cmd held whose [key] is
    [t] or [T].  On the shortcut the theme becomes the other one and
    [preventDefault] is called; on every other key event (no modifier,
    another key, a longer key name such as [Tab], an event without a
    [key]) the app is left as it is and [preventDefault] is not
    called. *)
Theorem shortcut_toggles_the_theme (e : CoDirector.KeyEvent)
  (a : CoDirector.App) :
  (CoDirector.is_shortcut e = true ->
   CoDirector.theme (fst (CoDirector.keydown e a))
   = CoDirector.other (CoDirector.theme a) /\
   snd (CoDirector.keydown e a) = true) /\
  (CoDirector.is_shortcut e = false ->
   CoDirector.keydown e a = (a, false)).
Proof.
  rewrite keydown_shortcut. split; intros ->; cbn.
  - split; [apply theme_toggle|reflexivity].
  - reflexivity.
Qed.

Lemma shortcut_toggles_the_theme_witness :
  CoDirector.is_shortcut (CoDirector.mkKeyEvent false true (Some "T")) = true /\
  CoDirector.theme
    (fst (CoDirector.keydown (CoDirector.mkKeyEvent false true (Some "T"))
            (CoDirector.mount (CoDirector.Items []) (Some false))))
  = CoDirector.other
      (CoDirector.theme (CoDirector.mount (CoDirector.Items []) (Some false))).
Proof.
  split; [reflexivity|].
  apply (proj1 (shortcut_toggles_the_theme
                  (CoDirector.mkKeyEvent false true (Some "T"))
                  (CoDirector.mount (CoDirector.Items []) (Some false)))).
  reflexivity.
Defined.

Section PersistFacts.
Import CoDirector.

Lemma item_store_same (k v : string) (items : list (string * string)) :
  item k (store k v items) = Some v.
Proof.
  induction items as [|[k' v'] rest IH]; cbn.
  - rewrite String.eqb_refl. reflexivity.
  - destruct (k =? k') eqn:E; cbn.
    + rewrite String.eqb_refl. reflexivity.
    + rewrite E. exact IH.
Qed.

Lemma item_store_other (k k0 v : string) (items : list (string * string)) :
  k0 <> k -> item k0 (store k v items) = item k0 items.
Proof.
  intros Hne. induction items as [|[k' v'] rest IH]; cbn.
  - destruct (k0 =? k) eqn:E; [apply String.eqb_eq in E; contradiction|].
    reflexivity.
  - destruct (k =? k') eqn:E; cbn.
    + apply String.eqb_eq in E. subst k'.
      destruct (k0 =? k) eqn:E0; [apply String.eqb_eq in E0; contradiction|].
      reflexivity.
    + destruct (k0 =? k'); [reflexivity|exact IH].
Qed.

Lemma CoDirector_run_snoc (st : Storage) (mm : option bool) (events : list Event)
  (e : Event) :
  CoDirector.run st mm (events ++ [e])
  = CoDirector.react (CoDirector.run st mm events) e.
Proof. unfold CoDirector.run. rewrite fold_left_app. reflexivity. Qed.

Lemma CoDirector_run_invariant (st : Storage) (mm : option bool) (P : App -> Prop) :
  P (CoDirector.mount st mm) ->
  (forall a e, P a -> P (CoDirector.react a e)) ->
  forall events, P (CoDirector.run st mm events).
Proof.
  intros Hm Hr events. induction events as [|e events IH] using rev_ind.
  - exact Hm.
  - rewrite CoDirector_run_snoc. apply Hr, IH.
Qed.

Lemma persisted_persist (st : Storage) (a : App) :
  match st, storage a with
  | Blocked, Blocked => True
  | Items items0, Items items =>
      forall k, k <> THEME_KEY -> item k items = item k items0
  | _, _ => False
  end ->
  persisted st (persist a).
Proof.
  unfold persisted, persist. cbn.
  destruct st as [|items0], (storage a) as [|items]; cbn; auto.
  intros H. split; [reflexivity|]. split.
  - apply item_store_same.
  - intros k Hk. rewrite item_store_other by exact Hk. apply H, Hk.
Qed.

Lemma persisted_setTheme (st : Storage) (a : App) (t : Theme) :
  persisted st a -> persisted st (setTheme t a).
Proof.
  intros H. unfold setTheme.
  destruct (theme a) eqn:Ea, t; try exact H; apply persisted_persist; cbn;
    destruct H as (_ & H); destruct st, (storage a); tauto.
Qed.

Lemma persisted_react (st : Storage) (a : App) (e : Event) :
  persisted st a -> persisted st (CoDirector.react a e).
Proof.
  intros H. destruct e as [|k|t|ev|ev|]; cbn.
  - apply persisted_setTheme, H.
  - rewrite keydown_shortcut. destruct (is_shortcut k); cbn; [|exact H].
    apply persisted_setTheme, H.
  - unfold setTab. destruct (same_tab t (tab a)); exact H.
  - destruct (child a); exact H.
  - destruct (child a), ev; exact H.
  - exact H.
Qed.

Lemma persisted_run (st : Storage) (mm : option bool) (events : list Event) :
  persisted st (CoDirector.run st mm events).
Proof.
  apply CoDirector_run_invariant.
  - unfold CoDirector.mount. apply persisted_persist. cbn.
    destruct st; auto.
  - intros a e. apply persisted_react.
Qed.

End PersistFacts.

(** X14.  The theme of the app is persisted, along every run from any
    storage and any system preference.  The attribute [data-ai-theme]
    of the document element is the current theme.  When localStorage
    is usable, its theme item is the current theme, so the initializer
    of a reload yields the current theme whatever the system
    preference is then, and no other item of the storage was
    changed.  When every access to localStorage throws, the app runs
    all the same and a reload starts dark. *)
Theorem theme_survives_a_reload (st : CoDirector.Storage)
  (matchMedia later : option bool) (events : list CoDirector.Event) :
  let a := CoDirector.run st matchMedia events in
  CoDirector.data_ai_theme a
  = Some (CoDirector.theme_value (CoDirector.theme a)) /\
  (st <> CoDirector.Blocked ->
   CoDirector.initial_theme (CoDirector.storage a) later = CoDirector.theme a /\
   forall k, k <> CoDirector.THEME_KEY ->
             CoDirector.getItem k (CoDirector.storage a)
             = CoDirector.getItem k st) /\
  (st = CoDirector.Blocked ->
   CoDirector.storage a = CoDirector.Blocked /\
   CoDirector.initial_theme (CoDirector.storage a) later = CoDirector.dark).
Proof.
  cbv zeta. destruct (persisted_run st matchMedia events) as (Ha & Hs).
  split; [exact Ha|]. split.
  - intros Hne.
    destruct st as [|items0]; [contradiction Hne; reflexivity|].
    destruct (CoDirector.storage (CoDirector.run (CoDirector.Items items0)
                                    matchMedia events)) as [|items];
      [contradiction|].
    destruct Hs as (Ht & Hk). split.
    + unfold CoDirector.initial_theme. cbn. rewrite Ht.
      destruct (CoDirector.theme _); reflexivity.
    + intros k Hne'. cbn. rewrite (Hk k Hne'). reflexivity.
  - intros ->.
    destruct (CoDirector.storage (CoDirector.run CoDirector.Blocked
                                    matchMedia events));
      [|contradiction].
    split; reflexivity.
Qed.

Lemma theme_survives_a_reload_witness :
  CoDirector.Items [("lang", "en")] <> CoDirector.Blocked /\
  CoDirector.initial_theme
    (CoDirector.storage
       (CoDirector.run (CoDirector.Items [("lang", "en")]) (Some true)
          [CoDirector.ClickTheme]))
    (Some true)
  = CoDirector.theme
      (CoDirector.run (CoDirector.Items [("lang", "en")]) (Some true)
         [CoDirector.ClickTheme]).
Proof.
  split; [discriminate|].
  apply (proj1 (proj2 (theme_survives_a_reload
                         (CoDirector.Items [("lang", "en")]) (Some true)
                         (Some true) [CoDirector.ClickTheme]))).
  discriminate.
Defined.

Section ParityFacts.
Import CoDirector.

Lemma theme_setTheme (a : App) (t : Theme) : theme (setTheme t a) = t.
Proof. unfold setTheme. destruct (theme a) eqn:E, t; cbn; auto. Qed.

Lemma theme_react (a : App) (e : Event) :
  theme (CoDirector.react a e)
  = if flips e then other (theme a) else theme a.
Proof.
  destruct e as [|k|t|ev|ev|]; cbn.
  - apply theme_setTheme.
  - rewrite keydown_shortcut. destruct (is_shortcut k); cbn; [|reflexivity].
    apply theme_setTheme.
  - unfold setTab. destruct (same_tab t (tab a)); reflexivity.
  - destruct (child a); reflexivity.
  - destruct (child a), ev; reflexivity.
  - reflexivity.
Qed.

End ParityFacts.

(** X15.  The theme after a run is the initial one when the run holds
    an even number of toggles (clicks on the theme button and
    shortcuts), the other one when the number is odd.  Nothing else
    changes the theme: not a tab switch, not an event of a flow, not an
    other key, not a storage that throws. *)
Theorem theme_follows_the_toggles (st : CoDirector.Storage)
  (matchMedia : option bool) (events : list CoDirector.Event) :
  CoDirector.theme (CoDirector.run st matchMedia events)
  = if Nat.even (length (filter CoDirector.flips events))
    then CoDirector.initial_theme st matchMedia
    else CoDirector.other (CoDirector.initial_theme st matchMedia).
Proof.
  induction events as [|e events IH] using rev_ind.
  - reflexivity.
  - rewrite CoDirector_run_snoc, theme_react, IH, filter_app, length_app. cbn.
    destruct (CoDirector.flips e); cbn [length].
    + rewrite Nat.add_1_r, Nat.even_succ, <- Nat.negb_even.
      destruct (Nat.even _), (CoDirector.initial_theme st matchMedia);
        reflexivity.
    + rewrite Nat.add_0_r. reflexivity.
Qed.


(** ** Tabs: the flow shown and its preview URL *)

Section TabFacts.
Import Browser CoDirector.

Lemma urls_inv_carry (h : option url) (w : World) :
  urls_inv h w -> urls_inv h (carry w).
Proof. intros (dead & Hr & Hb). exists dead. auto. Qed.

Lemma ScriptWriter_urls (i : ScriptWriter.Instance) (e : ScriptWriter.Event) :
  urls_inv None (ScriptWriter.browser i) ->
  urls_inv None (ScriptWriter.browser (ScriptWriter.react i e)).
Proof.
  destruct i as [[g t p l o er] [tr nu inf]]. cbn. intros H.
  destruct e as [g'|v|f| | |o']; cbn; auto.
  - unfold ScriptWriter.generate_disabled, ScriptWriter.submit. cbn.
    destruct l; cbn; [exact H|].
    destruct (ScriptWriter.no_input _); cbn; [exact H|].
    apply urls_inv_fetch with (k := inf), H.
  - destruct inf as [|inf]; cbn; [exact H|].
    unfold ScriptWriter.submit_settled.
    destruct (ScriptWriter.submit_try o'); cbn;
      destruct H as (dead & Hr & Hb); exists dead; auto.
Qed.

Lemma CoDirector_inv_mount (st : Storage) (mm : option bool) :
  inv (CoDirector.mount st mm).
Proof.
  unfold inv. cbn. split; [reflexivity|]. split.
  - apply ScriptWriter_inv_mount.
  - exists []. cbn. split; [reflexivity|tauto].
Qed.

Lemma CoDirector_inv_theme (a : App) (t : Theme) : inv a -> inv (setTheme t a).
Proof. unfold setTheme. destruct (theme a), t; auto. Qed.

Lemma EmotionDetector_stays_mounted (i : EmotionDetector.Instance)
  (e : EmotionDetector.Event) :
  EmotionDetector.mounted i = true ->
  e <> EmotionDetector.Unmount ->
  EmotionDetector.mounted (EmotionDetector.react i e) = true.
Proof.
  destruct i as [[fi sr em r er l] dp [u|] m [tr nu inf]];
    unfold EmotionDetector.react; cbn; intros -> Hne;
    destruct e as [sel|v| | |o|]; try (contradiction Hne; reflexivity);
    cbn; try destruct sel;
    unfold EmotionDetector.onFileSelected, EmotionDetector.analyze,
      EmotionDetector.analyze_settled;
    branches; reflexivity.
Qed.

Lemma CoDirector_inv_react (a : App) (e : Event) : inv a -> inv (CoDirector.react a e).
Proof.
  intros H. destruct e as [|k|t|ev|ev|]; cbn.
  - apply CoDirector_inv_theme, H.
  - rewrite keydown_shortcut. destruct (is_shortcut k); cbn; [|exact H].
    apply CoDirector_inv_theme, H.
  - unfold setTab. destruct (same_tab t (tab a)) eqn:Et; [exact H|].
    unfold inv in *. destruct (child a) as [i|i]; cbn.
    + destruct H as (Htab & _ & Hu). rewrite Htab in Et.
      destruct t; [discriminate|]. cbn.
      split; [reflexivity|]. split; [|reflexivity].
      split; [apply urls_inv_carry, Hu|]. cbn.
      split; [reflexivity|]. split; [reflexivity|]. split; [reflexivity|].
      tauto.
    + destruct H as (Htab & Hi & Hm). rewrite Htab in Et.
      destruct t; [|discriminate]. cbn.
      pose proof (EmotionDetector_inv_react i EmotionDetector.Unmount Hi)
        as Hj.
      assert (Hmj : EmotionDetector.mounted
                      (EmotionDetector.react i EmotionDetector.Unmount)
                    = false).
      { unfold EmotionDetector.react. rewrite Hm.
        destruct i as [s dp [u|] m w]; reflexivity. }
      destruct Hj as (Hu & Hj). rewrite Hmj in Hj. destruct Hj as (_ & Hr).
      rewrite Hr in Hu.
      split; [reflexivity|]. split.
      * split; [|exists ScriptWriter.Drama; reflexivity].
        repeat split; cbn; auto; discriminate.
      * apply urls_inv_carry, Hu.
  - destruct a as [th tb [i|i] orp sto attr]; unfold inv in *; cbn in *;
      [|exact H].
    destruct H as (Htab & Hi & Hu).
    split; [exact Htab|]. split.
    + apply ScriptWriter_inv_react, Hi.
    + apply ScriptWriter_urls, Hu.
  - destruct a as [th tb [i|i] orp sto attr]; unfold inv in *; cbn in *.
    + destruct ev; exact H.
    + destruct H as (Htab & Hi & Hm).
      destruct ev; cbn; (split; [exact Htab|]);
        try (split; [exact Hi|exact Hm]);
        (split; [apply EmotionDetector_inv_react, Hi|
                 apply EmotionDetector_stays_mounted;
                 [exact Hm|discriminate]]).
  - exact H.
Qed.

Lemma CoDirector_inv_run (st : Storage) (mm : option bool) (events : list Event) :
  inv (CoDirector.run st mm events).
Proof.
  apply CoDirector_run_invariant; [apply CoDirector_inv_mount|apply CoDirector_inv_react].
Qed.

End TabFacts.

(** X16.  The single-file app, along every run of its events (theme
    toggles, key events, tab switches, the events of the flow shown):
    the object URLs of the page are created and revoked in pairs across
    tab switches.  The only URL alive is the preview the detector
    holds; at most one request of the flow shown is out; while the
    script tab is shown no URL is alive and every URL ever created has
    been revoked exactly once; and a switch from the detector to the
    script tab, with the preview [A] held, revokes [A] and does nothing
    else to the page. *)
Theorem app_urls_are_paired (st : CoDirector.Storage)
  (matchMedia : option bool) (events : list CoDirector.Event) :
  let a := CoDirector.run st matchMedia events in
  let t := Browser.trace (CoDirector.page a) in
  (exists dead,
     Browser.replay t [] [] = Some (to_list (CoDirector.held_url a), dead)) /\
  Browser.in_flight (CoDirector.page a) <= 1 /\
  (CoDirector.tab a = CoDirector.script ->
   CoDirector.held_url a = None /\
   NoDup (Browser.created t) /\
   Permutation (Browser.created t) (Browser.revoked t)) /\
  (forall A,
     CoDirector.held_url a = Some A ->
     CoDirector.tab a = CoDirector.emotion /\
     Browser.trace
       (CoDirector.page
          (CoDirector.react a (CoDirector.ClickTab CoDirector.script)))
     = t ++ [Browser.RevokeObjectURL A]).
Proof.
  cbv zeta. pose proof (CoDirector_inv_run st matchMedia events) as H.
  set (a := CoDirector.run st matchMedia events) in *. clearbody a.
  destruct a as [th tb [i|i] orp sto attr];
    unfold CoDirector.inv, CoDirector.page, CoDirector.held_url in *;
    cbn in *.
  - destruct H as (-> & Hi & (dead & Hr & Hb)).
    split; [exists dead; exact Hr|]. split.
    + apply (in_flight_bound ScriptWriterFlow i Hi).
    + split; [|discriminate].
      intros _. split; [reflexivity|]. apply replay_balanced in Hr. exact Hr.
  - destruct H as (-> & Hi & Hm).
    pose proof Hi as ((dead & Hr & Hb) & _).
    split; [exists dead; exact Hr|]. split.
    + apply (in_flight_bound EmotionDetectorFlow i Hi).
    + split; [discriminate|].
      intros A HA. split; [reflexivity|].
      unfold CoDirector.setTab. cbn.
      apply EmotionDetector_unmount; assumption.
Qed.

Lemma app_urls_are_paired_witness :
  CoDirector.held_url
    (CoDirector.run (CoDirector.Items []) None
       [CoDirector.ClickTab CoDirector.emotion;
        CoDirector.InDetector
          (EmotionDetector.FileSelected (Some Sample.clip))])
  = Some 0 /\
  Browser.trace
    (CoDirector.page
       (CoDirector.react
          (CoDirector.run (CoDirector.Items []) None
             [CoDirector.ClickTab CoDirector.emotion;
              CoDirector.InDetector
                (EmotionDetector.FileSelected (Some Sample.clip))])
          (CoDirector.ClickTab CoDirector.script)))
  = Browser.trace
      (CoDirector.page
         (CoDirector.run (CoDirector.Items []) None
            [CoDirector.ClickTab CoDirector.emotion;
             CoDirector.InDetector
               (EmotionDetector.FileSelected (Some Sample.clip))]))
    ++ [Browser.RevokeObjectURL 0].
Proof.
  split; [vm_compute; reflexivity|].
  apply (proj2 (proj2 (proj2
           (app_urls_are_paired (CoDirector.Items []) None
              [CoDirector.ClickTab CoDirector.emotion;
               CoDirector.InDetector
                 (EmotionDetector.FileSelected (Some Sample.clip))]))) 0).
  vm_compute; reflexivity.
Defined.


(** ** The style of the theme transition *)

Section StyleFacts.
Import ThemeTransition.

Lemma getElementById_styles (d : Document) :
  getElementById STYLE_ID d = None <-> styles d = 0.
Proof.
  unfold getElementById, styles.
  destruct (filter _ (elements d)); cbn; split; auto; discriminate.
Qed.

Lemma styles_inject (d : Document) :
  styles d <= 1 -> styles (fst (inject d)) = 1.
Proof.
  unfold inject. intros Hle.
  destruct (getElementById STYLE_ID d) eqn:E; cbn.
  - destruct (styles d) as [|[|k]] eqn:Es; [|reflexivity|lia].
    apply getElementById_styles in Es. congruence.
  - apply getElementById_styles in E.
    unfold styles in *. cbn. rewrite filter_app, length_app, E. reflexivity.
Qed.

Lemma styles_remove (node : nat) (d : Document) :
  styles (remove node d) <= styles d.
Proof.
  unfold styles, remove. cbn [elements]. generalize STYLE_ID as id. intros id.
  induction (elements d) as [|e l IH]; cbn; [lia|].
  destruct (fst e =? node)%nat; cbn; destruct (snd e =? id); cbn; lia.
Qed.

Lemma styles_react (p : Page) (e : Event) :
  styles (document p) <= 1 -> styles (document (react p e)) <= 1.
Proof.
  intros Hle. destruct e as [|k]; unfold react.
  - pose proof (styles_inject (document p) Hle) as H.
    destruct (inject (document p)) as [d c].
    cbn [fst] in H. cbn [document]. rewrite H. lia.
  - destruct (nth_error (users p) k) as [[[node|]|]|]; cbn [document]; auto.
    pose proof (styles_remove node (document p)). lia.
Qed.

Lemma styles_run (d : Document) (events : list Event) :
  styles d <= 1 -> styles (document (run d events)) <= 1.
Proof.
  intros Hle. unfold run.
  induction events as [|e events IH] using rev_ind; [exact Hle|].
  rewrite fold_left_app. cbn. apply styles_react, IH.
Qed.

Lemma remove_fresh (d : Document) (id : string) :
  fresh d ->
  elements (remove (next_node d)
              (mkDocument (elements d ++ [(next_node d, id)])
                          (S (next_node d))))
  = elements d.
Proof.
  unfold fresh, remove. cbn. intros Hf.
  rewrite filter_app. cbn. rewrite Nat.eqb_refl. cbn. rewrite app_nil_r.
  apply forallb_filter_id, forallb_forall. intros e He.
  apply Hf in He. destruct (Nat.eqb_spec (fst e) (next_node d)); [lia|].
  reflexivity.
Qed.

End StyleFacts.

(** X17.  The hook that injects the style of the theme transition,
    for any number of components that use it, mounted and unmounted in
    any order, on a document that holds the style element at most
    once: the document never holds the element twice, and right after
    a component is mounted it holds it exactly once.  On a document
    without the element, mounting a component and unmounting it again
    leaves the elements of the document as they were. *)
Theorem style_is_injected_once (d : ThemeTransition.Document)
  (events : list ThemeTransition.Event) :
  ThemeTransition.styles d <= 1 ->
  ThemeTransition.styles
    (ThemeTransition.document (ThemeTransition.run d events)) <= 1 /\
  ThemeTransition.styles
    (ThemeTransition.document
       (ThemeTransition.react (ThemeTransition.run d events)
                              ThemeTransition.Mount)) = 1 /\
  (ThemeTransition.styles d = 0 ->
   ThemeTransition.fresh d ->
   ThemeTransition.elements
     (ThemeTransition.document
        (ThemeTransition.run d [ThemeTransition.Mount;
                                ThemeTransition.Unmount 0]))
   = ThemeTransition.elements d).
Proof.
  intros Hle. split; [apply styles_run, Hle|]. split.
  - pose proof (styles_inject _ (styles_run d events Hle)) as H.
    unfold ThemeTransition.react.
    destruct (ThemeTransition.inject _). exact H.
  - intros H0 Hf. apply getElementById_styles in H0.
    unfold ThemeTransition.run. cbn.
    unfold ThemeTransition.inject. rewrite H0. cbn.
    apply remove_fresh, Hf.
Qed.

Lemma style_is_injected_once_witness :
  ThemeTransition.styles (ThemeTransition.mkDocument [(0, "root")] 1) <= 1 /\
  ThemeTransition.styles
    (ThemeTransition.document
       (ThemeTransition.run (ThemeTransition.mkDocument [(0, "root")] 1)
          [ThemeTransition.Mount; ThemeTransition.Mount;
           ThemeTransition.Unmount 1])) <= 1.
Proof.
  split; [cbn; lia|].
  apply (style_is_injected_once
           (ThemeTransition.mkDocument [(0, "root")] 1)
           [ThemeTransition.Mount; ThemeTransition.Mount;
            ThemeTransition.Unmount 1]).
  cbn; lia.
Defined.


(** ** Files dropped on the script writer *)

(** X18.  The FileDrop of ScriptWriter has no gate: the first file of
    a drop, whatever its type and size, becomes the selected document,
    and a click on Generate with no request pending then sends that
    file with the genre to the document endpoint, whatever the pasted
    text is.  A drop without a file unselects the document. *)
Theorem dropped_file_is_sent_as_the_document (i : ScriptWriter.Instance)
  (f : Browser.File) (rest : list Browser.File) :
  ScriptWriter.loading (ScriptWriter.state i) = false ->
  Browser.trace
    (ScriptWriter.browser
       (ScriptWriter.react (ScriptWriter_drop (Some (f :: rest)) i)
                           ScriptWriter.ClickGenerate))
  = Browser.trace (ScriptWriter.browser i)
    ++ [Browser.Fetch
          (Browser.mkRequest
             "https://Arjun9036-script-writer-api.hf.space/generate-script-from-pdf/"
             "POST" []
             (Browser.FormBody
                [("file", Browser.PartFile f);
                 ("genre",
                  Browser.PartText (ScriptWriter.genre (ScriptWriter.state i)))]))]
  /\
  ScriptWriter.pdf (ScriptWriter.state (ScriptWriter_drop (Some []) i)) = None /\
  ScriptWriter.pdf (ScriptWriter.state (ScriptWriter_drop None i)) = None.
Proof.
  destruct i as [[g t p l o er] [tr nu inf]]. cbn. intros ->.
  repeat split.
Qed.

Lemma dropped_file_is_sent_as_the_document_witness :
  ScriptWriter.loading (ScriptWriter.state ScriptWriter.mount) = false /\
  Browser.trace
    (ScriptWriter.browser
       (ScriptWriter.react
          (ScriptWriter_drop (Some [Sample.clip; Sample.notes])
                             ScriptWriter.mount)
          ScriptWriter.ClickGenerate))
  = Browser.trace (ScriptWriter.browser ScriptWriter.mount)
    ++ [Browser.Fetch
          (Browser.mkRequest
             "https://Arjun9036-script-writer-api.hf.space/generate-script-from-pdf/"
             "POST" []
             (Browser.FormBody
                [("file", Browser.PartFile Sample.clip);
                 ("genre",
                  Browser.PartText
                    (ScriptWriter.genre
                       (ScriptWriter.state ScriptWriter.mount)))]))].
Proof.
  split; [reflexivity|].
  apply (dropped_file_is_sent_as_the_document ScriptWriter.mount
           Sample.clip [Sample.notes]).
  reflexivity.
Defined.

(** ** What starts and what ends a wait *)

Lemma wait_kept (f : flow) (i : instance (controller f))
  (e : event (controller f)) :
  e <> submit_click (controller f) ->
  (forall o, e <> settled f o) ->
  pending (controller f) (react (controller f) i e)
  = pending (controller f) i /\
  Browser.in_flight (browser (controller f) (react (controller f) i e))
  = Browser.in_flight (browser (controller f) i).
Proof.
  destruct f; cbn in *.
  - destruct i as [[l r g t er] [tr nu inf]], e as [v|v| |o|]; intros Hne Hs;
      try (exfalso; apply Hne; reflexivity);
      try (exfalso; apply (Hs o); reflexivity); cbn;
      unfold ScriptTransformer.download_button,
        ScriptTransformer.handleDownload;
      branches; auto.
  - destruct i as [[fi [pv|] l r em er] [c|] m [tr nu inf]], e as [sel| |v| |o|];
      intros Hne Hs; try (exfalso; apply Hne; reflexivity);
      try (exfalso; apply (Hs o); reflexivity);
      unfold VideoAnalyzer.react; cbn; try destruct sel;
      branches; auto.
  - destruct i as [[g t p l o er] [tr nu inf]], e as [g'|v|f| | |o'];
      intros Hne Hs; try (exfalso; apply Hne; reflexivity);
      try (exfalso; apply (Hs o'); reflexivity); cbn; auto.
  - destruct i as [[fi sr em r er l] dp [u|] m [tr nu inf]],
      e as [sel|v| | |o|];
      intros Hne Hs; try (exfalso; apply Hne; reflexivity);
      try (exfalso; apply (Hs o); reflexivity);
      unfold EmotionDetector.react; cbn; try destruct sel;
      unfold EmotionDetector.onFileSelected;
      branches; auto.
Qed.

(** X19.  In all four flows and from any state, only a click on the
    submit button and the settling of a request change [loading] and
    the number of requests that are out.  Typing, selecting or dropping
    a file, Reset, Clear, the removal of the file and the unmounting
    leave both as they are: none of them cancels a pending request or
    ends the wait. *)
Theorem only_submit_and_settle_change_the_wait (f : flow)
  (i : instance (controller f)) (e : event (controller f)) :
  e <> submit_click (controller f) ->
  (forall o, e <> settled f o) ->
  pending (controller f) (react (controller f) i e)
  = pending (controller f) i /\
  Browser.in_flight (browser (controller f) (react (controller f) i e))
  = Browser.in_flight (browser (controller f) i).
Proof.
  apply wait_kept.
Qed.

Lemma only_submit_and_settle_change_the_wait_witness :
  EmotionDetector.ClickClear <> submit_click (controller EmotionDetectorFlow) /\
  (forall o, EmotionDetector.ClickClear <> settled EmotionDetectorFlow o) /\
  pending (controller EmotionDetectorFlow)
    (react (controller EmotionDetectorFlow)
       (run (controller EmotionDetectorFlow)
            [EmotionDetector.FileSelected (Some Sample.clip);
             EmotionDetector.ChangeEmotion "joy";
             EmotionDetector.ClickAnalyze])
       EmotionDetector.ClickClear)
  = pending (controller EmotionDetectorFlow)
      (run (controller EmotionDetectorFlow)
           [EmotionDetector.FileSelected (Some Sample.clip);
            EmotionDetector.ChangeEmotion "joy";
            EmotionDetector.ClickAnalyze]).
Proof.
  split; [discriminate|]. split; [discriminate|].
  apply (only_submit_and_settle_change_the_wait EmotionDetectorFlow
           (run (controller EmotionDetectorFlow)
                [EmotionDetector.FileSelected (Some Sample.clip);
                 EmotionDetector.ChangeEmotion "joy";
                 EmotionDetector.ClickAnalyze])
           EmotionDetector.ClickClear); discriminate.
Defined.

(** ** A file chosen while a preview is held *)

Lemma replacement_instance (i : VideoAnalyzer.Instance) (f : Browser.File)
  (A : Browser.url) :
  VideoAnalyzer_inv i ->
  VideoAnalyzer.mounted i = true ->
  VideoAnalyzer.captured i = Some A ->
  VideoAnalyzer_inv
    (exec (VideoAnalyzer.handleFileChange (Some f) ;;
           VideoAnalyzer.useEffect_preview) i) /\
  VideoAnalyzer.file
    (VideoAnalyzer.state
       (exec (VideoAnalyzer.handleFileChange (Some f) ;;
              VideoAnalyzer.useEffect_preview) i)) = Some f /\
  VideoAnalyzer.preview
    (VideoAnalyzer.state
       (exec (VideoAnalyzer.handleFileChange (Some f) ;;
              VideoAnalyzer.useEffect_preview) i))
  = Some (Browser.next_url (VideoAnalyzer.browser i)) /\
  Browser.trace
    (VideoAnalyzer.browser
       (exec (VideoAnalyzer.handleFileChange (Some f) ;;
              VideoAnalyzer.useEffect_preview) i))
  = Browser.trace (VideoAnalyzer.browser i)
    ++ [Browser.CreateObjectURL f (Browser.next_url (VideoAnalyzer.browser i));
        Browser.RevokeObjectURL A].
Proof.
  destruct i as [[fi pv l r em er] cap m [tr nu inf]].
  unfold VideoAnalyzer_inv. cbn.
  intros ((dead & Hr & Hb) & H) -> ->.
  destruct H as ((Hn & Hl & _) & _ & _). cbn in *.
  assert (Hlt : A < nu) by (apply Hb; left; reflexivity).
  unfold exec. cbn.
  destruct (Nat.eqb_spec nu A) as [E|E]; [lia|]. cbn.
  rewrite <- app_assoc. cbn.
  split; [|auto]. split.
  - exists (A :: dead). cbn. rewrite replay_app, Hr. cbn.
    destruct (Nat.eqb_spec nu A) as [E'|_]; [lia|]. cbn.
    rewrite existsb_eqb_fresh
      by (intros x Hx; apply Hb; right; exact Hx).
    destruct (Nat.eqb_spec A nu) as [E'|_]; [lia|]. cbn.
    rewrite Nat.eqb_refl. cbn.
    destruct (Nat.eqb_spec A nu) as [E'|_]; [lia|]. cbn.
    split; [reflexivity|].
    intros u [<-|[<-|Hu]]; [lia|lia|].
    assert (u < nu) by (apply Hb; right; exact Hu). lia.
  - repeat split; auto; discriminate.
Qed.

(** X20.  VideoAnalyzer, along every run with the component mounted
    and a preview [A] held: were [handleFileChange] to run with a file
    (the page hides its file input while a preview is held, so this
    takes a second input or a programmatic event), the new file becomes
    the selection with a preview of its own, the URL of the new file is
    created in the handler and [A] is revoked by the cleanup of the
    effect right after, and the instance keeps the invariant of the
    reachable instances: the URLs stay paired and the only one alive
    is the new preview. *)
Theorem chosen_file_replaces_the_preview
  (events : list VideoAnalyzer.Event) (f : Browser.File) (A : Browser.url) :
  let i := run (controller VideoAnalyzerFlow) events in
  let j := exec (VideoAnalyzer.handleFileChange (Some f) ;;
                 VideoAnalyzer.useEffect_preview) i in
  VideoAnalyzer.mounted i = true ->
  VideoAnalyzer.captured i = Some A ->
  VideoAnalyzer_inv j /\
  VideoAnalyzer.file (VideoAnalyzer.state j) = Some f /\
  VideoAnalyzer.preview (VideoAnalyzer.state j)
  = Some (Browser.next_url (VideoAnalyzer.browser i)) /\
  Browser.trace (VideoAnalyzer.browser j)
  = Browser.trace (VideoAnalyzer.browser i)
    ++ [Browser.CreateObjectURL f (Browser.next_url (VideoAnalyzer.browser i));
        Browser.RevokeObjectURL A].
Proof.
  cbv zeta. apply replacement_instance.
  apply (reachable VideoAnalyzerFlow).
Qed.

Lemma chosen_file_replaces_the_preview_witness :
  let i := run (controller VideoAnalyzerFlow)
             [VideoAnalyzer.ChooseFile (Some Sample.clip)] in
  let j := exec (VideoAnalyzer.handleFileChange (Some Sample.retake) ;;
                 VideoAnalyzer.useEffect_preview) i in
  VideoAnalyzer.mounted i = true /\
  VideoAnalyzer.captured i = Some 0 /\
  VideoAnalyzer.file (VideoAnalyzer.state j) = Some Sample.retake.
Proof.
  cbv zeta.
  split; [reflexivity|]. split; [reflexivity|].
  apply (chosen_file_replaces_the_preview
           [VideoAnalyzer.ChooseFile (Some Sample.clip)] Sample.retake 0);
    reflexivity.
Defined.


(** ** The router app: the page shown and its preview URL *)

Section RouteFacts.
Import Browser StoryFlow.

Lemma ScriptTransformer_urls (i : ScriptTransformer.Instance)
  (e : ScriptTransformer.Event) :
  urls_inv None (ScriptTransformer.browser i) ->
  urls_inv None (ScriptTransformer.browser (ScriptTransformer.react i e)).
Proof.
  destruct i as [[l r g t er] [tr nu inf]]. cbn. intros H.
  destruct e as [v|v| |o|]; cbn; auto.
  - unfold ScriptTransformer.generate_disabled,
      ScriptTransformer.handleGenerate. cbn.
    destruct (l || (t =? "")); cbn; [exact H|].
    destruct (JS.trim t =? ""); cbn; [exact H|].
    apply urls_inv_fetch with (k := inf), H.
  - destruct inf as [|inf]; cbn; [exact H|].
    unfold ScriptTransformer.handleGenerate_settled.
    destruct (ScriptTransformer.generate_try o); cbn;
      destruct H as (dead & Hr & Hb); exists dead; auto.
  - unfold ScriptTransformer.download_button,
      ScriptTransformer.handleDownload.
    branches; try exact H.
    destruct H as (dead & Hr & Hb). exists dead. cbn in *.
    rewrite replay_app, Hr. cbn. split; [reflexivity|].
    intros u Hu. apply Hb in Hu. lia.
Qed.

Lemma VideoAnalyzer_stays_mounted (i : VideoAnalyzer.Instance)
  (e : VideoAnalyzer.Event) :
  VideoAnalyzer.mounted i = true ->
  e <> VideoAnalyzer.Unmount ->
  VideoAnalyzer.mounted (VideoAnalyzer.react i e) = true.
Proof.
  destruct i as [[fi [pv|] l r em er] [c|] m [tr nu inf]];
    unfold VideoAnalyzer.react; cbn; intros -> Hne;
    destruct e as [sel| |v| |o|]; try (contradiction Hne; reflexivity);
    cbn; try destruct sel;
    unfold VideoAnalyzer.handleAnalyze, VideoAnalyzer.handleAnalyze_settled;
    branches; reflexivity.
Qed.

Lemma StoryFlow_inv_navigate (r : Route) (a : App) :
  inv a -> inv (navigate r a).
Proof.
  intros H. unfold navigate.
  destruct (same_route r (route (view a))) eqn:Er; [exact H|].
  assert (Hw : urls_inv None (leave (view a))).
  { unfold inv in H. destruct (view a) as [w|i|i]; cbn.
    - apply H.
    - apply H.
    - destruct H as (Hi & Hm).
      pose proof (VideoAnalyzer_inv_react i VideoAnalyzer.Unmount Hi) as Hj.
      assert (Hmj : VideoAnalyzer.mounted
                      (VideoAnalyzer.react i VideoAnalyzer.Unmount) = false).
      { unfold VideoAnalyzer.react. rewrite Hm.
        destruct i as [s [u|] m w]; reflexivity. }
      destruct Hj as (Hu & Hj). rewrite Hmj in Hj. destruct Hj as (_ & Hr).
      rewrite Hr in Hu. exact Hu. }
  unfold inv. destruct r; cbn.
  - split; [apply urls_inv_carry, Hw|reflexivity].
  - split; [|apply urls_inv_carry, Hw].
    repeat split; cbn; auto; discriminate.
  - split; [|reflexivity]. split; [apply urls_inv_carry, Hw|].
    cbn. repeat split; auto; discriminate.
Qed.

Lemma StoryFlow_inv_react (a : App) (e : Event) :
  inv a -> inv (StoryFlow.react a e).
Proof.
  intros H. destruct e as [| | |r|ev|ev|]; cbn.
  - destruct (view a) eqn:Ev; try exact H; apply StoryFlow_inv_navigate, H.
  - destruct (view a) eqn:Ev; try exact H; apply StoryFlow_inv_navigate, H.
  - destruct (view a) eqn:Ev; try exact H; apply StoryFlow_inv_navigate, H.
  - apply StoryFlow_inv_navigate, H.
  - destruct a as [[w|i|i] orp]; unfold inv in *; cbn in *; try exact H.
    destruct H as (Hi & Hu). split.
    + apply ScriptTransformer_inv_react, Hi.
    + apply ScriptTransformer_urls, Hu.
  - destruct a as [[w|i|i] orp]; unfold inv in *; cbn in *;
      try (destruct ev; exact H).
    destruct H as (Hi & Hm).
    destruct ev; cbn; try (split; [exact Hi|exact Hm]);
      (split; [apply VideoAnalyzer_inv_react, Hi|
               apply VideoAnalyzer_stays_mounted; [exact Hm|discriminate]]).
  - exact H.
Qed.

Lemma StoryFlow_inv_run (events : list Event) : inv (StoryFlow.run events).
Proof.
  unfold StoryFlow.run.
  induction events as [|e events IH] using rev_ind.
  - cbn. split; [|reflexivity]. exists []. cbn. split; [reflexivity|tauto].
  - rewrite fold_left_app. cbn. apply StoryFlow_inv_react, IH.
Qed.

Lemma StoryFlow_page_urls (a : App) :
  inv a -> urls_inv (held_url a) (page a).
Proof.
  unfold inv, held_url, page. destruct (view a) as [w|i|i].
  - tauto.
  - tauto.
  - intros (H & _). apply H.
Qed.

Lemma created_bound (h : option url) (w : World) :
  urls_inv h w -> forall u, In u (created (trace w)) -> u < next_url w.
Proof.
  intros (dead & Hr & Hb) u Hu.
  destruct (replay_sound _ _ _ _ _ Hr) as (_ & Hp & _); [constructor|].
  cbn in Hp. rewrite !app_nil_r in Hp.
  apply Hb. eapply Permutation_in; eassumption.
Qed.

Lemma revoked_created (h : option url) (w : World) :
  urls_inv h w ->
  forall u, In u (revoked (trace w)) -> In u (created (trace w)).
Proof.
  intros (dead & Hr & Hb) u Hu.
  destruct (replay_sound _ _ _ _ _ Hr) as (_ & Hp & Hd); [constructor|].
  cbn in Hp, Hd. rewrite !app_nil_r in Hp, Hd.
  eapply Permutation_in; [symmetry; exact Hp|].
  apply in_or_app. right. eapply Permutation_in; eassumption.
Qed.

Ltac kept :=
  unfold downloads_kept, saved, created in *; cbn in *;
  rewrite ?flat_map_app; cbn; rewrite ?app_nil_r;
  match goal with
  | H : forall u, In u _ -> _ |- _ =>
      let u := fresh "u" in
      let Hu := fresh "Hu" in
      intros u Hu; specialize (H u Hu);
      rewrite ?in_app_iff; cbn; intuition lia
  end.

Lemma VideoAnalyzer_keeps_downloads (i : VideoAnalyzer.Instance)
  (e : VideoAnalyzer.Event) :
  downloads_kept (VideoAnalyzer.browser i) ->
  downloads_kept (VideoAnalyzer.browser (VideoAnalyzer.react i e)).
Proof.
  destruct i as [[fi [pv|] l r em er] [c|] m [tr nu inf]];
    unfold VideoAnalyzer.react; cbn; intros H;
    destruct e as [sel| |v| |o|]; cbn; try destruct sel;
    unfold VideoAnalyzer.handleAnalyze, VideoAnalyzer.handleAnalyze_settled;
    branches; kept.
Qed.

Lemma ScriptTransformer_keeps_downloads (i : ScriptTransformer.Instance)
  (e : ScriptTransformer.Event) :
  (forall u, In u (created (trace (ScriptTransformer.browser i))) ->
             u < next_url (ScriptTransformer.browser i)) ->
  downloads_kept (ScriptTransformer.browser i) ->
  downloads_kept (ScriptTransformer.browser (ScriptTransformer.react i e)).
Proof.
  destruct i as [[l r g t er] [tr nu inf]]; cbn; intros Hc H;
    destruct e as [v|v| |o|]; cbn;
    unfold ScriptTransformer.generate_disabled,
      ScriptTransformer.handleGenerate,
      ScriptTransformer.handleGenerate_settled,
      ScriptTransformer.download_button, ScriptTransformer.handleDownload;
    branches; try kept.
  unfold downloads_kept, saved, created in *. cbn in *.
  rewrite !flat_map_app. cbn. rewrite app_nil_r.
  intros u Hu. apply in_app_iff in Hu. cbn in Hu.
  destruct Hu as [Hu|[<-|[]]].
  - specialize (H u Hu). intuition lia.
  - split; [lia|]. intros Hin. apply Hc in Hin. lia.
Qed.

Lemma StoryFlow_keeps_downloads (a : App) (e : Event) :
  inv a -> downloads_kept (page a) ->
  downloads_kept (page (StoryFlow.react a e)).
Proof.
  intros Hinv H.
  assert (Hnav : forall r, downloads_kept (page (navigate r a))).
  { intros r. unfold navigate.
    destruct (same_route r (route (view a))); [exact H|].
    assert (Hw : downloads_kept (leave (view a))).
    { unfold page in H. destruct (view a) as [w|i|i]; cbn; auto.
      apply VideoAnalyzer_keeps_downloads, H. }
    destruct r; exact Hw. }
  destruct e as [| | |r|ev|ev|]; cbn.
  - destruct (view a); auto.
  - destruct (view a); auto.
  - destruct (view a); auto.
  - apply Hnav.
  - destruct a as [[w|i|i] orp]; unfold page, inv in *; cbn in *; auto.
    apply ScriptTransformer_keeps_downloads; [|exact H].
    apply (created_bound None), Hinv.
  - destruct a as [[w|i|i] orp]; unfold page in *; cbn in *;
      try (destruct ev; exact H).
    destruct ev; cbn; try exact H;
      apply VideoAnalyzer_keeps_downloads, H.
  - exact H.
Qed.

Lemma StoryFlow_downloads_run (events : list Event) :
  downloads_kept (page (StoryFlow.run events)).
Proof.
  unfold StoryFlow.run.
  induction events as [|e events IH] using rev_ind.
  - intros u [].
  - rewrite fold_left_app. cbn.
    apply StoryFlow_keeps_downloads; [apply StoryFlow_inv_run|exact IH].
Qed.

End RouteFacts.

(** X21.  The router app, along every run of its events (the cards
    of Home, the Back to Home buttons, moves in the history, the events
    of the page shown, Save Script among them): the URLs of previews
    are created and revoked in pairs across navigation, and the URLs
    of downloads are never revoked.  The only URL of a file alive is
    the preview that VideoAnalyzer holds; at most one request of the
    page shown is out; on Home and on ScriptTransformer no URL of a
    file is alive and every one ever created has been revoked exactly
    once; Back to Home on VideoAnalyzer, with the preview [A] held,
    revokes [A] and does nothing else to the page.  A click on Save
    Script with a script displayed creates one more object URL, for a
    Blob of the script, and no URL of a download is ever among the
    revoked ones: each click leaves one more URL alive. *)
Theorem previews_are_paired_across_routes (events : list StoryFlow.Event) :
  let a := StoryFlow.run events in
  let t := Browser.trace (StoryFlow.page a) in
  (exists dead,
     Browser.replay t [] [] = Some (to_list (StoryFlow.held_url a), dead)) /\
  Browser.in_flight (StoryFlow.page a) <= 1 /\
  (StoryFlow.route (StoryFlow.view a) <> StoryFlow.video_analyzer ->
   StoryFlow.held_url a = None /\
   NoDup (Browser.created t) /\
   Permutation (Browser.created t) (Browser.revoked t)) /\
  (forall A,
     StoryFlow.held_url a = Some A ->
     StoryFlow.route (StoryFlow.view a) = StoryFlow.video_analyzer /\
     Browser.trace
       (StoryFlow.page (StoryFlow.react a StoryFlow.ClickBack))
     = t ++ [Browser.RevokeObjectURL A]) /\
  (forall u, In u (Browser.saved t) -> ~ In u (Browser.revoked t)) /\
  (forall i script,
     StoryFlow.view a = StoryFlow.AtTransformer i ->
     ScriptTransformer.result (ScriptTransformer.state i) = JS.VStr script ->
     script <> "" ->
     Browser.trace
       (StoryFlow.page
          (StoryFlow.react a
             (StoryFlow.InTransformer ScriptTransformer.ClickDownload)))
     = t ++ [Browser.Download
               (ScriptTransformer.download_name (ScriptTransformer.state i))
               script (Browser.next_url (StoryFlow.page a))]).
Proof.
  cbv zeta. pose proof (StoryFlow_inv_run events) as H.
  pose proof (StoryFlow_downloads_run events) as Hd.
  pose proof (StoryFlow_page_urls _ H) as Hu.
  set (a := StoryFlow.run events) in *. clearbody a.
  assert (Hleak : forall u,
             In u (Browser.saved (Browser.trace (StoryFlow.page a))) ->
             ~ In u (Browser.revoked (Browser.trace (StoryFlow.page a)))).
  { intros u Hs Hr. apply (revoked_created _ _ Hu) in Hr.
    apply Hd in Hs. tauto. }
  clear Hd Hu.
  destruct a as [[w|i|i] orp];
    unfold StoryFlow.inv, StoryFlow.page, StoryFlow.held_url in *;
    cbn in *.
  - destruct H as ((dead & Hr & Hb) & Hn).
    split; [exists dead; exact Hr|]. split; [lia|].
    split; [|split; [discriminate|split; [exact Hleak|discriminate]]].
    intros _. split; [reflexivity|]. apply replay_balanced in Hr. exact Hr.
  - destruct H as (Hi & (dead & Hr & Hb)).
    split; [exists dead; exact Hr|]. split.
    + apply (in_flight_bound ScriptTransformerFlow i Hi).
    + split; [|split; [discriminate|split; [exact Hleak|]]].
      * intros _. split; [reflexivity|].
        apply replay_balanced in Hr. exact Hr.
      * intros i' script [= <-] Hres Hne.
        destruct i as [[l r g tx er] [tr nu inf]]. cbn in *. subst r.
        unfold ScriptTransformer.download_button,
          ScriptTransformer.handleDownload. cbn.
        destruct (String.eqb_spec script ""); [contradiction|].
        reflexivity.
  - destruct H as (Hi & Hm).
    pose proof Hi as ((dead & Hr & Hb) & _).
    split; [exists dead; exact Hr|]. split.
    + apply (in_flight_bound VideoAnalyzerFlow i Hi).
    + split; [intros Hne; contradiction Hne; reflexivity|].
      split; [|split; [exact Hleak|discriminate]].
      intros A HA. split; [reflexivity|].
      unfold StoryFlow.navigate. cbn.
      apply VideoAnalyzer_unmount; assumption.
Qed.

Lemma previews_are_paired_across_routes_witness :
  StoryFlow.held_url
    (StoryFlow.run
       [StoryFlow.ClickVideoCard;
        StoryFlow.InAnalyzer (VideoAnalyzer.ChooseFile (Some Sample.clip))])
  = Some 0 /\
  Browser.trace
    (StoryFlow.page
       (StoryFlow.react
          (StoryFlow.run
             [StoryFlow.ClickVideoCard;
              StoryFlow.InAnalyzer
                (VideoAnalyzer.ChooseFile (Some Sample.clip))])
          StoryFlow.ClickBack))
  = Browser.trace
      (StoryFlow.page
         (StoryFlow.run
            [StoryFlow.ClickVideoCard;
             StoryFlow.InAnalyzer
               (VideoAnalyzer.ChooseFile (Some Sample.clip))]))
    ++ [Browser.RevokeObjectURL 0].
Proof.
  split; [vm_compute; reflexivity|].
  apply (proj1 (proj2 (proj2 (proj2
           (previews_are_paired_across_routes
              [StoryFlow.ClickVideoCard;
               StoryFlow.InAnalyzer
                 (VideoAnalyzer.ChooseFile (Some Sample.clip))])))) 0).
  vm_compute; reflexivity.
Defined.

(** A script is saved twice and the analyzer is visited: the preview is
    revoked on the way back, the two URLs of the downloads are not. *)
Example router_scenario :
  let a := StoryFlow.run
             [StoryFlow.ClickScriptCard;
              StoryFlow.InTransformer
                (ScriptTransformer.ChangeText "John sits at the cafe.");
              StoryFlow.InTransformer ScriptTransformer.ClickGenerate;
              StoryFlow.InTransformer
                (ScriptTransformer.Settled
                   (Sample.success
                      (JS.VObj [("final_script", JS.VStr "INT. CAFE - DAY")])));
              StoryFlow.InTransformer ScriptTransformer.ClickDownload;
              StoryFlow.InTransformer ScriptTransformer.ClickDownload;
              StoryFlow.ClickBack;
              StoryFlow.ClickVideoCard;
              StoryFlow.InAnalyzer (VideoAnalyzer.ChooseFile (Some Sample.clip));
              StoryFlow.ClickBack] in
  Browser.saved (Browser.trace (StoryFlow.page a)) = [0; 1] /\
  Browser.created (Browser.trace (StoryFlow.page a)) = [2] /\
  Browser.revoked (Browser.trace (StoryFlow.page a)) = [2].
Proof. repeat split. Qed.
